(** * SimpleAlpaca: a shallow embedding of [src/simple_alpaca.py]

    The wrapper is a facade over the alpaca-py SDK.  The wrapper's own code
    is embedded function by function; the SDK, the remote brokerage service
    and the few Python built-ins whose tables are not part of the repository
    ([datetime.fromisoformat], [float], [str]) are parameters of the
    development, so every theorem holds for whatever they do.

    Conventions.
    - Python [str] is modelled by [string], one character for one code
      point: the strings of the model are the Python strings over the code
      points U+0000 to U+00FF.  On these, [lower], [isdigit], [isalpha] and
      [int] are Python's: the letters and digits of Latin-1 count, not only
      those of ASCII.  Strings with a code point above U+00FF are out of
      the model.
    - The message of an exception a built-in raises is kept short where
      Python's names the offending object; statements about such an
      exception name its class.
    - Python [float] is the binary64 type of [PrimFloat].
    - An exception carries who raised it: [Foreign] wraps what the SDK, the
      remote service or a response object raised; every other constructor
      of [exn] is raised by the wrapper's own code, either by its [raise]
      statement or by a built-in it evaluates.
    - A response is a [value]: the exact built-in types are constructors,
      anything else is a [VObj] described by what the wrapper can observe
      of it.  Values are finite trees, so cyclic responses are out of the
      model. *)

From Stdlib Require Import ZArith List String Ascii Bool Lia DecimalString.
From Stdlib Require Import Floats.PrimFloat Floats.SpecFloat Floats.FloatOps.
Import ListNotations.

Set Warnings "-register-all".
Set Implicit Arguments.

Local Open Scope string_scope.
Local Open Scope Z_scope.

(* ================================================================== *)
(** ** Python strings *)

Module PyStr.

(** The code point of a character. *)
Definition code (c : ascii) : Z := Z.of_N (N_of_ascii c).

Definition between (lo hi : Z) (c : ascii) : bool :=
  (lo <=? code c) && (code c <=? hi).

(** [c.isdecimal()]: the digits [0] to [9], the ones [int] reads. *)
Definition isdecimal (c : ascii) : bool := between 48 57 c.

(** [c.isdigit()]: the decimal digits and the superscripts two, three
    and one (U+00B2, U+00B3, U+00B9). *)
Definition isdigit (c : ascii) : bool :=
  isdecimal c || (code c =? 178) || (code c =? 179) || (code c =? 185).

(** [c.isupper()]: [A] to [Z], and the capitals of Latin-1, U+00C0 to
    U+00DE without the multiplication sign. *)
Definition isupper (c : ascii) : bool :=
  between 65 90 c || between 192 214 c || between 216 222 c.

(** [c.isalpha()]: the letters of ASCII; the ordinal indicators and the
    micro sign (U+00AA, U+00BA, U+00B5); the letters of Latin-1, U+00C0 to
    U+00FF without the multiplication and the division sign. *)
Definition isalpha (c : ascii) : bool :=
  between 65 90 c || between 97 122 c
  || (code c =? 170) || (code c =? 181) || (code c =? 186)
  || between 192 214 c || between 216 246 c || between 248 255 c.

(** [c.lower()]: a capital is 32 code points below its small letter. *)
Definition lower_char (c : ascii) : ascii :=
  if isupper c then ascii_of_N (N_of_ascii c + 32) else c.

(** [s.lower()] *)
Fixpoint lower (s : string) : string :=
  match s with
  | EmptyString => EmptyString
  | String c r => String (lower_char c) (lower r)
  end.

(** [''.join(filter(p, s))] *)
Fixpoint filter (p : ascii -> bool) (s : string) : string :=
  match s with
  | EmptyString => EmptyString
  | String c r => if p c then String c (filter p r) else filter p r
  end.

(** [s.startswith(p)] *)
Fixpoint startswith (s p : string) {struct p} : bool :=
  match p with
  | EmptyString => true
  | String a p' =>
      match s with
      | EmptyString => false
      | String b s' => Ascii.eqb b a && startswith s' p'
      end
  end.

(** [s[:n]] for a non-negative [n]. *)
Definition take (n : nat) (s : string) : string := String.substring 0 n s.

Fixpoint all (p : ascii -> bool) (s : string) : bool :=
  match s with
  | EmptyString => true
  | String c r => p c && all p r
  end.

(** The value of a run of decimal digits, most significant first. *)
Fixpoint digits_value (acc : Z) (s : string) : Z :=
  match s with
  | EmptyString => acc
  | String c r => digits_value (10 * acc + (code c - 48)) r
  end.

(** The number of decimal digits a string starts with. *)
Fixpoint decimal_run (s : string) : nat :=
  match s with
  | EmptyString => 0
  | String c r => if isdecimal c then S (decimal_run r) else 0
  end.

(** [repr(s)] for a string of printable characters without quote or
    backslash, such as a string of digits. *)
Definition quoted (s : string) : string := "'" ++ s ++ "'".

(** [str(n)] for a natural number. *)
Definition of_nat (n : nat) : string := NilZero.string_of_uint (Nat.to_uint n).

(** The one-character strings a [str] yields when iterated. *)
Fixpoint chars (s : string) : list string :=
  match s with
  | EmptyString => []
  | String c r => String c EmptyString :: chars r
  end.

End PyStr.

(* ================================================================== *)
(** ** Exceptions and outcomes *)

(** What the SDK, the service or a response object raised.  The last field
    says whether the class derives from [Exception] (as opposed to a bare
    [BaseException] such as [KeyboardInterrupt]), which is what
    [except Exception] tests. *)
Record foreign : Type := ForeignExc {
  f_class : string;
  f_message : string;
  f_is_Exception : bool
}.

(** What is written between the brackets of [obj[k]]. *)
Inductive subscript : Type :=
| SubStr (s : string)
| SubInt (n : Z).

Inductive exn : Type :=
| ValueError (msg : string)
| KeyError (key : subscript)
| IndexError (msg : string)
| TypeError (msg : string)
| AttributeError (msg : string)
| OverflowError (msg : string)
| StopIteration
| Foreign (e : foreign).

(** [isinstance(e, Exception)] *)
Definition is_Exception (e : exn) : bool :=
  match e with
  | Foreign f => f_is_Exception f
  | _ => true
  end.

(** Raised by the wrapper's own code rather than by the SDK. *)
Definition is_local (e : exn) : bool :=
  match e with
  | Foreign _ => false
  | _ => true
  end.

(** How the evaluation of a Python expression ends: with a value, with an
    exception, or never (a call that blocks for ever). *)
Inductive outcome (A : Type) : Type :=
| Ok (a : A)
| Raise (e : exn)
| Hang.

Arguments Ok {A} a.
Arguments Raise {A} e.
Arguments Hang {A}.

Definition obind {A B} (m : outcome A) (f : A -> outcome B) : outcome B :=
  match m with
  | Ok a => f a
  | Raise e => Raise e
  | Hang => Hang
  end.

Declare Scope outcome_scope.
Delimit Scope outcome_scope with outcome.
Notation "x <- m ;; k" := (obind m (fun x => k))
  (at level 61, m at next level, right associativity) : outcome_scope.

(** What an SDK call answers. *)
Inductive reply (A : Type) : Type :=
| Returned (a : A)
| Raised (e : foreign)
| Blocks.

Arguments Returned {A} a.
Arguments Raised {A} e.
Arguments Blocks {A}.

Definition of_reply {A} (r : reply A) : outcome A :=
  match r with
  | Returned a => Ok a
  | Raised e => Raise (Foreign e)
  | Blocks => Hang
  end.

(* ================================================================== *)
(** ** Python values *)

(** What the wrapper can observe of an object that is not exactly one of
    the built-in types.  Whatever a method of the object raises is the
    object's own, hence a [foreign] exception.

    The record describes one use of the object: what [dict(obj)] or the
    iteration gives the first time.  An object that a use changes (an
    iterator, which [dict(obj)] consumes) answers differently the second
    time, and the record says nothing of that: no method of the wrapper
    converts or iterates the same object twice, and no statement of this
    development does. *)
Record pyobject (V : Type) : Type := PyObject {
  (** the class name, for reading only *)
  o_class : string;
  (** [hasattr(obj, "model_dump")], and what [obj.model_dump()] does *)
  o_model_dump : option (reply V);
  (** [isinstance(obj, (dict, list, str, int, float, bool, type(None)))]:
      an instance of a subclass, such as the SDK's [str] enums *)
  o_builtin : bool;
  (** [hasattr(obj, "__iter__")], and what iterating [obj] yields *)
  o_iter : option (reply (list V));
  (** what [dict(obj)] does *)
  o_todict : reply (list (V * V));
  (** [hasattr(obj, "__dict__")] and [obj.__dict__] *)
  o_vars : option (list (V * V));
  (** data attributes, for [hasattr(obj, name)] and [obj.name] *)
  o_attrs : list (string * V);
  (** [obj[k]], when the class defines [__getitem__] *)
  o_getitem : option (subscript -> reply V);
  (** [obj.values()], when the class defines it *)
  o_values : option (reply (list V))
}.

Inductive value : Type :=
| VNone
| VBool (b : bool)
| VInt (n : Z)
| VFloat (x : float)
| VStr (s : string)
| VList (xs : list value)
| VDict (kvs : list (value * value))
| VObj (o : pyobject value).

Module Py.

(** Truth value of a [float | None] argument. *)
Definition truthy_float (x : option float) : bool :=
  match x with
  | None => false
  | Some f => negb (PrimFloat.eqb f 0%float)
  end.

(** [sys.get_int_max_str_digits()], at its default. *)
Definition int_max_str_digits : Z := 4300.

(** [int(s)] on a [str] of characters that satisfy [str.isdigit], the only
    argument the wrapper passes (what is left by [filter(str.isdigit, ...)]).
    CPython first counts the decimal digits the string starts with and
    refuses more than [int_max_str_digits] of them; then the string must be
    a non-empty run of decimal digits: a superscript digit is no literal.
    The message shows at most 200 characters of the string's [repr]. *)
Definition int_of_str (s : string) : outcome Z :=
  let run := PyStr.decimal_run s in
  if int_max_str_digits <? Z.of_nat run then
    Raise (ValueError
             ("Exceeds the limit (4300 digits) for integer string conversion: value has "
                ++ PyStr.of_nat run
                ++ " digits; use sys.set_int_max_str_digits() to increase the limit"))
  else
    match s with
    | String _ _ =>
        if PyStr.all PyStr.isdecimal s then Ok (PyStr.digits_value 0 s)
        else Raise (ValueError ("invalid literal for int() with base 10: "
                                  ++ PyStr.take 200 (PyStr.quoted s)))
    | EmptyString =>
        Raise (ValueError ("invalid literal for int() with base 10: "
                             ++ PyStr.take 200 (PyStr.quoted s)))
    end.

(** [d[key]] on a literal [dict] with [str] keys. *)
Fixpoint dict_getitem {A} (d : list (string * A)) (key : string) : outcome A :=
  match d with
  | [] => Raise (KeyError (SubStr key))
  | (k, v) :: r => if String.eqb k key then Ok v else dict_getitem r key
  end.

(** [x == n] for a [float] and an [int]: Python compares the exact
    values. *)
Definition float_eq_int (x : float) (n : Z) : bool :=
  match Prim2SF x with
  | S754_zero _ => n =? 0
  | S754_finite negative m e =>
      Bool.eqb negative (n <? 0)
      && (if 0 <=? e then Z.abs n =? Z.pos m * 2 ^ e
          else Z.abs n * 2 ^ (- e) =? Z.pos m)
  | _ => false
  end.

(** Whether a key stored in a [dict] is the one a subscript asks for: a
    [str] matches the same [str]; an [int] matches the numbers equal to it,
    [int], [bool] ([True] is 1) or [float]. *)
Definition key_matches (k : subscript) (v : value) : bool :=
  match k, v with
  | SubStr s, VStr s' => String.eqb s s'
  | SubInt n, VInt m => Z.eqb n m
  | SubInt n, VBool b => Z.eqb n (if b then 1 else 0)
  | SubInt n, VFloat x => float_eq_int x n
  | _, _ => false
  end.

Fixpoint lookup (k : subscript) (kvs : list (value * value)) : outcome value :=
  match kvs with
  | [] => Raise (KeyError k)
  | (k', v) :: r => if key_matches k k' then Ok v else lookup k r
  end.

(** [xs[n]] on a sequence, negative indices counting from the end. *)
Definition seq_index {A} (xs : list A) (n : Z) (what : string) : outcome A :=
  let len := Z.of_nat (List.length xs) in
  let i := if n <? 0 then n + len else n in
  if (i <? 0) || (len <=? i) then Raise (IndexError what)
  else match nth_error xs (Z.to_nat i) with
       | Some x => Ok x
       | None => Raise (IndexError what)
       end.

(** [obj[k]] *)
Definition getitem (obj : value) (k : subscript) : outcome value :=
  match obj with
  | VDict kvs => lookup k kvs
  | VList xs =>
      match k with
      | SubInt n => seq_index xs n "list index out of range"
      | SubStr _ => Raise (TypeError "list indices must be integers or slices, not str")
      end
  | VStr s =>
      match k with
      | SubInt n => seq_index (List.map VStr (PyStr.chars s)) n "string index out of range"
      | SubStr _ => Raise (TypeError "string indices must be integers, not 'str'")
      end
  | VObj o =>
      match o_getitem o with
      | Some f => of_reply (f k)
      | None => Raise (TypeError "object is not subscriptable")
      end
  | _ => Raise (TypeError "object is not subscriptable")
  end.

(** The items a [for] loop or a comprehension draws from [obj]. *)
Definition iterate (obj : value) : outcome (list value) :=
  match obj with
  | VList xs => Ok xs
  | VDict kvs => Ok (List.map fst kvs)
  | VStr s => Ok (List.map VStr (PyStr.chars s))
  | VObj o =>
      match o_iter o with
      | Some r => of_reply r
      | None => Raise (TypeError "object is not iterable")
      end
  | _ => Raise (TypeError "object is not iterable")
  end.

Fixpoint assoc {A} (name : string) (l : list (string * A)) : option A :=
  match l with
  | [] => None
  | (k, v) :: r => if String.eqb k name then Some v else assoc name r
  end.

(** [obj.name] for a data attribute, [None] when [hasattr(obj, name)] is
    false.  None of the built-in types has an attribute called [quote],
    [trade] or [bars], the only names the wrapper probes this way. *)
Definition getattr (obj : value) (name : string) : option value :=
  match obj with
  | VObj o => assoc name (o_attrs o)
  | _ => None
  end.

(** [obj.values()] *)
Definition values (obj : value) : outcome (list value) :=
  match obj with
  | VDict kvs => Ok (List.map snd kvs)
  | VObj o =>
      match o_values o with
      | Some r => of_reply r
      | None => Raise (AttributeError "object has no attribute 'values'")
      end
  | _ => Raise (AttributeError "object has no attribute 'values'")
  end.

(** [next(iter(xs))] *)
Definition next_iter {A} (xs : list A) : outcome A :=
  match xs with
  | x :: _ => Ok x
  | [] => Raise StopIteration
  end.

End Py.

(** [f] is raised by a method of the object [v] or of an object that
    [dict(v)] holds. *)
Inductive object_raises (f : foreign) : value -> Prop :=
| raises_model_dump o :
    o_model_dump o = Some (Raised f) -> object_raises f (VObj o)
| raises_dict o :
    o_todict o = Raised f -> object_raises f (VObj o)
| raises_item o kvs k v :
    o_todict o = Returned kvs -> In (k, v) kvs -> object_raises f v ->
    object_raises f (VObj o)
| raises_getitem o g k :
    o_getitem o = Some g -> g k = Raised f -> object_raises f (VObj o)
| raises_iter o :
    o_iter o = Some (Raised f) -> object_raises f (VObj o)
| raises_values o :
    o_values o = Some (Raised f) -> object_raises f (VObj o).

(* ================================================================== *)
(** ** What the wrapper imports *)

(** [alpaca.trading.enums]: the members the wrapper names. *)
Inductive OrderSide : Type := BUY | SELL.

Inductive OrderType : Type := MARKET | LIMIT | STOP | TRAILING_STOP.

(** A keyword argument handed to [OrderRequest] through keyword unpacking. *)
Inductive kwarg (TIF : Type) : Type :=
| KNone
| KStr (s : string)
| KNum (x : float)
| KSide (s : OrderSide)
| KType (t : OrderType)
| KTif (t : TIF)
| KValue (v : value).

Arguments KNone {TIF}.
Arguments KStr {TIF} s.
Arguments KNum {TIF} x.
Arguments KSide {TIF} s.
Arguments KType {TIF} t.
Arguments KTif {TIF} t.
Arguments KValue {TIF} v.

(** The classes and functions of alpaca-py and of the Python library that
    the wrapper calls and whose code is not in the repository.  A
    constructor that validates its arguments answers with a [reply]. *)
Class Externals : Type := {
  (** [alpaca.trading.enums.TimeInForce] and [TimeInForce(value)] *)
  TimeInForce : Type;
  new_TimeInForce : string -> reply TimeInForce;
  (** [alpaca.data.timeframe] *)
  TimeFrameUnit : Type;
  Minute : TimeFrameUnit;
  Hour : TimeFrameUnit;
  Day : TimeFrameUnit;
  TimeFrame : Type;
  new_TimeFrame : Z -> TimeFrameUnit + string -> reply TimeFrame;
  (** the three clients *)
  TradingClient : Type;
  StockHistoricalDataClient : Type;
  StockDataStream : Type;
  (** request models *)
  OrderRequest : Type;
  new_OrderRequest : list (string * kwarg TimeInForce) -> reply OrderRequest;
  GetOrdersRequest : Type;
  new_GetOrdersRequest : string -> Z -> reply GetOrdersRequest;
  GetAssetsRequest : Type;
  new_GetAssetsRequest : string -> string -> reply GetAssetsRequest;
  StockLatestQuoteRequest : Type;
  new_StockLatestQuoteRequest : string -> reply StockLatestQuoteRequest;
  StockLatestTradeRequest : Type;
  new_StockLatestTradeRequest : string -> reply StockLatestTradeRequest;
  datetime : Type;
  StockBarsRequest : Type;
  new_StockBarsRequest :
    string -> TimeFrame -> datetime -> datetime -> option Z -> reply StockBarsRequest;
  (** [datetime.fromisoformat(s)], [None] when it raises [ValueError] *)
  fromisoformat : string -> option datetime;
  (** [float(s)] on a [str], [None] when it raises [ValueError] *)
  float_of_str : string -> option float;
  (** [float(n)] on an [int], [None] when it raises [OverflowError] *)
  float_of_int : Z -> option float;
  (** [format(v)] inside an f-string *)
  format_value : value -> string;
  (** what the caller passes as [callback] *)
  callback : Type
}.

(* ================================================================== *)
(** ** The conversion helpers *)

(** [SimpleAlpaca._as_json]; [raw] is [self.raw].

<<
    if self.raw: return obj
    if hasattr(obj, "model_dump"): return obj.model_dump()
    if isinstance(obj, (dict, list, str, int, float, bool, type(None))): return obj
    if hasattr(obj, "__iter__"):
        try: return {k: self._as_json(v) for k, v in dict(obj).items()}
        except Exception: pass
    return obj.__dict__ if hasattr(obj, "__dict__") else obj
>> *)
Fixpoint _as_json (raw : bool) (obj : value) {struct obj} : outcome value :=
  if raw then Ok obj else
  match obj with
  | VObj o =>
      match o_model_dump o with
      | Some r => of_reply r
      | None =>
          if o_builtin o then Ok obj else
          let last := match o_vars o with
                      | Some d => Ok (VDict d)
                      | None => Ok obj
                      end in
          let except (e : exn) := if is_Exception e then last else Raise e in
          match o_iter o with
          | Some _ =>
              match o_todict o with
              | Returned kvs =>
                  match
                    (fix items (l : list (value * value)) : outcome (list (value * value)) :=
                       match l with
                       | [] => Ok []
                       | (k, v) :: r =>
                           match _as_json raw v with
                           | Ok v' =>
                               match items r with
                               | Ok r' => Ok ((k, v') :: r')
                               | Raise e => Raise e
                               | Hang => Hang
                               end
                           | Raise e => Raise e
                           | Hang => Hang
                           end
                       end) kvs
                  with
                  | Ok kvs' => Ok (VDict kvs')
                  | Raise e => except e
                  | Hang => Hang
                  end
              | Raised f => except (Foreign f)
              | Blocks => Hang
              end
          | None => last
          end
      end
  | _ => Ok obj
  end.

(** The comprehension [{k: self._as_json(v) for k, v in items}], named so
    that statements can mention it. *)
Fixpoint _as_json_items (raw : bool) (l : list (value * value))
  : outcome (list (value * value)) :=
  match l with
  | [] => Ok []
  | (k, v) :: r =>
      match _as_json raw v with
      | Ok v' =>
          match _as_json_items raw r with
          | Ok r' => Ok ((k, v') :: r')
          | Raise e => Raise e
          | Hang => Hang
          end
      | Raise e => Raise e
      | Hang => Hang
      end
  end.

(** [SimpleAlpaca._side] *)
Definition _side (side : string) : OrderSide :=
  if PyStr.startswith (PyStr.lower side) "b" then BUY else SELL.

Section Coercions.

Context {E : Externals}.

(** [SimpleAlpaca._tif] *)
Definition _tif (tif : string + TimeInForce) : outcome TimeInForce :=
  match tif with
  | inr t => Ok t
  | inl s => of_reply (new_TimeInForce (PyStr.lower s))
  end.

(** The literal dictionary of [_tf_parse]. *)
Definition unit_table : list (string * TimeFrameUnit) :=
  [("min", Minute); ("hour", Hour); ("day", Day)].

(** [SimpleAlpaca._tf_parse] *)
Definition _tf_parse (timeframe : string + Z) (unit : TimeFrameUnit + string)
  : outcome TimeFrame :=
  match timeframe with
  | inl s =>
      (num <- Py.int_of_str (PyStr.filter PyStr.isdigit s) ;;
       let unit_str := PyStr.lower (PyStr.filter PyStr.isalpha s) in
       unit <- Py.dict_getitem unit_table (PyStr.take 3 unit_str) ;;
       of_reply (new_TimeFrame num (inl unit)))%outcome
  | inr n => of_reply (new_TimeFrame n unit)
  end.

End Coercions.

(* ================================================================== *)
(** ** The SDK as a service, and the wrapper's state *)

Section Wrapper.

Context {E : Externals}.

(** The calls the wrapper makes on the SDK's clients, with their
    arguments.  Each one may reach the remote service. *)
Inductive call : Type :=
| TradingClient_new (api_key secret_key : string) (paper : bool)
| StockHistoricalDataClient_new (api_key secret_key : string)
| StockDataStream_new (api_key secret_key : string)
| TradingClient_get_account (c : TradingClient)
| TradingClient_get_all_positions (c : TradingClient)
| TradingClient_get_position (c : TradingClient) (symbol : string)
| TradingClient_submit_order (c : TradingClient) (req : OrderRequest)
| TradingClient_cancel_order_by_id (c : TradingClient) (order_id : string)
| TradingClient_cancel_orders (c : TradingClient)
| TradingClient_get_orders (c : TradingClient) (req : GetOrdersRequest)
| TradingClient_get_order_by_id (c : TradingClient) (order_id : string)
| TradingClient_close_position (c : TradingClient) (symbol : string)
| TradingClient_close_all_positions (c : TradingClient)
| TradingClient_get_all_assets (c : TradingClient) (req : GetAssetsRequest)
| Historical_get_stock_latest_quote
    (h : StockHistoricalDataClient) (req : StockLatestQuoteRequest)
| Historical_get_stock_latest_trade
    (h : StockHistoricalDataClient) (req : StockLatestTradeRequest)
| Historical_get_stock_bars (h : StockHistoricalDataClient) (req : StockBarsRequest)
(** [get_stock_bars(symbol, tf, limit=1)], the form [get_last_bar] uses *)
| Historical_get_stock_bars_args
    (h : StockHistoricalDataClient) (symbol : string) (tf : TimeFrame) (limit : Z)
| StockDataStream_subscribe_bars
    (ws : StockDataStream) (handler : callback) (symbol : string)
| StockDataStream_run (ws : StockDataStream).

(** What a call returns when it returns. *)
Definition answer (c : call) : Type :=
  match c with
  | TradingClient_new _ _ _ => TradingClient
  | StockHistoricalDataClient_new _ _ => StockHistoricalDataClient
  | StockDataStream_new _ _ => StockDataStream
  | _ => value
  end.

(** The response a call returns, when what it returns is a response and
    not a client. *)
Definition response_of (c : call) : answer c -> option value :=
  match c return answer c -> option value with
  | TradingClient_new _ _ _ => fun _ => None
  | StockHistoricalDataClient_new _ _ => fun _ => None
  | StockDataStream_new _ _ => fun _ => None
  | _ => fun a => Some a
  end.

Inductive status : Type :=
| Completed
| Threw (e : foreign)
| NeverReturned.

Definition status_of {A} (r : reply A) : status :=
  match r with
  | Returned _ => Completed
  | Raised e => Threw e
  | Blocks => NeverReturned
  end.

(** One entry of the history of SDK calls. *)
Definition event : Type := call * status.

(** The SDK with the remote service behind it: a state and what each
    call answers in it. *)
Class Service : Type := {
  remote : Type;
  perform : forall c : call, remote -> reply (answer c) * remote
}.

Context {Sv : Service}.

Record world : Type := World {
  service : remote;
  trace : list event
}.

(** The fields of a [SimpleAlpaca] instance. *)
Record SimpleAlpaca : Type := Instance_ {
  raw : bool;
  _trade : TradingClient;
  _hist : StockHistoricalDataClient;
  _ws : option StockDataStream;
  _api_key : string;
  _secret : string
}.

Record store : Type := Store {
  this : SimpleAlpaca;
  env : world
}.

(** *** The state and exception monad *)

Definition M (S A : Type) : Type := S -> outcome A * S.

Definition ret {S A} (a : A) : M S A := fun s => (Ok a, s).

Definition bind {S A B} (m : M S A) (f : A -> M S B) : M S B :=
  fun s =>
    match m s with
    | (Ok a, s') => f a s'
    | (Raise e, s') => (Raise e, s')
    | (Hang, s') => (Hang, s')
    end.

Definition raise {S A} (e : exn) : M S A := fun s => (Raise e, s).

(** An expression that touches no state. *)
Definition pure {S A} (r : outcome A) : M S A := fun s => (r, s).

(** One call on the SDK, recorded in the history. *)
Definition invoke (c : call) : M world (answer c) :=
  fun w =>
    let (r, s') := perform c (service w) in
    (of_reply r, {| service := s'; trace := trace w ++ [(c, status_of r)] |}).

Definition sdk {A} (m : M world A) : M store A :=
  fun st =>
    let (r, w') := m (env st) in
    (r, {| this := this st; env := w' |}).

Definition self : M store SimpleAlpaca := fun st => (Ok (this st), st).

Definition set_ws (h : StockDataStream) : M store unit :=
  fun st =>
    let o := this st in
    (Ok tt,
     {| this := {| raw := raw o; _trade := _trade o; _hist := _hist o;
                   _ws := Some h;
                   _api_key := _api_key o; _secret := _secret o |};
        env := env st |}).

End Wrapper.

Declare Scope py_scope.
Delimit Scope py_scope with py.
Notation "x <- m ;; k" := (bind m (fun x => k))
  (at level 61, m at next level, right associativity) : py_scope.
Notation "m ;;; k" := (bind m (fun _ => k))
  (at level 61, right associativity) : py_scope.

(* ================================================================== *)
(** ** The methods of [SimpleAlpaca] *)

Section Methods.

Context {E : Externals} {Sv : Service}.

Local Open Scope py_scope.

(** [SimpleAlpaca.__init__] *)
Definition __init__ (api_key secret_key : string) (paper raw_data : bool)
  : M world SimpleAlpaca :=
  trade <- invoke (TradingClient_new api_key secret_key paper) ;;
  hist <- invoke (StockHistoricalDataClient_new api_key secret_key) ;;
  ret {| raw := raw_data; _trade := trade; _hist := hist; _ws := None;
         _api_key := api_key; _secret := secret_key |}.

(** [self._as_json(obj)] as a step of a method. *)
Definition as_json (obj : value) : M store value :=
  o <- self ;; pure (_as_json (raw o) obj).

(** [[self._as_json(x) for x in xs]] once [xs] has been drawn. *)
Fixpoint as_json_list (raw : bool) (xs : list value) : outcome (list value) :=
  match xs with
  | [] => Ok []
  | x :: r =>
      (x' <- _as_json raw x ;; r' <- as_json_list raw r ;; Ok (x' :: r'))%outcome
  end.

(** [[self._as_json(x) for x in response]] *)
Definition as_json_each (response : value) : M store value :=
  o <- self ;;
  pure (xs <- Py.iterate response ;;
        ys <- as_json_list (raw o) xs ;;
        Ok (VList ys))%outcome.

(** *** account / positions *)

Definition get_account_json : M store value :=
  o <- self ;;
  acct <- sdk (invoke (TradingClient_get_account (_trade o))) ;;
  as_json acct.

Definition get_positions : M store value :=
  o <- self ;;
  ps <- sdk (invoke (TradingClient_get_all_positions (_trade o))) ;;
  as_json_each ps.

Definition get_position (symbol : string) : M store value :=
  o <- self ;;
  p <- sdk (invoke (TradingClient_get_position (_trade o) symbol)) ;;
  as_json p.

Definition portfolio_summary : M store value :=
  acct <- get_account_json ;;
  positions <- get_positions ;;
  cash <- pure (Py.getitem acct (SubStr "cash")) ;;
  buying_power <- pure (Py.getitem acct (SubStr "buying_power")) ;;
  portfolio_value <- pure (Py.getitem acct (SubStr "portfolio_value")) ;;
  ret (VDict [(VStr "cash", cash);
              (VStr "buying_power", buying_power);
              (VStr "portfolio_value", portfolio_value);
              (VStr "positions", positions)]).

(** *** order helpers *)

Definition kwargs : Type := list (string * kwarg TimeInForce).

(** [SimpleAlpaca._submit] *)
Definition _submit (kw : kwargs) : M store value :=
  o <- self ;;
  req <- pure (of_reply (new_OrderRequest kw)) ;;
  order <- sdk (invoke (TradingClient_submit_order (_trade o) req)) ;;
  as_json order.

Definition market_buy (symbol : string) (qty : float) (tif : string + TimeInForce)
  : M store value :=
  t <- pure (_tif tif) ;;
  _submit [("symbol", KStr symbol); ("qty", KNum qty); ("side", KSide BUY);
           ("type", KType MARKET); ("time_in_force", KTif t)].

Definition market_sell (symbol : string) (qty : float) (tif : string + TimeInForce)
  : M store value :=
  t <- pure (_tif tif) ;;
  _submit [("symbol", KStr symbol); ("qty", KNum qty); ("side", KSide SELL);
           ("type", KType MARKET); ("time_in_force", KTif t)].

Definition limit_order (symbol : string) (qty limit_price : float)
           (side : string) (tif : string + TimeInForce) : M store value :=
  let s := _side side in
  t <- pure (_tif tif) ;;
  _submit [("symbol", KStr symbol); ("qty", KNum qty); ("side", KSide s);
           ("type", KType LIMIT); ("limit_price", KNum limit_price);
           ("time_in_force", KTif t)].

Definition stop_loss (symbol : string) (qty stop_price : float)
           (side : string) (tif : string + TimeInForce) : M store value :=
  let s := _side side in
  t <- pure (_tif tif) ;;
  _submit [("symbol", KStr symbol); ("qty", KNum qty); ("side", KSide s);
           ("type", KType STOP); ("stop_price", KNum stop_price);
           ("time_in_force", KTif t)].

Definition optional_float (x : option float) : kwarg TimeInForce :=
  match x with
  | Some f => KNum f
  | None => KNone
  end.

Definition trailing_stop (symbol : string) (qty : float)
           (trail_percent trail_price : option float)
           (side : string) (tif : string + TimeInForce) : M store value :=
  if negb (Py.truthy_float trail_percent || Py.truthy_float trail_price)
  then raise (ValueError "Specify trail_percent or trail_price.")
  else
    let s := _side side in
    t <- pure (_tif tif) ;;
    _submit [("symbol", KStr symbol); ("qty", KNum qty); ("side", KSide s);
             ("type", KType TRAILING_STOP);
             ("trail_percent", optional_float trail_percent);
             ("trail_price", optional_float trail_price);
             ("time_in_force", KTif t)].

Definition submit_custom_order (alpaca_order_kwargs : kwargs) : M store value :=
  _submit alpaca_order_kwargs.

(** *** cancel / query *)

Definition cancel_order (order_id : string) : M store value :=
  o <- self ;;
  sdk (invoke (TradingClient_cancel_order_by_id (_trade o) order_id)) ;;;
  ret VNone.

Definition cancel_all_orders : M store value :=
  o <- self ;;
  sdk (invoke (TradingClient_cancel_orders (_trade o))) ;;;
  ret VNone.

Definition list_orders (status : string) (limit : Z) : M store value :=
  o <- self ;;
  req <- pure (of_reply (new_GetOrdersRequest status limit)) ;;
  os <- sdk (invoke (TradingClient_get_orders (_trade o) req)) ;;
  as_json_each os.

Definition get_order (order_id : string) : M store value :=
  o <- self ;;
  r <- sdk (invoke (TradingClient_get_order_by_id (_trade o) order_id)) ;;
  as_json r.

(** *** closing positions *)

Definition close_position (symbol : string) : M store value :=
  o <- self ;;
  sdk (invoke (TradingClient_close_position (_trade o) symbol)) ;;;
  ret VNone.

Definition close_all_positions : M store value :=
  o <- self ;;
  sdk (invoke (TradingClient_close_all_positions (_trade o))) ;;;
  ret VNone.

(** *** assets *)

Definition list_assets (status asset_class : string) : M store value :=
  o <- self ;;
  req <- pure (of_reply (new_GetAssetsRequest status asset_class)) ;;
  assets <- sdk (invoke (TradingClient_get_all_assets (_trade o) req)) ;;
  as_json_each assets.

(** *** market-data helpers *)

Definition get_last_quote (symbol : string) : M store value :=
  o <- self ;;
  req <- pure (of_reply (new_StockLatestQuoteRequest symbol)) ;;
  data <- sdk (invoke (Historical_get_stock_latest_quote (_hist o) req)) ;;
  quote <- pure (match Py.getattr data "quote" with
                 | Some q => Ok q
                 | None => (vs <- Py.values data ;; Py.next_iter vs)%outcome
                 end) ;;
  as_json quote.

Definition get_last_trade (symbol : string) : M store value :=
  o <- self ;;
  req <- pure (of_reply (new_StockLatestTradeRequest symbol)) ;;
  data <- sdk (invoke (Historical_get_stock_latest_trade (_hist o) req)) ;;
  trade <- pure (match Py.getattr data "trade" with
                 | Some t => Ok t
                 | None => (vs <- Py.values data ;; Py.next_iter vs)%outcome
                 end) ;;
  as_json trade.

Definition get_last_bar (symbol : string) (timeframe : string + Z) : M store value :=
  o <- self ;;
  tf <- pure (_tf_parse timeframe (inl Minute)) ;;
  bars <- sdk (invoke (Historical_get_stock_bars_args (_hist o) symbol tf 1)) ;;
  bar <- pure (Py.getitem bars (SubInt (-1))) ;;
  as_json bar.

(** [x if isinstance(x, datetime) else datetime.fromisoformat(x)] *)
Definition to_datetime (x : string + datetime) : outcome datetime :=
  match x with
  | inr d => Ok d
  | inl s =>
      match fromisoformat s with
      | Some d => Ok d
      | None => Raise (ValueError "Invalid isoformat string")
      end
  end.

Definition get_historical_bars (symbol : string) (timeframe : string + Z)
           (start end_ : string + datetime) (limit : option Z) : M store value :=
  o <- self ;;
  tf <- pure (_tf_parse timeframe (inl Minute)) ;;
  start_dt <- pure (to_datetime start) ;;
  end_dt <- pure (to_datetime end_) ;;
  req <- pure (of_reply (new_StockBarsRequest symbol tf start_dt end_dt limit)) ;;
  raw_ <- sdk (invoke (Historical_get_stock_bars (_hist o) req)) ;;
  bars <- pure (match Py.getattr raw_ "bars" with
                | Some b => Py.getitem b (SubStr symbol)
                | None => Py.getitem raw_ (SubStr symbol)
                end) ;;
  as_json_each bars.

(** *** live streaming *)

(** [SimpleAlpaca._ensure_ws].  A [StockDataStream] instance is true in
    a condition, so [not self._ws] holds exactly when the field is still
    [None]. *)
Definition _ensure_ws : M store unit :=
  o <- self ;;
  match _ws o with
  | Some _ => ret tt
  | None =>
      h <- sdk (invoke (StockDataStream_new (_api_key o) (_secret o))) ;;
      set_ws h
  end.

(** Reading [self._ws] to call a method on it. *)
Definition the_ws : M store StockDataStream :=
  o <- self ;;
  match _ws o with
  | Some h => ret h
  | None => raise (AttributeError "'NoneType' object has no attribute")
  end.

(** [for sym in symbols: self._ws.subscribe_bars(callback, sym)] *)
Fixpoint subscribe_each (symbols : list string) (handler : callback) : M store unit :=
  match symbols with
  | [] => ret tt
  | sym :: rest =>
      ws <- the_ws ;;
      sdk (invoke (StockDataStream_subscribe_bars ws handler sym)) ;;;
      subscribe_each rest handler
  end.

(** [SimpleAlpaca.subscribe_price]; [symbols] are the items the iterable
    yields, [handler] is the [callback] argument. *)
Definition subscribe_price (symbols : list string) (handler : callback)
  : M store value :=
  _ensure_ws ;;;
  subscribe_each symbols handler ;;;
  ws <- the_ws ;;
  sdk (invoke (StockDataStream_run ws)) ;;;
  ret VNone.

(** *** quality-of-life *)

(** [float(v)]; an object defining [__float__] is not modelled. *)
Definition float_ (v : value) : outcome float :=
  match v with
  | VFloat x => Ok x
  | VBool b => Ok (if b then 1%float else 0%float)
  | VInt n =>
      match float_of_int n with
      | Some x => Ok x
      | None => Raise (OverflowError "int too large to convert to float")
      end
  | VStr s =>
      match float_of_str s with
      | Some x => Ok x
      | None => Raise (ValueError "could not convert string to float")
      end
  | _ => Raise (TypeError "float() argument must be a string or a real number")
  end.

Definition cash : M store float :=
  acct <- get_account_json ;;
  pure (c <- Py.getitem acct (SubStr "cash") ;; float_ c)%outcome.

Definition buying_power : M store float :=
  acct <- get_account_json ;;
  pure (c <- Py.getitem acct (SubStr "buying_power") ;; float_ c)%outcome.

Definition __repr__ : M store string :=
  acct <- get_account_json ;;
  c <- pure (Py.getitem acct (SubStr "cash")) ;;
  p <- pure (Py.getitem acct (SubStr "portfolio_value")) ;;
  ret ("<SimpleAlpaca cash=$" ++ format_value c ++ " portfolio=$"
         ++ format_value p ++ ">")%string.

End Methods.

(* ================================================================== *)
(** ** The public surface *)

Section Surface.

Context {E : Externals} {Sv : Service}.

Local Open Scope py_scope.

(** One call of a public method with its arguments. *)
Inductive method : Type :=
| Get_account_json
| Get_positions
| Get_position (symbol : string)
| Portfolio_summary
| Market_buy (symbol : string) (qty : float) (tif : string + TimeInForce)
| Market_sell (symbol : string) (qty : float) (tif : string + TimeInForce)
| Limit_order (symbol : string) (qty limit_price : float)
              (side : string) (tif : string + TimeInForce)
| Stop_loss (symbol : string) (qty stop_price : float)
            (side : string) (tif : string + TimeInForce)
| Trailing_stop (symbol : string) (qty : float)
                (trail_percent trail_price : option float)
                (side : string) (tif : string + TimeInForce)
| Submit_custom_order (alpaca_order_kwargs : kwargs)
| Cancel_order (order_id : string)
| Cancel_all_orders
| List_orders (status : string) (limit : Z)
| Get_order (order_id : string)
| Close_position (symbol : string)
| Close_all_positions
| List_assets (status asset_class : string)
| Get_last_quote (symbol : string)
| Get_last_trade (symbol : string)
| Get_last_bar (symbol : string) (timeframe : string + Z)
| Get_historical_bars (symbol : string) (timeframe : string + Z)
                      (start end_ : string + datetime) (limit : option Z)
| Subscribe_price (symbols : list string) (handler : callback)
| Cash
| Buying_power
| Repr.

Definition call_method (m : method) : M store value :=
  match m with
  | Get_account_json => get_account_json
  | Get_positions => get_positions
  | Get_position symbol => get_position symbol
  | Portfolio_summary => portfolio_summary
  | Market_buy symbol qty tif => market_buy symbol qty tif
  | Market_sell symbol qty tif => market_sell symbol qty tif
  | Limit_order symbol qty limit_price side tif =>
      limit_order symbol qty limit_price side tif
  | Stop_loss symbol qty stop_price side tif =>
      stop_loss symbol qty stop_price side tif
  | Trailing_stop symbol qty trail_percent trail_price side tif =>
      trailing_stop symbol qty trail_percent trail_price side tif
  | Submit_custom_order kw => submit_custom_order kw
  | Cancel_order order_id => cancel_order order_id
  | Cancel_all_orders => cancel_all_orders
  | List_orders status limit => list_orders status limit
  | Get_order order_id => get_order order_id
  | Close_position symbol => close_position symbol
  | Close_all_positions => close_all_positions
  | List_assets status asset_class => list_assets status asset_class
  | Get_last_quote symbol => get_last_quote symbol
  | Get_last_trade symbol => get_last_trade symbol
  | Get_last_bar symbol timeframe => get_last_bar symbol timeframe
  | Get_historical_bars symbol timeframe start end_ limit =>
      get_historical_bars symbol timeframe start end_ limit
  | Subscribe_price symbols handler => subscribe_price symbols handler
  | Cash => x <- cash ;; ret (VFloat x)
  | Buying_power => x <- buying_power ;; ret (VFloat x)
  | Repr => s <- __repr__ ;; ret (VStr s)
  end.

(** A client program: public methods called one after the other, the
    caller going on after an exception; nothing follows a call that never
    returns. *)
Fixpoint run_methods (ms : list method) (st : store) : store :=
  match ms with
  | [] => st
  | m :: rest =>
      match call_method m st with
      | (Hang, st') => st'
      | (_, st') => run_methods rest st'
      end
  end.

(** The instance [__init__] leaves behind, when it returns. *)
Definition construct (api_key secret_key : string) (paper raw_data : bool)
           (w : world) : option store :=
  match __init__ api_key secret_key paper raw_data w with
  | (Ok o, w') => Some {| this := o; env := w' |}
  | _ => None
  end.

(** *** Vocabulary of the statements *)

(** Lower-casing as a table: the capital letters with the small letters
    they stand for, by code point: [A] to [Z], then the capitals of
    Latin-1. *)
Definition case_pairs : list (Z * Z) :=
  [(65, 97); (66, 98); (67, 99); (68, 100); (69, 101); (70, 102); (71, 103);
   (72, 104); (73, 105); (74, 106); (75, 107); (76, 108); (77, 109); (78, 110);
   (79, 111); (80, 112); (81, 113); (82, 114); (83, 115); (84, 116); (85, 117);
   (86, 118); (87, 119); (88, 120); (89, 121); (90, 122);
   (192, 224); (193, 225); (194, 226); (195, 227); (196, 228); (197, 229);
   (198, 230); (199, 231); (200, 232); (201, 233); (202, 234); (203, 235);
   (204, 236); (205, 237); (206, 238); (207, 239); (208, 240); (209, 241);
   (210, 242); (211, 243); (212, 244); (213, 245); (214, 246);
   (216, 248); (217, 249); (218, 250); (219, 251); (220, 252); (221, 253);
   (222, 254)].

(** The small letter of a capital; any other character is itself. *)
Definition small_of (c : ascii) : ascii :=
  match List.find (fun p => fst p =? PyStr.code c) case_pairs with
  | Some p => ascii_of_N (Z.to_N (snd p))
  | None => c
  end.

(** A string lower-cased: every capital replaced by its small letter. *)
Fixpoint lowercased (s : string) : string :=
  match s with
  | EmptyString => EmptyString
  | String c r => String (small_of c) (lowercased r)
  end.



(** The first [n] letters of a string, as small letters: the string is
    gone through from the left and what is no letter is skipped. *)
Fixpoint first_letters (n : nat) (s : string) {struct s} : string :=
  match s with
  | EmptyString => EmptyString
  | String c r =>
      match n with
      | O => EmptyString
      | S n' =>
          if PyStr.isalpha c then String (small_of c) (first_letters n' r)
          else first_letters n r
      end
  end.

(** The digits of a string, in their order. *)
Definition digits_of (s : string) : string := PyStr.filter PyStr.isdigit s.

(** A string [int] reads as a number: at least one and at most 4300
    characters, all of them decimal digits. *)
Definition int_readable (d : string) : bool :=
  negb (String.eqb d "")
  && PyStr.all PyStr.isdecimal d
  && (Z.of_nat (String.length d) <=? 4300).

(** The keyword arguments [trailing_stop] hands to [_submit]. *)
Definition trailing_stop_kwargs (symbol : string) (qty : float)
           (trail_percent trail_price : option float) (side : string)
           (t : TimeInForce) : kwargs :=
  [("symbol", KStr symbol); ("qty", KNum qty); ("side", KSide (_side side));
   ("type", KType TRAILING_STOP);
   ("trail_percent", optional_float trail_percent);
   ("trail_price", optional_float trail_price);
   ("time_in_force", KTif t)].

(** The streams successfully created in a history. *)
Definition is_creation (ev : event) : bool :=
  match ev with
  | (StockDataStream_new _ _, Completed) => true
  | _ => false
  end.

Definition creations (tr : list event) : nat :=
  List.length (List.filter is_creation tr).

Definition is_run (c : call) : bool :=
  match c with
  | StockDataStream_run _ => true
  | _ => false
  end.

(** The calls [subscribe_price] is meant to make on the stream [ws]. *)
Definition subscription_calls (ws : StockDataStream) (symbols : list string)
           (handler : callback) : list call :=
  List.map (StockDataStream_subscribe_bars ws handler) symbols
    ++ [StockDataStream_run ws].

(** A string whose first character is [b] or [B]. *)
Definition starts_with_b_or_B (s : string) : bool :=
  match s with
  | String c _ => Ascii.eqb c "b" || Ascii.eqb c "B"
  | EmptyString => false
  end.

(** The attempt of [_as_json] to flatten [o] through [dict(o)] is given
    up: [o] has no [__iter__], or [dict(o)] or the conversion of one of
    its values raised an [Exception]. *)
Definition flattening_given_up (o : pyobject value) : Prop :=
  o_iter o = None
  \/ (exists f, o_todict o = Raised f /\ f_is_Exception f = true)
  \/ (exists kvs e, o_todict o = Returned kvs
                   /\ _as_json_items false kvs = Raise e
                   /\ is_Exception e = true).

(** The failures of the built-ins the wrapper evaluates. *)

(** [_tf_parse] on a [str]: the [ValueError] of [int] when the digits of
    the string are no number, the [KeyError] of the lookup in the unit
    table otherwise. *)
Definition timeframe_error (e : exn) : Prop :=
  match e with
  | ValueError _ => True
  | KeyError (SubStr _) => True
  | _ => False
  end.

(** [datetime.fromisoformat]: a [ValueError]. *)
Definition date_error (e : exn) : Prop :=
  match e with
  | ValueError _ => True
  | _ => False
  end.

(** A response that lacks the shape a method probes for: it cannot be
    iterated or subscripted, or lacks the key, index or attribute. *)
Definition shape_error (e : exn) : Prop :=
  match e with
  | TypeError _ | KeyError _ | IndexError _ | AttributeError _ | StopIteration => True
  | _ => False
  end.

(** [float(x)] *)
Definition conversion_error (e : exn) : Prop :=
  match e with
  | ValueError _ | OverflowError _ | TypeError _ => True
  | _ => False
  end.

(** The exceptions each public method can raise by itself. *)
Definition may_raise_locally (m : method) (e : exn) : Prop :=
  match m with
  | Trailing_stop _ _ _ _ _ _ =>
      e = ValueError "Specify trail_percent or trail_price."
  | Get_positions | List_orders _ _ | List_assets _ _
  | Get_last_quote _ | Get_last_trade _ | Portfolio_summary | Repr =>
      shape_error e
  | Cash | Buying_power => shape_error e \/ conversion_error e
  | Get_last_bar _ _ => timeframe_error e \/ shape_error e
  | Get_historical_bars _ _ _ _ _ =>
      timeframe_error e \/ date_error e \/ shape_error e
  | _ => False
  end.

(** Where an exception of the SDK can come from: a call on a client that
    raises it; a constructor that validates its arguments; or a method of
    an object that a call on a client returned. *)
Inductive sdk_origin (f : foreign) : Prop :=
| from_call (c : call) (s : remote) :
    fst (perform c s) = Raised f -> sdk_origin f
| from_TimeInForce (s : string) :
    new_TimeInForce s = Raised f -> sdk_origin f
| from_TimeFrame (n : Z) (u : TimeFrameUnit + string) :
    new_TimeFrame n u = Raised f -> sdk_origin f
| from_OrderRequest (kw : kwargs) :
    new_OrderRequest kw = Raised f -> sdk_origin f
| from_GetOrdersRequest (status : string) (limit : Z) :
    new_GetOrdersRequest status limit = Raised f -> sdk_origin f
| from_GetAssetsRequest (status asset_class : string) :
    new_GetAssetsRequest status asset_class = Raised f -> sdk_origin f
| from_StockLatestQuoteRequest (symbol : string) :
    new_StockLatestQuoteRequest symbol = Raised f -> sdk_origin f
| from_StockLatestTradeRequest (symbol : string) :
    new_StockLatestTradeRequest symbol = Raised f -> sdk_origin f
| from_StockBarsRequest (symbol : string) (tf : TimeFrame)
                        (a b : datetime) (limit : option Z) :
    new_StockBarsRequest symbol tf a b limit = Raised f -> sdk_origin f
| from_response (c : call) (s : remote) (a : answer c) (v : value) :
    fst (perform c s) = Returned a -> response_of c a = Some v ->
    object_raises f v -> sdk_origin f.

(** *** The stream session, with the handle made explicit *)

(** [subscribe_each] once [self._ws] is known to be [ws]. *)
Fixpoint subscribe_all (ws : StockDataStream) (symbols : list string)
         (handler : callback) : M store unit :=
  match symbols with
  | [] => ret tt
  | sym :: rest =>
      sdk (invoke (StockDataStream_subscribe_bars ws handler sym)) ;;;
      subscribe_all ws rest handler
  end.

(** What [subscribe_price] does after [_ensure_ws]. *)
Definition stream_session (ws : StockDataStream) (symbols : list string)
           (handler : callback) : M store value :=
  subscribe_all ws symbols handler ;;;
  sdk (invoke (StockDataStream_run ws)) ;;;
  ret VNone.

(** The histories a session on [ws] can leave: the registrations in the
    order of the symbols, each completed, then the receive loop; or the
    registrations up to one that did not complete, and nothing after
    it. *)
Inductive session_trace (ws : StockDataStream) (handler : callback)
  : list string -> list event -> Prop :=
| session_run (st : status) :
    session_trace ws handler [] [(StockDataStream_run ws, st)]
| session_next (sym : string) (rest : list string) (evs : list event) :
    session_trace ws handler rest evs ->
    session_trace ws handler (sym :: rest)
      ((StockDataStream_subscribe_bars ws handler sym, Completed) :: evs)
| session_stop (sym : string) (rest : list string) (st : status) :
    st <> Completed ->
    session_trace ws handler (sym :: rest)
      [(StockDataStream_subscribe_bars ws handler sym, st)].

(** The number of times the receive loop is entered in a history. *)
Definition runs (evs : list event) : nat :=
  List.length (List.filter (fun ev => is_run (fst ev)) evs).

(** *** Two ways of reading a method *)

(** Every exception [m] can raise satisfies [R]. *)
Definition raises_in {S A} (R : exn -> Prop) (m : M S A) : Prop :=
  forall s e, fst (m s) = Raise e -> R e.

(** An exception of the SDK, whichever, or one of the local ones that
    [L] admits. *)
Definition allowed (L : exn -> Prop) (e : exn) : Prop :=
  match e with
  | Foreign _ => True
  | _ => L e
  end.

(** Every run of [m] relates the state it starts from to the one it
    leaves. *)
Definition steps {A} (R : store -> store -> Prop) (m : M store A) : Prop :=
  forall s, R s (snd (m s)).

(** The fields of the instance are what they were, and no stream was
    created. *)
Definition same_instance (s s' : store) : Prop :=
  this s' = this s
  /\ creations (trace (env s')) = creations (trace (env s)).

(** The stream field is set exactly when one stream has been created. *)
Definition stream_invariant (s : store) : Prop :=
  match _ws (this s) with
  | None => creations (trace (env s)) = 0%nat
  | Some _ => creations (trace (env s)) = 1%nat
  end.

(** What the history has gained between two states. *)
Definition added (s s' : store) (evs : list event) : Prop :=
  trace (env s') = (trace (env s) ++ evs)%list.

(** Every call of a history returned. *)
Definition completed (evs : list event) : Prop :=
  Forall (fun ev => snd ev = Completed) evs.

(** How a run of [m] ends, read off the history it adds.  Either every
    call it made returned; or every call returned but the last one, and
    [m] ends as that call did: it raises what the call raised, unchanged,
    or does not return. *)
Definition ends_as_its_calls {A} (m : M store A) : Prop :=
  forall s, exists evs,
    added s (snd (m s)) evs
    /\ (completed evs
        \/ exists pre c st,
             evs = (pre ++ [(c, st)])%list
             /\ completed pre
             /\ match st with
                | Completed => False
                | Threw f => fst (m s) = Raise (Foreign f)
                | NeverReturned => fst (m s) = Hang
                end).

(** *** Vocabulary of the further statements *)

(** The number of SDK calls a public method may make. *)
Definition call_budget (m : method) : nat :=
  match m with
  | Portfolio_summary => 2
  | Subscribe_price symbols _ => 2 + List.length symbols
  | _ => 1
  end.

(** Every run of [m] adds at most [n] entries to the history. *)
Definition calls_within {A} (n : nat) (m : M store A) : Prop :=
  forall s, exists evs, added s (snd (m s)) evs /\ (List.length evs <= n)%nat.

(** The fields [__init__] sets from its arguments. *)
Definition same_config (o o' : SimpleAlpaca) : Prop :=
  raw o' = raw o /\ _trade o' = _trade o /\ _hist o' = _hist o
  /\ _api_key o' = _api_key o /\ _secret o' = _secret o.

(** A call a method of the instance [o] may make: no client is built
    again, and a stream is built with the credentials [o] holds. *)
Definition lawful_call (o : SimpleAlpaca) (c : call) : Prop :=
  match c with
  | TradingClient_new _ _ _ => False
  | StockHistoricalDataClient_new _ _ => False
  | StockDataStream_new k sec => k = _api_key o /\ sec = _secret o
  | _ => True
  end.

(** The instance keeps its configuration and makes lawful calls only. *)
Definition configured (s s' : store) : Prop :=
  same_config (this s) (this s')
  /\ exists evs, added s s' evs /\ Forall (fun ev => lawful_call (this s) (fst ev)) evs.

(** What [get_last_quote] and [get_last_trade] pick from a response. *)
Definition pick (name : string) (data : value) : outcome value :=
  match Py.getattr data name with
  | Some q => Ok q
  | None => (vs <- Py.values data ;; Py.next_iter vs)%outcome
  end.

(** The comprehension over the bars once they are found. *)
Definition listing (raw : bool) (bars : value) : outcome value :=
  (xs <- Py.iterate bars ;; ys <- as_json_list raw xs ;; Ok (VList ys))%outcome.

(** Whether [hasattr(v, "model_dump")] holds. *)
Definition has_model_dump (v : value) : bool :=
  match v with
  | VObj o => match o_model_dump o with Some _ => true | None => false end
  | _ => false
  end.

(** The calls the public method [m] of an instance configured like [o]
    may make. *)
Definition permitted (o : SimpleAlpaca) (m : method) (c : call) : Prop :=
  match m with
  | Get_account_json | Cash | Buying_power | Repr =>
      c = TradingClient_get_account (_trade o)
  | Get_positions => c = TradingClient_get_all_positions (_trade o)
  | Get_position symbol => c = TradingClient_get_position (_trade o) symbol
  | Portfolio_summary =>
      c = TradingClient_get_account (_trade o)
      \/ c = TradingClient_get_all_positions (_trade o)
  | Market_buy _ _ _ | Market_sell _ _ _ | Limit_order _ _ _ _ _
  | Stop_loss _ _ _ _ _ | Trailing_stop _ _ _ _ _ _ | Submit_custom_order _ =>
      exists req, c = TradingClient_submit_order (_trade o) req
  | Cancel_order order_id => c = TradingClient_cancel_order_by_id (_trade o) order_id
  | Cancel_all_orders => c = TradingClient_cancel_orders (_trade o)
  | List_orders _ _ => exists req, c = TradingClient_get_orders (_trade o) req
  | Get_order order_id => c = TradingClient_get_order_by_id (_trade o) order_id
  | Close_position symbol => c = TradingClient_close_position (_trade o) symbol
  | Close_all_positions => c = TradingClient_close_all_positions (_trade o)
  | List_assets _ _ => exists req, c = TradingClient_get_all_assets (_trade o) req
  | Get_last_quote _ => exists req, c = Historical_get_stock_latest_quote (_hist o) req
  | Get_last_trade _ => exists req, c = Historical_get_stock_latest_trade (_hist o) req
  | Get_last_bar symbol _ =>
      exists tf, c = Historical_get_stock_bars_args (_hist o) symbol tf 1
  | Get_historical_bars _ _ _ _ _ =>
      exists req, c = Historical_get_stock_bars (_hist o) req
  | Subscribe_price symbols handler =>
      c = StockDataStream_new (_api_key o) (_secret o)
      \/ (exists ws symbol,
            In symbol symbols /\ c = StockDataStream_subscribe_bars ws handler symbol)
      \/ exists ws, c = StockDataStream_run ws
  end.

(** From a state configured like [o], [m] keeps the configuration and
    makes calls in [P] only. *)
Definition makes_only {A} (o : SimpleAlpaca) (P : call -> Prop) (m : M store A) : Prop :=
  forall s,
    same_config o (this s) ->
    same_config o (this (snd (m s)))
    /\ exists evs, added s (snd (m s)) evs /\ Forall (fun ev => P (fst ev)) evs.

(** Every value [m] can return satisfies [Q]. *)
Definition returns_in {S A} (Q : A -> Prop) (m : M S A) : Prop :=
  forall s a, fst (m s) = Ok a -> Q a.

(** What a public method returns when it returns. *)
Definition result_shape (m : method) (v : value) : Prop :=
  match m with
  | Get_positions | List_orders _ _ | List_assets _ _
  | Get_historical_bars _ _ _ _ _ =>
      exists items, v = VList items
  | Cancel_order _ | Cancel_all_orders | Close_position _ | Close_all_positions
  | Subscribe_price _ _ =>
      v = VNone
  | Portfolio_summary =>
      exists cash buying_power portfolio_value positions,
        v = VDict [(VStr "cash", cash);
                   (VStr "buying_power", buying_power);
                   (VStr "portfolio_value", portfolio_value);
                   (VStr "positions", VList positions)]
  | Cash | Buying_power => exists x, v = VFloat x
  | Repr =>
      exists c p,
        v = VStr ("<SimpleAlpaca cash=$" ++ c ++ " portfolio=$" ++ p ++ ">")
  | _ => True
  end.

(** The first of the three account fields of [portfolio_summary] that the
    dictionary [kvs] lacks. *)
Definition first_missing_field (kvs : list (value * value)) : option string :=
  List.find (fun name => match Py.lookup (SubStr name) kvs with
                         | Ok _ => false
                         | _ => true
                         end)
            ["cash"; "buying_power"; "portfolio_value"].

End Surface.

(* ================================================================== *)
(** ** A stand-in SDK

    A small concrete SDK and service on which statements are evaluated.
    The enumerations carry the members alpaca-py documents; the service
    answers every call at once and numbers the streams it creates. *)

Module Fixture.

Inductive tif : Type := DAY | GTC | OPG | CLS | IOC | FOK.

Inductive tf_unit : Type := UMinute | UHour | UDay | UWeek | UMonth.

Definition invalid (cls msg : string) : foreign :=
  {| f_class := cls; f_message := msg; f_is_Exception := true |}.

Definition tif_of_value (s : string) : reply tif :=
  if String.eqb s "day" then Returned DAY
  else if String.eqb s "gtc" then Returned GTC
  else if String.eqb s "opg" then Returned OPG
  else if String.eqb s "cls" then Returned CLS
  else if String.eqb s "ioc" then Returned IOC
  else if String.eqb s "fok" then Returned FOK
  else Raised (invalid "ValueError" "is not a valid TimeInForce").

Definition timeframe_of (n : Z) (u : tf_unit + string) : reply (Z * tf_unit) :=
  match u with
  | inl u' => if 0 <? n then Returned (n, u')
              else Raised (invalid "ValueError" "Amount must be a positive integer value.")
  | inr _ => Raised (invalid "ValueError" "unit")
  end.

#[export] Instance stub_externals : Externals := {|
  TimeInForce := tif;
  new_TimeInForce := tif_of_value;
  TimeFrameUnit := tf_unit;
  Minute := UMinute;
  Hour := UHour;
  Day := UDay;
  TimeFrame := Z * tf_unit;
  new_TimeFrame := timeframe_of;
  TradingClient := unit;
  StockHistoricalDataClient := unit;
  StockDataStream := nat;
  OrderRequest := list (string * kwarg tif);
  new_OrderRequest := fun kw => Returned kw;
  GetOrdersRequest := string * Z;
  new_GetOrdersRequest := fun status limit => Returned (status, limit);
  GetAssetsRequest := string * string;
  new_GetAssetsRequest := fun status cls => Returned (status, cls);
  StockLatestQuoteRequest := string;
  new_StockLatestQuoteRequest := fun symbol => Returned symbol;
  StockLatestTradeRequest := string;
  new_StockLatestTradeRequest := fun symbol => Returned symbol;
  datetime := string;
  StockBarsRequest := string * (Z * tf_unit);
  new_StockBarsRequest := fun symbol tf _ _ _ => Returned (symbol, tf);
  fromisoformat := fun s => if Nat.eqb (String.length s) 10 then Some s else None;
  float_of_str := fun _ => None;
  float_of_int := fun _ => None;
  format_value := fun _ => "?";
  callback := nat
|}.

Definition account_fields : list (value * value) :=
  [(VStr "cash", VStr "1000"); (VStr "buying_power", VStr "2000");
   (VStr "portfolio_value", VStr "1000")].

(** A pydantic model: it has [model_dump], iterates over its fields and
    cannot be subscripted. *)
Definition model (cls : string) (fields : list (value * value)) : value :=
  VObj {| o_class := cls;
          o_model_dump := Some (Returned (VDict fields));
          o_builtin := false;
          o_iter := Some (Returned (List.map fst fields));
          o_todict := Returned fields;
          o_vars := Some fields;
          o_attrs := [];
          o_getitem := None;
          o_values := None |}.

Definition account : value := model "TradeAccount" account_fields.

Definition order : value := model "Order" [(VStr "id", VStr "order-1")].

(** The service counts the calls it has served. *)
Definition serve (c : call) (n : nat) : reply (answer c) * nat :=
  match c return reply (answer c) * nat with
  | TradingClient_new _ _ _ => (Returned tt, S n)
  | StockHistoricalDataClient_new _ _ => (Returned tt, S n)
  | StockDataStream_new _ _ => (Returned n, S n)
  | TradingClient_get_account _ => (Returned account, S n)
  | TradingClient_get_all_positions _ => (Returned (VList []), S n)
  | TradingClient_submit_order _ _ => (Returned order, S n)
  | _ => (Returned VNone, S n)
  end.

#[export] Instance stub_service : Service := {|
  remote := nat;
  perform := serve
|}.

Definition fresh : world := {| service := 0%nat; trace := [] |}.

(** The instance [SimpleAlpaca("key", "secret", paper=True, raw_data=raw)]. *)
Definition instance (raw_data : bool) : store :=
  {| this := {| raw := raw_data; _trade := tt; _hist := tt; _ws := None;
                _api_key := "key"; _secret := "secret" |};
     env := {| service := 2%nat;
               trace := [(TradingClient_new "key" "secret" true, Completed);
                         (StockHistoricalDataClient_new "key" "secret", Completed)] |} |}.

End Fixture.

(** ** A stand-in market-data service

    A second SDK, whose order request validates its fields the way the
    pydantic model does, and a service that answers the market-data calls
    with the shapes alpaca-py documents: a dictionary keyed by symbol for
    the latest quote and trade, a list of bars for the positional form of
    [get_stock_bars], a bar set with a [bars] attribute for the request
    form, and an account whose dump lacks [portfolio_value]. *)

Module Market.

(** [OrderRequest(...)]: the [symbol] field is required. *)
Definition validated (kw : list (string * kwarg Fixture.tif))
  : reply (list (string * kwarg Fixture.tif)) :=
  match Py.assoc "symbol" kw with
  | Some _ => Returned kw
  | None => Raised (Fixture.invalid "ValidationError" "symbol: Field required")
  end.

#[export] Instance sdk_externals : Externals := {|
  TimeInForce := Fixture.tif;
  new_TimeInForce := Fixture.tif_of_value;
  TimeFrameUnit := Fixture.tf_unit;
  Minute := Fixture.UMinute;
  Hour := Fixture.UHour;
  Day := Fixture.UDay;
  TimeFrame := Z * Fixture.tf_unit;
  new_TimeFrame := Fixture.timeframe_of;
  TradingClient := unit;
  StockHistoricalDataClient := unit;
  StockDataStream := nat;
  OrderRequest := list (string * kwarg Fixture.tif);
  new_OrderRequest := validated;
  GetOrdersRequest := string * Z;
  new_GetOrdersRequest := fun status limit => Returned (status, limit);
  GetAssetsRequest := string * string;
  new_GetAssetsRequest := fun status cls => Returned (status, cls);
  StockLatestQuoteRequest := string;
  new_StockLatestQuoteRequest := fun symbol => Returned symbol;
  StockLatestTradeRequest := string;
  new_StockLatestTradeRequest := fun symbol => Returned symbol;
  datetime := string;
  StockBarsRequest := string * (Z * Fixture.tf_unit);
  new_StockBarsRequest := fun symbol tf _ _ _ => Returned (symbol, tf);
  fromisoformat := fun s => if Nat.eqb (String.length s) 10 then Some s else None;
  float_of_str := fun _ => None;
  float_of_int := fun _ => None;
  format_value := fun _ => "?";
  callback := nat
|}.

Definition quote : value := Fixture.model "Quote" [(VStr "ask_price", VStr "101.5")].

Definition trade : value := Fixture.model "Trade" [(VStr "price", VStr "101.4")].

Definition bar (close : string) : value := Fixture.model "Bar" [(VStr "close", VStr close)].

(** A [BarSet]: the bars sit in its [bars] attribute, keyed by symbol. *)
Definition bar_set (symbol : string) (bars : list value) : value :=
  VObj {| o_class := "BarSet";
          o_model_dump := None;
          o_builtin := false;
          o_iter := None;
          o_todict := Raised (Fixture.invalid "TypeError" "object is not iterable");
          o_vars := Some [(VStr "bars", VDict [(VStr symbol, VList bars)])];
          o_attrs := [("bars", VDict [(VStr symbol, VList bars)])];
          o_getitem := None;
          o_values := None |}.

(** [KeyboardInterrupt], which is no [Exception]. *)
Definition interrupt : foreign :=
  {| f_class := "KeyboardInterrupt"; f_message := ""; f_is_Exception := false |}.

(** An iterable without [model_dump] whose iteration is interrupted. *)
Definition cursor : value :=
  VObj {| o_class := "Cursor";
          o_model_dump := None;
          o_builtin := false;
          o_iter := Some (Raised interrupt);
          o_todict := Raised interrupt;
          o_vars := None;
          o_attrs := [];
          o_getitem := None;
          o_values := None |}.

(** What the service answers when asked for a position that is not held. *)
Definition no_position : foreign :=
  Fixture.invalid "APIError" "position does not exist".

(** An account whose dump has no [portfolio_value]. *)
Definition thin_account : value :=
  Fixture.model "TradeAccount"
                [(VStr "cash", VStr "1000"); (VStr "buying_power", VStr "2000")].

Definition serve (c : call) (n : nat) : reply (answer c) * nat :=
  match c return reply (answer c) * nat with
  | TradingClient_new _ _ _ => (Returned tt, S n)
  | StockHistoricalDataClient_new _ _ => (Returned tt, S n)
  | StockDataStream_new _ _ => (Returned n, S n)
  | TradingClient_get_account _ => (Returned thin_account, S n)
  | TradingClient_get_all_positions _ => (Returned (VList []), S n)
  | TradingClient_get_position _ _ => (Raised no_position, S n)
  | Historical_get_stock_latest_quote _ symbol =>
      (Returned (VDict [(VStr symbol, quote)]), S n)
  | Historical_get_stock_latest_trade _ symbol =>
      (Returned (VDict [(VStr symbol, trade)]), S n)
  | Historical_get_stock_bars_args _ _ _ _ =>
      (Returned (VList [bar "10"; bar "11"]), S n)
  | Historical_get_stock_bars _ req =>
      (Returned (bar_set (fst req) [bar "10"; bar "11"]), S n)
  | _ => (Returned VNone, S n)
  end.

#[export] Instance market_service : Service := {|
  remote := nat;
  perform := serve
|}.

(** The instance [SimpleAlpaca("key", "secret")] on this service. *)
Definition instance (raw_data : bool) : store :=
  {| this := {| raw := raw_data; _trade := tt; _hist := tt; _ws := None;
                _api_key := "key"; _secret := "secret" |};
     env := {| service := 2%nat;
               trace := [(TradingClient_new "key" "secret" true, Completed);
                         (StockHistoricalDataClient_new "key" "secret", Completed)] |} |}.

End Market.

(* ================================================================== *)
(** * Properties *)

(** ** Strings *)

Lemma lower_char_is_b (c : ascii) :
  Ascii.eqb (PyStr.lower_char c) "b" = Ascii.eqb c "b" || Ascii.eqb c "B".
Proof.
  destruct c as [[] [] [] [] [] [] [] []]; vm_compute; reflexivity.
Qed.

Lemma lower_char_idempotent (c : ascii) :
  PyStr.lower_char (PyStr.lower_char c) = PyStr.lower_char c.
Proof.
  destruct c as [[] [] [] [] [] [] [] []]; vm_compute; reflexivity.
Qed.

Lemma lower_idempotent (s : string) : PyStr.lower (PyStr.lower s) = PyStr.lower s.
Proof.
  induction s as [|c r IH]; simpl.
  - reflexivity.
  - now rewrite lower_char_idempotent, IH.
Qed.

Lemma filter_all (p : ascii -> bool) (s : string) :
  PyStr.all p (PyStr.filter p s) = true.
Proof.
  induction s as [|c r IH]; simpl; auto.
  destruct (p c) eqn:Hc; simpl; auto.
  now rewrite Hc.
Qed.

Lemma take_length (n : nat) (s : string) :
  (String.length (PyStr.take n s) <= n)%nat.
Proof.
  unfold PyStr.take. revert s.
  induction n as [|n IH]; intros [|c r]; simpl; try lia.
  specialize (IH r). lia.
Qed.

Lemma small_of_lower_char (c : ascii) : small_of c = PyStr.lower_char c.
Proof.
  destruct c as [[] [] [] [] [] [] [] []]; vm_compute; reflexivity.
Qed.

(** [PyStr.lower] lower-cases: it agrees with the table. *)
Lemma lower_is_lowercased (s : string) : PyStr.lower s = lowercased s.
Proof.
  induction s as [|c r IH]; simpl; [reflexivity|].
  now rewrite small_of_lower_char, IH.
Qed.

Lemma decimal_run_all (d : string) :
  PyStr.all PyStr.isdecimal d = true -> PyStr.decimal_run d = String.length d.
Proof.
  induction d as [|c r IH]; simpl; [reflexivity|].
  destruct (PyStr.isdecimal c); simpl; [|discriminate].
  intros H. now rewrite IH.
Qed.

(** What [int] does with a string of digits: its value when the string
    is readable, a [ValueError] otherwise. *)
Lemma int_of_str_cases (d : string) :
  if int_readable d then Py.int_of_str d = Ok (PyStr.digits_value 0 d)
  else exists msg, Py.int_of_str d = Raise (ValueError msg).
Proof.
  unfold int_readable, Py.int_of_str, Py.int_max_str_digits.
  destruct (4300 <? Z.of_nat (PyStr.decimal_run d)) eqn:Hrun.
  - replace (negb (d =? "")%string && PyStr.all PyStr.isdecimal d
             && (Z.of_nat (String.length d) <=? 4300)) with false; [eauto|].
    symmetry. destruct (PyStr.all PyStr.isdecimal d) eqn:Hall;
      [|now rewrite andb_false_r].
    rewrite (decimal_run_all _ Hall) in Hrun.
    apply Z.ltb_lt in Hrun. apply andb_false_intro2. apply Z.leb_gt. lia.
  - destruct d as [|c r]; [simpl; eauto|].
    change (negb (String c r =? "")%string) with true. cbv iota.
    destruct (PyStr.all PyStr.isdecimal (String c r)) eqn:Hall; [|simpl; eauto].
    rewrite (decimal_run_all _ Hall) in Hrun. apply Z.ltb_ge in Hrun.
    apply Z.leb_le in Hrun. rewrite Hrun. reflexivity.
Qed.

Lemma int_of_str_raise (d : string) (e : exn) :
  Py.int_of_str d = Raise e -> exists msg, e = ValueError msg.
Proof.
  pose proof (int_of_str_cases d) as H.
  destruct (int_readable d).
  - rewrite H. discriminate.
  - destruct H as [msg ->]. intros H. injection H as <-. eauto.
Qed.

Lemma int_of_str_returns_or_raises (d : string) : Py.int_of_str d <> Hang.
Proof.
  pose proof (int_of_str_cases d) as H.
  destruct (int_readable d); [rewrite H|destruct H as [msg ->]]; discriminate.
Qed.

(** The letters [_tf_parse] looks up, lower-cased and cut to three, are
    the first three letters of the string. *)
Lemma lookup_key_first_letters (n : nat) (s : string) :
  PyStr.take n (PyStr.lower (PyStr.filter PyStr.isalpha s)) = first_letters n s.
Proof.
  revert n. induction s as [|c r IH]; intros n.
  - now destruct n.
  - cbn [PyStr.filter first_letters]. destruct n as [|n'].
    + now destruct (PyStr.lower (if PyStr.isalpha c
                                 then String c (PyStr.filter PyStr.isalpha r)
                                 else PyStr.filter PyStr.isalpha r)).
    + destruct (PyStr.isalpha c); [|apply IH].
      cbn [PyStr.lower]. unfold PyStr.take. cbn [String.substring].
      rewrite <- small_of_lower_char. f_equal. apply IH.
Qed.

Lemma first_letters_length (n : nat) (s : string) :
  (String.length (first_letters n s) <= n)%nat.
Proof.
  revert n. induction s as [|c r IH]; intros n; simpl; [lia|].
  destruct n as [|n']; simpl; [lia|].
  destruct (PyStr.isalpha c); simpl; [specialize (IH n'); lia|apply IH].
Qed.

(** ** [_side] *)

(** C2, as amended: [_side] maps every string whose first character is
    [b] or [B] to the buy side, and every other string, the empty one
    included, to the sell side. *)
Theorem side_first_letter_any_case (side : string) :
  _side side = if starts_with_b_or_B side then BUY else SELL.
Proof.
  unfold _side.
  destruct side as [|c r]; [reflexivity|].
  cbn [PyStr.lower PyStr.startswith starts_with_b_or_B].
  now rewrite lower_char_is_b, andb_true_r.
Qed.

(** C2, as stated, fails: ["BUY"] does not start with ["b"], and is not
    mapped to the sell side. *)
Lemma side_uppercase_is_buy :
  PyStr.startswith "BUY" "b" = false /\ _side "BUY" = BUY /\ _side "BUY" <> SELL.
Proof.
  repeat split; try reflexivity. discriminate.
Qed.

Lemma lower_char_not_upper (c : ascii) :
  PyStr.isupper (PyStr.lower_char c) = false.
Proof.
  destruct c as [[] [] [] [] [] [] [] []]; vm_compute; reflexivity.
Qed.

Lemma lower_has_no_uppercase (s : string) :
  PyStr.all (fun c => negb (PyStr.isupper c)) (PyStr.lower s) = true.
Proof.
  induction s as [|c r IH]; simpl; [reflexivity|].
  now rewrite lower_char_not_upper, IH.
Qed.

(** ** [_tif] and [_tf_parse] *)

Section CoercionProperties.

Context {E : Externals}.

(** C6: [_tif] returns an already-typed [TimeInForce] unchanged; of a
    string, what the [TimeInForce] enum converts is the string lower-cased,
    every capital replaced by its small letter: ["DAY"] and ["Gtc"] are
    converted as ["day"] and ["gtc"], and two strings that differ only in
    the case of their letters give the same result.  (Strings over the
    code points up to U+00FF.) *)
Theorem tif_passes_typed_and_lowercases_strings (t : TimeInForce) (s : string) :
  _tif (inr t) = Ok t
  /\ _tif (inl s) = of_reply (new_TimeInForce (lowercased s))
  /\ _tif (inl "DAY") = of_reply (new_TimeInForce "day")
  /\ _tif (inl "Gtc") = of_reply (new_TimeInForce "gtc")
  /\ (forall s', lowercased s' = lowercased s -> _tif (inl s') = _tif (inl s)).
Proof.
  split; [reflexivity|].
  split; [unfold _tif; now rewrite lower_is_lowercased|].
  split; [reflexivity|]. split; [reflexivity|].
  intros s' H. unfold _tif. now rewrite !lower_is_lowercased, H.
Qed.

Lemma dict_getitem_missing {A} (d : list (string * A)) (key : string) :
  existsb (fun kv => String.eqb (fst kv) key) d = false ->
  Py.dict_getitem d key = Raise (KeyError (SubStr key)).
Proof.
  induction d as [|[k v] r IH]; simpl; [reflexivity|].
  intros H. apply orb_false_iff in H as [Hk Hr].
  rewrite Hk. auto.
Qed.

Lemma dict_getitem_raise {A} (d : list (string * A)) (key : string) (e : exn) :
  Py.dict_getitem d key = Raise e ->
  existsb (fun kv => String.eqb (fst kv) key) d = false /\ e = KeyError (SubStr key).
Proof.
  induction d as [|[k v] r IH]; simpl.
  - intros H. injection H as <-. now split.
  - destruct (String.eqb k key); [discriminate|]. exact IH.
Qed.

(** The lookup in the unit table: the key is at most three letters long,
    so that the entry of the hour is out of reach. *)
Lemma unit_lookup (key : string) :
  (String.length key <= 3)%nat ->
  Py.dict_getitem unit_table key
  = if String.eqb key "min" then Ok Minute
    else if String.eqb key "day" then Ok Day
    else Raise (KeyError (SubStr key)).
Proof.
  intros Hlen. unfold unit_table. cbn [Py.dict_getitem].
  rewrite (String.eqb_sym "min" key), (String.eqb_sym "day" key).
  destruct (String.eqb key "min"); [reflexivity|].
  destruct (String.eqb "hour" key) eqn:Hh.
  - apply String.eqb_eq in Hh. subst key. simpl in Hlen. lia.
  - reflexivity.
Qed.

(** What [_tf_parse] does on a string, step by step. *)
Lemma tf_parse_str (s : string) (unit : TimeFrameUnit + string) :
  _tf_parse (inl s) unit
  = match Py.int_of_str (digits_of s) with
    | Ok n =>
        if String.eqb (first_letters 3 s) "min"
        then of_reply (new_TimeFrame n (inl Minute))
        else if String.eqb (first_letters 3 s) "day"
        then of_reply (new_TimeFrame n (inl Day))
        else Raise (KeyError (SubStr (first_letters 3 s)))
    | Raise e => Raise e
    | Hang => Hang
    end.
Proof.
  unfold _tf_parse, digits_of.
  rewrite lookup_key_first_letters, (unit_lookup _ (first_letters_length 3 s)).
  destruct (Py.int_of_str (PyStr.filter PyStr.isdigit s)); simpl; try reflexivity.
  destruct (String.eqb (first_letters 3 s) "min"); [reflexivity|].
  destruct (String.eqb (first_letters 3 s) "day"); reflexivity.
Qed.

(** The four-letter key of the table is never looked up, since only
    three letters are: a string spelling the hour unit is rejected like
    an unknown one. *)
Lemma tf_parse_hour_unreachable (s : string) (unit : TimeFrameUnit + string) :
  first_letters 3 s <> "hour"
  /\ _tf_parse (inl "1Hour") unit = Raise (KeyError (SubStr "hou")).
Proof.
  split; [|reflexivity].
  intros H. pose proof (first_letters_length 3 s) as L.
  rewrite H in L. simpl in L. lia.
Qed.

(** Only the first three letters are looked up: a longer spelling of a
    unit is parsed like its abbreviation, and digits are collected
    wherever they stand. *)
Lemma tf_parse_longer_spellings (unit : TimeFrameUnit + string) :
  _tf_parse (inl "15Minutes") unit = of_reply (new_TimeFrame 15 (inl Minute))
  /\ _tf_parse (inl "1Days") unit = of_reply (new_TimeFrame 1 (inl Day))
  /\ _tf_parse (inl "Min5") unit = of_reply (new_TimeFrame 5 (inl Minute)).
Proof. repeat split. Qed.


End CoercionProperties.



(** ** [_as_json] *)

(** In raw mode nothing is converted. *)
Lemma as_json_raw (obj : value) : _as_json true obj = Ok obj.
Proof. destruct obj; reflexivity. Qed.

Lemma as_json_items_raw (kvs : list (value * value)) :
  _as_json_items true kvs = Ok kvs.
Proof.
  induction kvs as [|[k v] r IH]; simpl; [reflexivity|].
  now rewrite as_json_raw, IH.
Qed.

(** The chain of tests of [_as_json] on an object, with the comprehension
    named. *)
Lemma as_json_object (o : pyobject value) :
  _as_json false (VObj o)
  = match o_model_dump o with
    | Some r => of_reply r
    | None =>
        if o_builtin o then Ok (VObj o) else
        let last := match o_vars o with
                    | Some d => Ok (VDict d)
                    | None => Ok (VObj o)
                    end in
        match o_iter o with
        | Some _ =>
            match o_todict o with
            | Returned kvs =>
                match _as_json_items false kvs with
                | Ok kvs' => Ok (VDict kvs')
                | Raise e => if is_Exception e then last else Raise e
                | Hang => Hang
                end
            | Raised f => if f_is_Exception f then last else Raise (Foreign f)
            | Blocks => Hang
            end
        | None => last
        end
    end.
Proof.
  destruct o as [cls md b it td vars attrs gi vals]; simpl.
  destruct md; [reflexivity|].
  destruct b; [reflexivity|].
  destruct it; [|reflexivity].
  destruct td as [kvs | f | ]; try reflexivity.
  match goal with
  | |- match ?inline kvs with _ => _ end = _ =>
      assert (forall l, inline l = _as_json_items false l) as Heq
  end.
  { induction l as [|[k v] r' IH]; [reflexivity|].
    simpl. rewrite IH. reflexivity. }
  rewrite Heq. reflexivity.
Qed.

(** C5: outside raw mode, [_as_json] returns [None], a [bool], an [int],
    a [float], a [str], a [list] and a [dict] unchanged; on an object it
    prefers [model_dump()] when the object has it; an instance of a
    subclass of those built-in types is returned unchanged as well;
    otherwise an iterable object is flattened into the [dict] of its
    converted items; when that is not possible the attribute dictionary is
    returned if there is one, and the object itself if there is none. *)
Theorem as_json_fallback_chain (o : pyobject value) :
  (_as_json false VNone = Ok VNone
   /\ (forall b, _as_json false (VBool b) = Ok (VBool b))
   /\ (forall n, _as_json false (VInt n) = Ok (VInt n))
   /\ (forall x, _as_json false (VFloat x) = Ok (VFloat x))
   /\ (forall s, _as_json false (VStr s) = Ok (VStr s))
   /\ (forall xs, _as_json false (VList xs) = Ok (VList xs))
   /\ (forall kvs, _as_json false (VDict kvs) = Ok (VDict kvs)))
  /\ (forall r, o_model_dump o = Some r -> _as_json false (VObj o) = of_reply r)
  /\ (o_model_dump o = None -> o_builtin o = true ->
      _as_json false (VObj o) = Ok (VObj o))
  /\ (forall kvs kvs',
        o_model_dump o = None -> o_builtin o = false -> o_iter o <> None ->
        o_todict o = Returned kvs -> _as_json_items false kvs = Ok kvs' ->
        _as_json false (VObj o) = Ok (VDict kvs'))
  /\ (forall d,
        o_model_dump o = None -> o_builtin o = false -> flattening_given_up o ->
        o_vars o = Some d ->
        _as_json false (VObj o) = Ok (VDict d))
  /\ (o_model_dump o = None -> o_builtin o = false -> flattening_given_up o ->
      o_vars o = None ->
      _as_json false (VObj o) = Ok (VObj o)).
Proof.
  split; [repeat split|].
  rewrite as_json_object.
  split; [|split; [|split; [|split]]].
  - intros r ->. reflexivity.
  - intros -> ->. reflexivity.
  - intros kvs kvs' -> -> Hit -> ->.
    destruct (o_iter o); [reflexivity|contradiction].
  - intros d -> -> Hg ->. cbv zeta.
    destruct Hg as [-> | [(f & -> & Hf) | (kvs & e & -> & -> & He)]].
    + reflexivity.
    + rewrite Hf. now destruct (o_iter o).
    + rewrite He. now destruct (o_iter o).
  - intros -> -> Hg ->. cbv zeta.
    destruct Hg as [-> | [(f & -> & Hf) | (kvs & e & -> & -> & He)]].
    + reflexivity.
    + rewrite Hf. now destruct (o_iter o).
    + rewrite He. now destruct (o_iter o).
Qed.

(** C5 on three objects: a model with [model_dump], an iterable of pairs,
    and an object that only has an attribute dictionary. *)
Lemma as_json_fallback_chain_examples :
  _as_json false Fixture.account = Ok (VDict Fixture.account_fields)
  /\ _as_json false
       (VObj {| o_class := "RawData"; o_model_dump := None; o_builtin := false;
                o_iter := Some (Returned [VStr "bid"]);
                o_todict := Returned [(VStr "bid", Fixture.order)];
                o_vars := None; o_attrs := []; o_getitem := None;
                o_values := None |})
     = Ok (VDict [(VStr "bid", VDict [(VStr "id", VStr "order-1")])])
  /\ _as_json false
       (VObj {| o_class := "Plain"; o_model_dump := None; o_builtin := false;
                o_iter := None;
                o_todict := Raised (Fixture.invalid "TypeError" "not iterable");
                o_vars := Some [(VStr "x", VInt 1)]; o_attrs := [];
                o_getitem := None; o_values := None |})
     = Ok (VDict [(VStr "x", VInt 1)]).
Proof.
  split; [|split].
  - unfold Fixture.account, Fixture.model.
    match goal with
    | |- _as_json false (VObj ?o) = _ =>
        exact (proj1 (proj2 (as_json_fallback_chain o)) _ eq_refl)
    end.
  - match goal with
    | |- _as_json false (VObj ?o) = _ =>
        refine (proj1 (proj2 (proj2 (proj2 (as_json_fallback_chain o))))
                  _ _ eq_refl eq_refl _ eq_refl eq_refl)
    end.
    discriminate.
  - match goal with
    | |- _as_json false (VObj ?o) = _ =>
        refine (proj1 (proj2 (proj2 (proj2 (proj2 (as_json_fallback_chain o)))))
                  _ eq_refl eq_refl _ eq_refl)
    end.
    left. reflexivity.
Defined.

(** *** Induction on a value through the items of [dict(obj)] *)

Section ValueInduction.

Variable P : value -> Prop.

Hypothesis P_plain : forall v, (forall o, v <> VObj o) -> P v.

Hypothesis P_object :
  forall o,
    match o_todict o with
    | Returned kvs => Forall (fun kv => P (snd kv)) kvs
    | _ => True
    end ->
    P (VObj o).

Lemma value_ind_items : forall v, P v.
Proof.
  fix go 1. intros v.
  destruct v as [ | b | n | x | s | xs | kvs | o];
    try (apply P_plain; intros o' H; discriminate).
  apply P_object.
  destruct o as [cls md b it td vars attrs gi vals]. simpl.
  destruct td as [kvs | f | ]; try exact I.
  revert kvs. fix items 1.
  intros [|[k v] r]; constructor; [apply go | apply items].
Qed.

End ValueInduction.

Lemma as_json_items_raise (kvs : list (value * value)) (e : exn) :
  _as_json_items false kvs = Raise e ->
  exists k v, In (k, v) kvs /\ _as_json false v = Raise e.
Proof.
  induction kvs as [|[k v] r IH]; simpl; [discriminate|].
  destruct (_as_json false v) as [v' | e' | ] eqn:Hv; try discriminate.
  - destruct (_as_json_items false r) as [r' | e' | ] eqn:Hr; try discriminate.
    intros H. injection H as <-.
    destruct (IH eq_refl) as (k0 & v0 & Hin & H0).
    exists k0, v0. auto.
  - intros H. injection H as <-. exists k, v. auto.
Qed.

(** Whatever [_as_json] raises was raised by a method of the response. *)
Lemma as_json_raises_from_object (raw : bool) (v : value) (e : exn) :
  _as_json raw v = Raise e -> exists f, e = Foreign f /\ object_raises f v.
Proof.
  destruct raw; [rewrite as_json_raw; discriminate|].
  revert e. induction v as [v Hv | o IH] using value_ind_items; intros e.
  - destruct v; simpl; try discriminate. now destruct (Hv o).
  - rewrite as_json_object.
    destruct (o_model_dump o) as [[r | f | ]|] eqn:Hmd; simpl; try discriminate.
    { intros H. injection H as <-. exists f. split; [reflexivity|].
      now apply raises_model_dump. }
    destruct (o_builtin o); [discriminate|].
    assert (forall e', match o_vars o with
                       | Some d => Ok (VDict d)
                       | None => Ok (VObj o)
                       end <> Raise e') as Hlast.
    { intros e'. destruct (o_vars o); discriminate. }
    destruct (o_iter o); [|intros H; now apply Hlast in H].
    destruct (o_todict o) as [kvs | f | ] eqn:Htd; try discriminate.
    + destruct (_as_json_items false kvs) as [kvs' | e' | ] eqn:Hit; try discriminate.
      destruct (is_Exception e'); [intros H; now apply Hlast in H|].
      intros H. injection H as <-.
      destruct (as_json_items_raise _ Hit) as (k & x & Hin & Hx).
      rewrite Forall_forall in IH.
      destruct (IH _ Hin _ Hx) as (f & -> & Hf).
      exists f. split; [reflexivity|].
      eapply raises_item; eauto.
    + destruct (f_is_Exception f); [intros H; now apply Hlast in H|].
      intros H. injection H as <-. exists f. split; [reflexivity|].
      now apply raises_dict.
Qed.

Lemma as_json_list_raise (raw : bool) (xs : list value) (e : exn) :
  as_json_list raw xs = Raise e -> exists x, In x xs /\ _as_json raw x = Raise e.
Proof.
  induction xs as [|x r IH]; simpl; [discriminate|].
  destruct (_as_json raw x) as [x' | e' | ] eqn:Hx; simpl; try discriminate.
  - destruct (as_json_list raw r) as [r' | e' | ] eqn:Hr; simpl; try discriminate.
    intros H. injection H as <-.
    destruct (IH eq_refl) as (y & Hin & Hy). exists y. auto.
  - intros H. injection H as <-. exists x. auto.
Qed.

Lemma as_json_list_raw (xs : list value) : as_json_list true xs = Ok xs.
Proof.
  induction xs as [|x r IH]; simpl; [reflexivity|].
  now rewrite as_json_raw, IH.
Qed.

(** ** Reasoning about methods *)

Section MethodProperties.

Context {E : Externals} {Sv : Service}.

Local Open Scope py_scope.

(** *** The exceptions of a method *)

Lemma raises_weaken {S A} (R R' : exn -> Prop) (m : M S A) :
  (forall e, R e -> R' e) -> raises_in R m -> raises_in R' m.
Proof. intros H Hm s e He. eauto. Qed.

Lemma raises_ret {S A} (R : exn -> Prop) (a : A) : raises_in R (ret (S := S) a).
Proof. intros s e H. discriminate. Qed.

Lemma raises_raise {S A} (R : exn -> Prop) (e : exn) :
  R e -> raises_in R (raise (S := S) (A := A) e).
Proof. intros H s e' He. simpl in He. now injection He as <-. Qed.

Lemma raises_pure {S A} (R : exn -> Prop) (r : outcome A) :
  (forall e, r = Raise e -> R e) -> raises_in R (pure (S := S) r).
Proof. intros H s e He. simpl in He. auto. Qed.

Lemma raises_bind {S A B} (R : exn -> Prop) (m : M S A) (f : A -> M S B) :
  raises_in R m -> (forall a, raises_in R (f a)) -> raises_in R (bind m f).
Proof.
  intros Hm Hf s e. unfold bind.
  destruct (m s) as [[a | e' | ] s'] eqn:Hms.
  - apply Hf.
  - simpl. intros H. injection H as <-. apply (Hm s). now rewrite Hms.
  - discriminate.
Qed.

Lemma raises_self (R : exn -> Prop) : raises_in R self.
Proof. intros s e H. discriminate. Qed.

Lemma raises_set_ws (R : exn -> Prop) h : raises_in R (set_ws h).
Proof. intros s e H. discriminate. Qed.

Lemma allowed_mono (L L' : exn -> Prop) (e : exn) :
  (forall e', L e' -> L' e') -> allowed L e -> allowed L' e.
Proof. intros H. destruct e; simpl; auto. Qed.

Lemma raises_invoke (L : exn -> Prop) (c : call) :
  raises_in (allowed L) (sdk (invoke c)).
Proof.
  intros s e. unfold sdk, invoke.
  destruct (perform c (service (env s))) as [r rs] eqn:Hp. simpl.
  destruct r as [a | f | ]; simpl; try discriminate.
  intros H. injection H as <-. exact I.
Qed.

Lemma raises_reply (L : exn -> Prop) {S A} (r : reply A) :
  raises_in (allowed L) (pure (S := S) (of_reply r)).
Proof.
  apply raises_pure. intros e He.
  destruct r; simpl in He; try discriminate.
  injection He as <-. exact I.
Qed.

Lemma raises_tif (L : exn -> Prop) {S} tif :
  raises_in (allowed L) (pure (S := S) (_tif tif)).
Proof.
  destruct tif as [s | t]; simpl.
  - apply raises_reply.
  - apply raises_pure. discriminate.
Qed.

Lemma raises_as_json (L : exn -> Prop) (v : value) :
  raises_in (allowed L) (as_json v).
Proof.
  unfold as_json. apply raises_bind; [apply raises_self|]. intros o.
  apply raises_pure. intros e He.
  destruct (as_json_raises_from_object _ _ He) as (f & -> & Hf).
  exact I.
Qed.

Lemma iterate_raise (v : value) (e : exn) :
  Py.iterate v = Raise e ->
  shape_error e \/ exists f, e = Foreign f /\ object_raises f v.
Proof.
  destruct v; simpl; try discriminate;
    try (intros H; injection H as <-; left; exact I).
  destruct (o_iter o) as [[xs | f | ]|] eqn:Hit; simpl; try discriminate.
  - intros H. injection H as <-. right. exists f. split; [reflexivity|].
    now apply raises_iter.
  - intros H. injection H as <-. left. exact I.
Qed.

Lemma lookup_raise (k : subscript) (kvs : list (value * value)) (e : exn) :
  Py.lookup k kvs = Raise e -> e = KeyError k.
Proof.
  induction kvs as [|[k' v] r IH]; simpl.
  - intros H. now injection H as <-.
  - destruct (Py.key_matches k k'); [discriminate|assumption].
Qed.

Lemma seq_index_raise {A} (xs : list A) (n : Z) (what : string) (e : exn) :
  Py.seq_index xs n what = Raise e -> e = IndexError what.
Proof.
  unfold Py.seq_index.
  destruct (_ || _).
  - intros H. now injection H as <-.
  - destruct (nth_error _ _); [discriminate|].
    intros H. now injection H as <-.
Qed.

Lemma getitem_raise (v : value) (k : subscript) (e : exn) :
  Py.getitem v k = Raise e ->
  shape_error e \/ exists f, e = Foreign f /\ object_raises f v.
Proof.
  destruct v; simpl;
    try (intros H; injection H as <-; left; exact I).
  - destruct k.
    + intros H. injection H as <-. left. exact I.
    + intros H. apply seq_index_raise in H as ->. left. exact I.
  - destruct k.
    + intros H. injection H as <-. left. exact I.
    + intros H. apply seq_index_raise in H as ->. left. exact I.
  - intros H. apply lookup_raise in H as ->. left. exact I.
  - destruct (o_getitem o) as [g|] eqn:Hg.
    + destruct (g k) as [x | f | ] eqn:Hgk; simpl; try discriminate.
      intros H. injection H as <-. right. exists f. split; [reflexivity|].
      eapply raises_getitem; eauto.
    + intros H. injection H as <-. left. exact I.
Qed.

Lemma values_raise (v : value) (e : exn) :
  Py.values v = Raise e ->
  shape_error e \/ exists f, e = Foreign f /\ object_raises f v.
Proof.
  destruct v; simpl; try discriminate;
    try (intros H; injection H as <-; left; exact I).
  destruct (o_values o) as [[xs | f | ]|] eqn:Hv; simpl; try discriminate.
  - intros H. injection H as <-. right. exists f. split; [reflexivity|].
    now apply raises_values.
  - intros H. injection H as <-. left. exact I.
Qed.

(** A probe of a response raises a shape error or what the response
    raised. *)
Lemma raises_probe (L : exn -> Prop) {S A} (r : outcome A) (v : value) :
  (forall e, shape_error e -> L e) ->
  (forall e, r = Raise e ->
             shape_error e \/ exists f, e = Foreign f /\ object_raises f v) ->
  raises_in (allowed L) (pure (S := S) r).
Proof.
  intros HL H. apply raises_pure. intros e He.
  destruct (H e He) as [Hs | (f & -> & Hf)].
  - destruct e; simpl in *; auto; contradiction.
  - exact I.
Qed.

Lemma raises_getitem_step (L : exn -> Prop) {S} (v : value) (k : subscript) :
  (forall e, shape_error e -> L e) ->
  raises_in (allowed L) (pure (S := S) (Py.getitem v k)).
Proof.
  intros HL. apply raises_probe with v; [assumption|]. apply getitem_raise.
Qed.

Lemma raises_as_json_each (L : exn -> Prop) (v : value) :
  (forall e, shape_error e -> L e) ->
  raises_in (allowed L) (as_json_each v).
Proof.
  intros HL. unfold as_json_each.
  apply raises_bind; [apply raises_self|]. intros o.
  apply raises_pure. intros e.
  destruct (Py.iterate v) as [xs | e' | ] eqn:Hit; simpl; try discriminate.
  - destruct (as_json_list (raw o) xs) as [ys | e' | ] eqn:Hys; simpl; try discriminate.
    intros H. injection H as H. subst e'.
    destruct (as_json_list_raise _ _ Hys) as (x & _ & Hx).
    destruct (as_json_raises_from_object _ _ Hx) as (f & -> & Hf).
    exact I.
  - intros H. injection H as H. subst e'.
    destruct (iterate_raise _ Hit) as [Hs | (f & -> & Hf)].
    + destruct e; simpl in *; auto; contradiction.
    + exact I.
Qed.

Lemma tf_parse_raise (timeframe : string + Z) (unit : TimeFrameUnit + string) (e : exn) :
  _tf_parse timeframe unit = Raise e ->
  timeframe_error e \/ exists f, e = Foreign f.
Proof.
  assert (forall n u, of_reply (new_TimeFrame n u) = Raise e ->
                      exists f, e = Foreign f) as Hnew.
  { intros n u. destruct (new_TimeFrame n u) as [t | f | ] eqn:Hn; simpl; try discriminate.
    intros H. injection H as <-. now exists f. }
  destruct timeframe as [s | n]; [|simpl; eauto].
  rewrite tf_parse_str.
  destruct (Py.int_of_str (digits_of s)) as [n | e' | ] eqn:Hi; try discriminate.
  - destruct (String.eqb (first_letters 3 s) "min"); [eauto|].
    destruct (String.eqb (first_letters 3 s) "day"); [eauto|].
    intros H. injection H as <-. left. exact I.
  - intros H. injection H as H. subst e'.
    destruct (int_of_str_raise _ Hi) as [msg ->]. left. exact I.
Qed.

Lemma raises_tf_parse (L : exn -> Prop) {S} timeframe unit :
  (forall e, timeframe_error e -> L e) ->
  raises_in (allowed L) (pure (S := S) (_tf_parse timeframe unit)).
Proof.
  intros HL. apply raises_pure. intros e He.
  destruct (tf_parse_raise _ _ He) as [Ht | (f & ->)]; [|exact I].
  pose proof (HL e Ht) as Hl.
  destruct e; simpl in Ht; try contradiction; exact Hl.
Qed.

Lemma raises_to_datetime (L : exn -> Prop) {S} x :
  (forall e, date_error e -> L e) ->
  raises_in (allowed L) (pure (S := S) (to_datetime x)).
Proof.
  intros HL. apply raises_pure. intros e.
  destruct x as [s | d]; simpl; [|discriminate].
  destruct (fromisoformat s); [discriminate|].
  intros H. injection H as <-. simpl. apply HL. exact I.
Qed.

Lemma raises_first_value (L : exn -> Prop) {S} (data : value) (name : string) :
  (forall e, shape_error e -> L e) ->
  raises_in (allowed L)
    (pure (S := S)
       (match Py.getattr data name with
        | Some q => Ok q
        | None => (vs <- Py.values data ;; Py.next_iter vs)%outcome
        end)).
Proof.
  intros HL. apply raises_probe with data; [assumption|]. intros e.
  destruct (Py.getattr data name); [discriminate|].
  destruct (Py.values data) as [vs | e' | ] eqn:Hv; simpl; try discriminate.
  - destruct vs; simpl; [|discriminate].
    intros H. injection H as <-. left. exact I.
  - intros H. injection H as H. subst e'. now apply values_raise.
Qed.

Lemma float_raise (v : value) (e : exn) : float_ v = Raise e -> conversion_error e.
Proof.
  destruct v; simpl; try discriminate;
    try (intros H; injection H as <-; exact I).
  - destruct (float_of_int n); [discriminate|].
    intros H. injection H as <-. exact I.
  - destruct (float_of_str s); [discriminate|].
    intros H. injection H as <-. exact I.
Qed.

Lemma raises_float_of_field (L : exn -> Prop) {S} (acct : value) (name : string) :
  (forall e, shape_error e \/ conversion_error e -> L e) ->
  raises_in (allowed L)
    (pure (S := S) (c <- Py.getitem acct (SubStr name) ;; float_ c)%outcome).
Proof.
  intros HL. apply raises_pure. intros e.
  destruct (Py.getitem acct (SubStr name)) as [c | e' | ] eqn:Hg; simpl; try discriminate.
  - intros H. apply float_raise in H.
    destruct e; simpl in *; try contradiction; apply HL; right; simpl; auto.
  - intros H. injection H as H. subst e'.
    destruct (getitem_raise _ _ Hg) as [Hs | (f & -> & Hf)].
    + destruct e; simpl in *; try contradiction; apply HL; left; exact I.
    + exact I.
Qed.

End MethodProperties.

(** ** The instance and the history *)

Section StateProperties.

Context {E : Externals} {Sv : Service}.

Local Open Scope py_scope.

Lemma bind_assoc {S A B C} (m : M S A) (f : A -> M S B) (g : B -> M S C) (s : S) :
  bind (bind m f) g s = bind m (fun a => bind (f a) g) s.
Proof.
  unfold bind. destruct (m s) as [[a | e | ] s']; reflexivity.
Qed.

Lemma bind_ext {S A B} (m m' : M S A) (f f' : A -> M S B) (s : S) :
  m s = m' s -> (forall a s', f a s' = f' a s') -> bind m f s = bind m' f' s.
Proof.
  intros Hm Hf. unfold bind. rewrite Hm.
  destruct (m' s) as [[a | e | ] s']; auto.
Qed.

(** *** Relating the state before and after *)

Section Steps.

Variable R : store -> store -> Prop.

Hypothesis R_refl : forall s, R s s.

Hypothesis R_trans : forall a b c, R a b -> R b c -> R a c.

Lemma steps_ret {A} (a : A) : steps R (ret a).
Proof. intros s. apply R_refl. Qed.

Lemma steps_raise {A} (e : exn) : steps R (raise (A := A) e).
Proof. intros s. apply R_refl. Qed.

Lemma steps_pure {A} (r : outcome A) : steps R (pure r).
Proof. intros s. apply R_refl. Qed.

Lemma steps_self : steps R self.
Proof. intros s. apply R_refl. Qed.

Lemma steps_bind {A B} (m : M store A) (f : A -> M store B) :
  steps R m -> (forall a, steps R (f a)) -> steps R (bind m f).
Proof.
  intros Hm Hf s. unfold bind. specialize (Hm s).
  destruct (m s) as [[a | e | ] s']; simpl in *; auto.
  eapply R_trans; [exact Hm|]. apply Hf.
Qed.

End Steps.

Lemma same_instance_refl (s : store) : same_instance s s.
Proof. split; reflexivity. Qed.

Lemma same_instance_trans (a b c : store) :
  same_instance a b -> same_instance b c -> same_instance a c.
Proof. intros [H1 H2] [H3 H4]. split; congruence. Qed.

Lemma creations_app (tr evs : list event) :
  creations (tr ++ evs) = (creations tr + creations evs)%nat.
Proof. unfold creations. now rewrite filter_app, length_app. Qed.

Lemma runs_app (tr evs : list event) : runs (tr ++ evs) = (runs tr + runs evs)%nat.
Proof. unfold runs. now rewrite filter_app, length_app. Qed.

(** One call on the SDK adds one entry to the history and touches
    nothing else. *)
Lemma invoke_state (c : call) (s : store) :
  this (snd (sdk (invoke c) s)) = this s
  /\ added s (snd (sdk (invoke c) s))
       [(c, status_of (fst (perform c (service (env s)))))]
  /\ fst (sdk (invoke c) s) = of_reply (fst (perform c (service (env s)))).
Proof.
  unfold sdk, invoke, added.
  destruct (perform c (service (env s))) as [r rs]. simpl. auto.
Qed.

Lemma invoke_cases (c : call) (s : store) :
  exists r s',
    sdk (invoke c) s = (of_reply r, s')
    /\ this s' = this s
    /\ added s s' [(c, status_of r)]
    /\ fst (perform c (service (env s))) = r.
Proof.
  unfold sdk, invoke, added.
  destruct (perform c (service (env s))) as [r rs].
  exists r. eexists. simpl. auto.
Qed.

Lemma steps_invoke (c : call) :
  (forall k s, c <> StockDataStream_new k s) ->
  steps same_instance (sdk (invoke c)).
Proof.
  intros Hc s. destruct (invoke_state c s) as (Ht & Ha & _).
  split; [assumption|]. rewrite Ha, creations_app.
  unfold creations at 2. simpl.
  destruct c; simpl; try lia. now destruct (Hc api_key secret_key).
Qed.

Ltac same_steps :=
  repeat first
    [ apply (@steps_bind same_instance same_instance_trans); [ | intros ? ]
    | apply (@steps_ret same_instance same_instance_refl)
    | apply (@steps_pure same_instance same_instance_refl)
    | apply (@steps_raise same_instance same_instance_refl)
    | apply (@steps_self same_instance same_instance_refl)
    | match goal with
      | |- steps _ (sdk (invoke ?c)) => apply (@steps_invoke c); intros; discriminate
      end ].

Lemma steps_as_json (v : value) : steps same_instance (as_json v).
Proof. unfold as_json. same_steps. Qed.

Lemma steps_as_json_each (v : value) : steps same_instance (as_json_each v).
Proof. unfold as_json_each. same_steps. Qed.

Lemma steps_get_account_json : steps same_instance get_account_json.
Proof. unfold get_account_json. same_steps. Qed.

Lemma steps_get_positions : steps same_instance get_positions.
Proof. unfold get_positions. same_steps. Qed.

Lemma steps_submit (kw : kwargs) : steps same_instance (_submit kw).
Proof. unfold _submit. same_steps. Qed.

Lemma steps_subscribe_all ws symbols handler :
  steps same_instance (subscribe_all ws symbols handler).
Proof.
  induction symbols as [|sym rest IH]; simpl.
  - same_steps.
  - apply (@steps_bind same_instance same_instance_trans);
      [same_steps | intros ?; exact IH].
Qed.

Lemma steps_stream_session ws symbols handler :
  steps same_instance (stream_session ws symbols handler).
Proof.
  unfold stream_session.
  apply (@steps_bind same_instance same_instance_trans);
    [apply steps_subscribe_all | intros ?; same_steps].
Qed.

(** Every public method but [subscribe_price] leaves the fields of the
    instance alone and creates no stream. *)
Lemma steps_call_method (m : method) :
  (forall symbols handler, m <> Subscribe_price symbols handler) ->
  steps same_instance (call_method m).
Proof.
  intros Hm.
  destruct m; simpl;
    try (now destruct (Hm symbols handler));
    unfold portfolio_summary, get_position, market_buy, market_sell, limit_order,
      stop_loss, trailing_stop, submit_custom_order, cancel_order,
      cancel_all_orders, list_orders, get_order, close_position,
      close_all_positions, list_assets, get_last_quote, get_last_trade,
      get_last_bar, get_historical_bars, cash, buying_power, __repr__;
    try match goal with
        | |- context [if ?b then _ else _] => destruct b
        end;
    same_steps.
Qed.

(** *** [subscribe_price] with the handle made explicit *)

Lemma bind_ok {S A B} {m : M S A} (f : A -> M S B) {s s' : S} {a : A}
      (H : m s = (Ok a, s')) :
  bind m f s = f a s'.
Proof. unfold bind. now rewrite H. Qed.

Lemma bind_raise {S A B} {m : M S A} (f : A -> M S B) {s s' : S} {e : exn}
      (H : m s = (Raise e, s')) :
  bind m f s = (Raise e, s').
Proof. unfold bind. now rewrite H. Qed.

Lemma bind_hang {S A B} {m : M S A} (f : A -> M S B) {s s' : S}
      (H : m s = (Hang, s')) :
  bind m f s = (Hang, s').
Proof. unfold bind. now rewrite H. Qed.

Lemma bind_self {B} (f : SimpleAlpaca -> M store B) (s : store) :
  bind self f s = f (this s) s.
Proof. reflexivity. Qed.

Lemma bind_ret {S A B} (a : A) (f : A -> M S B) (s : S) : bind (ret a) f s = f a s.
Proof. reflexivity. Qed.

Lemma bind_set_ws {B} (h : StockDataStream) (f : unit -> M store B) (s : store) :
  bind (set_ws h) f s = f tt (snd (set_ws h s)).
Proof. reflexivity. Qed.

Lemma the_ws_some (s : store) (ws : StockDataStream) :
  _ws (this s) = Some ws -> the_ws s = (Ok ws, s).
Proof.
  intros H. unfold the_ws. rewrite bind_self. now rewrite H.
Qed.

Lemma invoke_keeps_ws (c : call) (s : store) r s' :
  sdk (invoke c) s = (r, s') -> this s' = this s.
Proof.
  intros H. destruct (invoke_state c s) as (Ht & _). now rewrite H in Ht.
Qed.

Lemma session_tail (symbols : list string) (handler : callback) (ws : StockDataStream) :
  forall s,
    _ws (this s) = Some ws ->
    (subscribe_each symbols handler ;;;
     (ws' <- the_ws ;; sdk (invoke (StockDataStream_run ws')) ;;; ret VNone)) s
    = stream_session ws symbols handler s.
Proof.
  unfold stream_session.
  induction symbols as [|sym rest IH]; intros s Hws;
    cbn [subscribe_each subscribe_all].
  - rewrite !bind_ret.
    now rewrite (bind_ok _ (the_ws_some _ Hws)).
  - rewrite !bind_assoc.
    rewrite (bind_ok _ (the_ws_some _ Hws)).
    rewrite bind_assoc.
    destruct (sdk (invoke (StockDataStream_subscribe_bars ws handler sym)) s)
      as [[a | e | ] s1] eqn:Hs.
    + rewrite !(bind_ok _ Hs). apply IH.
      now rewrite (invoke_keeps_ws _ _ Hs).
    + now rewrite !(bind_raise _ Hs).
    + now rewrite !(bind_hang _ Hs).
Qed.

(** With the stream already there, [subscribe_price] is the session on
    it. *)
Lemma subscribe_price_reuses (symbols : list string) (handler : callback)
      (s : store) (ws : StockDataStream) :
  _ws (this s) = Some ws ->
  subscribe_price symbols handler s = stream_session ws symbols handler s.
Proof.
  intros Hws. unfold subscribe_price.
  assert (_ensure_ws s = (Ok tt, s)) as He.
  { unfold _ensure_ws. rewrite bind_self. now rewrite Hws. }
  rewrite (bind_ok _ He). now apply session_tail.
Qed.

(** Without a stream, [subscribe_price] first creates one, stores it, and
    runs the session on it. *)
Lemma subscribe_price_creates (symbols : list string) (handler : callback)
      (s : store) :
  _ws (this s) = None ->
  subscribe_price symbols handler s
  = (h <- sdk (invoke (StockDataStream_new (_api_key (this s)) (_secret (this s)))) ;;
     set_ws h ;;;
     stream_session h symbols handler) s.
Proof.
  intros Hws. unfold subscribe_price, _ensure_ws.
  rewrite !bind_assoc.
  rewrite bind_self.
  rewrite Hws. rewrite bind_assoc.
  destruct (sdk (invoke (StockDataStream_new (_api_key (this s)) (_secret (this s)))) s)
    as [[h | e | ] s1] eqn:Hs.
  - rewrite !(bind_ok _ Hs).
    rewrite !bind_set_ws.
    now apply session_tail.
  - now rewrite !(bind_raise _ Hs).
  - now rewrite !(bind_hang _ Hs).
Qed.

(** *** The history of a session *)

Lemma added_trans (a b c : store) (e1 e2 : list event) :
  added a b e1 -> added b c e2 -> added a c (e1 ++ e2).
Proof. unfold added. intros H1 H2. now rewrite H2, H1, app_assoc. Qed.

Lemma session_history (ws : StockDataStream) (symbols : list string)
      (handler : callback) :
  forall s,
    exists evs,
      added s (snd (stream_session ws symbols handler s)) evs
      /\ session_trace ws handler symbols evs.
Proof.
  unfold stream_session.
  induction symbols as [|sym rest IH]; intros s; cbn [subscribe_all].
  - rewrite bind_ret.
    destruct (invoke_cases (StockDataStream_run ws) s) as (r & s1 & Hs & _ & Ha & _).
    eexists. split; [|apply session_run].
    destruct r as [a | f | ]; simpl in Hs.
    + rewrite (bind_ok _ Hs). exact Ha.
    + rewrite (bind_raise _ Hs). exact Ha.
    + rewrite (bind_hang _ Hs). exact Ha.
  - rewrite bind_assoc.
    destruct (invoke_cases (StockDataStream_subscribe_bars ws handler sym) s)
      as (r & s1 & Hs & _ & Ha & _).
    destruct r as [a | f | ]; simpl in Hs, Ha.
    + rewrite (bind_ok _ Hs).
      destruct (IH s1) as (evs & Hevs & Htr).
      eexists. split; [exact (added_trans Ha Hevs)|].
      simpl. now apply session_next.
    + rewrite (bind_raise _ Hs).
      eexists. split; [exact Ha|]. apply session_stop. discriminate.
    + rewrite (bind_hang _ Hs).
      eexists. split; [exact Ha|]. apply session_stop. discriminate.
Qed.

(** The calls of a session are a beginning of the calls it is meant to
    make. *)
Lemma session_trace_prefix ws handler symbols evs :
  session_trace ws handler symbols evs ->
  exists rest, subscription_calls ws symbols handler = (List.map fst evs ++ rest)%list.
Proof.
  unfold subscription_calls.
  induction 1 as [st | sym rest evs _ [tl IH] | sym rest st _]; simpl.
  - exists []. reflexivity.
  - exists tl. now rewrite IH.
  - eexists. reflexivity.
Qed.

Lemma session_trace_runs ws handler symbols evs :
  session_trace ws handler symbols evs ->
  (runs evs <= 1)%nat
  /\ (runs evs = 1%nat -> List.map fst evs = subscription_calls ws symbols handler).
Proof.
  unfold subscription_calls.
  induction 1 as [st | sym rest evs _ [IH1 IH2] | sym rest st _];
    unfold runs in *; simpl in *.
  - split; [lia|reflexivity].
  - split; [assumption|]. intros H. now rewrite IH2.
  - split; [lia|discriminate].
Qed.

(** When every registration completes, the receive loop is entered. *)
Lemma session_trace_completed ws handler symbols evs :
  session_trace ws handler symbols evs ->
  (forall ev, In ev evs -> is_run (fst ev) = false -> snd ev = Completed) ->
  List.map fst evs = subscription_calls ws symbols handler
  /\ runs evs = 1%nat.
Proof.
  unfold subscription_calls.
  induction 1 as [st | sym rest evs _ IH | sym rest st Hst]; intros Hall.
  - split; reflexivity.
  - destruct IH as [IH1 IH2].
    { intros ev Hin. apply Hall. now right. }
    split; [simpl; now rewrite IH1|exact IH2].
  - exfalso. apply Hst.
    apply (Hall (StockDataStream_subscribe_bars ws handler sym, st));
      [now left|reflexivity].
Qed.

(** C8: [subscribe_price] adds to the history an optional creation of the
    stream and then a session on the stream: one registration of the
    callback per symbol, in the order of the symbols, and then the receive
    loop, entered at most once and only after every symbol has been
    registered.  The session stops short only at an SDK call that does
    not complete; when every registration completes the loop is entered,
    exactly once. *)
Theorem subscribe_price_registers_then_runs
        (symbols : list string) (handler : callback) (s : store) :
  exists setup session,
    added s (snd (subscribe_price symbols handler s)) (setup ++ session)
    /\ (runs (setup ++ session) <= 1)%nat
    /\ ((exists k sec st,
           setup = [(StockDataStream_new k sec, st)] /\ st <> Completed
           /\ session = [])
        \/ exists ws,
             _ws (this (snd (subscribe_price symbols handler s))) = Some ws
             /\ (setup = [] \/ exists k sec, setup = [(StockDataStream_new k sec, Completed)])
             /\ session_trace ws handler symbols session
             /\ (exists rest,
                   subscription_calls ws symbols handler
                   = (List.map fst session ++ rest)%list)
             /\ (runs session = 1%nat ->
                 List.map fst session = subscription_calls ws symbols handler)
             /\ ((forall ev, In ev session -> is_run (fst ev) = false ->
                              snd ev = Completed) ->
                 List.map fst session = subscription_calls ws symbols handler
                 /\ runs session = 1%nat)).
Proof.
  destruct (_ws (this s)) as [ws|] eqn:Hws.
  - rewrite (subscribe_price_reuses _ _ _ Hws).
    destruct (session_history ws symbols handler s) as (evs & Ha & Htr).
    destruct (session_trace_runs Htr) as [Hle Hone].
    exists [], evs. split; [exact Ha|]. split; [exact Hle|].
    right. exists ws. split.
    { destruct (steps_stream_session ws symbols handler s) as [Ht _].
      now rewrite Ht. }
    split; [now left|]. split; [exact Htr|].
    split; [now apply session_trace_prefix|].
    split; [exact Hone|]. now apply session_trace_completed.
  - rewrite (subscribe_price_creates _ _ _ Hws).
    set (c := StockDataStream_new (_api_key (this s)) (_secret (this s))).
    destruct (invoke_cases c s) as (r & s1 & Hs & _ & Ha & _).
    destruct r as [h | f | ]; simpl in Hs, Ha.
    + rewrite (bind_ok _ Hs), bind_set_ws.
      set (s2 := snd (set_ws h s1)).
      destruct (session_history h symbols handler s2) as (evs & Hevs & Htr).
      destruct (session_trace_runs Htr) as [Hle Hone].
      exists [(c, Completed)], evs. split.
      { apply (added_trans (b := s2)); [exact Ha|exact Hevs]. }
      split. { rewrite runs_app. exact Hle. }
      right. exists h. split.
      { destruct (steps_stream_session h symbols handler s2) as [Ht _].
        now rewrite Ht. }
      split; [right; now exists (_api_key (this s)), (_secret (this s))|].
      split; [exact Htr|].
      split; [now apply session_trace_prefix|].
      split; [exact Hone|]. now apply session_trace_completed.
    + rewrite (bind_raise _ Hs).
      eexists _, []. rewrite app_nil_r. split; [exact Ha|].
      split; [unfold runs; simpl; lia|].
      left. do 3 eexists. split; [reflexivity|]. split; [discriminate|reflexivity].
    + rewrite (bind_hang _ Hs).
      eexists _, []. rewrite app_nil_r. split; [exact Ha|].
      split; [unfold runs; simpl; lia|].
      left. do 3 eexists. split; [reflexivity|]. split; [discriminate|reflexivity].
Qed.

(** *** The stream handle *)

Lemma construct_lazy api_key secret_key paper raw_data (w : world) (st : store) :
  construct api_key secret_key paper raw_data w = Some st ->
  _ws (this st) = None
  /\ raw (this st) = raw_data
  /\ creations (trace (env st)) = creations (trace w).
Proof.
  unfold construct, __init__, bind, invoke, ret.
  destruct (perform (TradingClient_new api_key secret_key paper) (service w))
    as [[t | f | ] s1]; simpl; try discriminate.
  destruct (perform (StockHistoricalDataClient_new api_key secret_key) s1)
    as [[h | f | ] s2]; simpl; try discriminate.
  intros H. injection H as <-. simpl.
  repeat split. rewrite <- app_assoc, creations_app. unfold creations at 2. simpl. lia.
Qed.

(** The first [subscribe_price] of an instance asks the SDK for a stream
    once, and keeps the stream it gets. *)
Lemma subscribe_price_first (symbols : list string) (handler : callback) (s : store) :
  _ws (this s) = None ->
  let c := StockDataStream_new (_api_key (this s)) (_secret (this s)) in
  let r := fst (perform c (service (env s))) in
  let s' := snd (subscribe_price symbols handler s) in
  exists evs,
    added s s' ((c, status_of r) :: evs)
    /\ creations evs = 0%nat
    /\ _ws (this s') = match r with
                       | Returned h => Some h
                       | _ => None
                       end.
Proof.
  intros Hws c r s'. subst s'.
  rewrite (subscribe_price_creates _ _ _ Hws). fold c.
  destruct (invoke_cases c s) as (r0 & s1 & Hs & Ht & Ha & Hp).
  fold r in Hp. subst r0.
  destruct r as [h | f | ]; simpl in Hs, Ha.
  - rewrite (bind_ok _ Hs), bind_set_ws.
    set (s2 := snd (set_ws h s1)).
    destruct (session_history h symbols handler s2) as (evs & Hevs & _).
    destruct (steps_stream_session h symbols handler s2) as [Hthis Hcr].
    exists evs. split; [|split].
    + exact (added_trans (b := s2) Ha Hevs).
    + rewrite Hevs, creations_app in Hcr. lia.
    + now rewrite Hthis.
  - rewrite (bind_raise _ Hs). exists []. simpl.
    repeat split; [exact Ha|]. now rewrite Ht.
  - rewrite (bind_hang _ Hs). exists []. simpl.
    repeat split; [exact Ha|]. now rewrite Ht.
Qed.

(** No method breaks the invariant, and none replaces or drops a stream
    that is there. *)
Lemma method_keeps_stream (m : method) (s : store) :
  (stream_invariant s -> stream_invariant (snd (call_method m s)))
  /\ (forall ws, _ws (this s) = Some ws -> same_instance s (snd (call_method m s))).
Proof.
  assert (forall s', same_instance s s' -> stream_invariant s -> stream_invariant s')
    as Hsame.
  { intros s' [Ht Hc]. unfold stream_invariant. now rewrite Ht, Hc. }
  destruct m;
    try (split; [apply Hsame|intros ws _];
         apply steps_call_method; intros; discriminate).
  simpl. destruct (_ws (this s)) as [ws|] eqn:Hws.
  - assert (same_instance s (snd (subscribe_price symbols handler s))) as H.
    { rewrite (subscribe_price_reuses _ _ _ Hws). apply steps_stream_session. }
    split; [now apply Hsame|now intros].
  - split; [|discriminate].
    destruct (subscribe_price_first symbols handler s Hws) as (evs & Ha & Hc & Hw).
    unfold stream_invariant. rewrite Hws, Hw, Ha. intros H0.
    rewrite creations_app, H0.
    change ((_, _) :: evs) with ([(StockDataStream_new (_api_key (this s)) (_secret (this s)),
                                   status_of (fst (perform (StockDataStream_new (_api_key (this s)) (_secret (this s))) (service (env s)))))] ++ evs)%list.
    rewrite creations_app, Hc.
    destruct (fst (perform _ _)); reflexivity.
Qed.

Lemma run_methods_keeps_stream (ms : list method) :
  forall s,
    stream_invariant s ->
    stream_invariant (run_methods ms s)
    /\ (forall ws, _ws (this s) = Some ws -> _ws (this (run_methods ms s)) = Some ws).
Proof.
  induction ms as [|m rest IH]; intros s Hinv; simpl.
  - auto.
  - destruct (method_keeps_stream m s) as [Hi Hk].
    specialize (Hi Hinv).
    assert (forall ws, _ws (this s) = Some ws ->
                       _ws (this (snd (call_method m s))) = Some ws) as Hk'.
    { intros ws Hws. destruct (Hk ws Hws) as [Ht _]. now rewrite Ht. }
    destruct (call_method m s) as [[v | e | ] s1]; simpl in *.
    + destruct (IH s1 Hi) as [H1 H2]. split; auto.
    + destruct (IH s1 Hi) as [H1 H2]. split; auto.
    + split; auto.
Qed.

(** C7: the stream handle is absent after construction; a method other
    than [subscribe_price] leaves every field of the instance as it was
    and creates no stream; once the handle is set, no method, including
    [subscribe_price], replaces it, clears it or creates another stream;
    a [subscribe_price] that finds no handle asks the SDK for a stream
    once and stores the one it gets, and one that finds a handle runs its
    session on that handle; so over any sequence of calls at most one
    stream is ever created and a handle that is set stays the same. *)
Theorem stream_handle_created_at_most_once :
  (forall api_key secret_key paper raw_data w s,
      construct api_key secret_key paper raw_data w = Some s ->
      _ws (this s) = None)
  /\ (forall m s,
        (forall symbols handler, m <> Subscribe_price symbols handler) ->
        same_instance s (snd (call_method m s)))
  /\ (forall m s ws,
        _ws (this s) = Some ws ->
        same_instance s (snd (call_method m s)))
  /\ (forall symbols handler s,
        _ws (this s) = None ->
        let c := StockDataStream_new (_api_key (this s)) (_secret (this s)) in
        let r := fst (perform c (service (env s))) in
        let s' := snd (subscribe_price symbols handler s) in
        exists evs,
          added s s' ((c, status_of r) :: evs)
          /\ creations evs = 0%nat
          /\ _ws (this s') = match r with
                             | Returned h => Some h
                             | _ => None
                             end)
  /\ (forall symbols handler s ws,
        _ws (this s) = Some ws ->
        subscribe_price symbols handler s = stream_session ws symbols handler s)
  /\ (forall ms s,
        stream_invariant s ->
        stream_invariant (run_methods ms s)
        /\ (creations (trace (env (run_methods ms s))) <= 1)%nat
        /\ (forall ws, _ws (this s) = Some ws ->
                       _ws (this (run_methods ms s)) = Some ws)).
Proof.
  split; [|split; [|split; [|split; [|split]]]].
  - intros. now apply construct_lazy in H.
  - intros m s Hm. now apply steps_call_method.
  - intros m s ws Hws. exact (proj2 (method_keeps_stream m s) ws Hws).
  - exact subscribe_price_first.
  - intros symbols handler s ws. apply subscribe_price_reuses.
  - intros ms s Hinv. destruct (run_methods_keeps_stream ms s Hinv) as [H1 H2].
    split; [exact H1|]. split; [|exact H2].
    unfold stream_invariant in H1.
    destruct (_ws (this (run_methods ms s))); lia.
Qed.

End StateProperties.

(** ** Where exceptions come from *)

Section ErrorProperties.

Context {E : Externals} {Sv : Service}.

Local Open Scope py_scope.

Ltac local_side :=
  let e := fresh "e" in
  let H := fresh "H" in
  intros e H; simpl; tauto.

Ltac raise_steps :=
  repeat first
    [ apply raises_self
    | apply raises_ret
    | apply raises_set_ws
    | match goal with
      | |- raises_in _ (sdk (invoke ?c)) => apply (@raises_invoke _ _ _ c)
      end
    | apply raises_tif
    | apply raises_as_json
    | apply raises_as_json_each; local_side
    | apply raises_getitem_step; local_side
    | apply raises_first_value; local_side
    | apply raises_tf_parse; local_side
    | apply raises_to_datetime; local_side
    | apply raises_float_of_field; local_side
    | apply raises_reply
    | apply raises_bind; [ | intros ? ] ].

Lemma raises_get_account_json (L : exn -> Prop) :
  raises_in (allowed L) get_account_json.
Proof. unfold get_account_json. raise_steps. Qed.

Lemma raises_submit (L : exn -> Prop) (kw : kwargs) :
  raises_in (allowed L) (_submit kw).
Proof. unfold _submit. raise_steps. Qed.

Lemma raises_subscribe_all (L : exn -> Prop) ws symbols handler :
  raises_in (allowed L) (subscribe_all ws symbols handler).
Proof.
  induction symbols as [|sym rest IH]; simpl.
  - raise_steps.
  - apply raises_bind; [raise_steps|intros ?; exact IH].
Qed.

Lemma raises_stream_session (L : exn -> Prop) ws symbols handler :
  raises_in (allowed L) (stream_session ws symbols handler).
Proof.
  unfold stream_session.
  apply raises_bind; [apply raises_subscribe_all|intros ?; raise_steps].
Qed.

Lemma raises_subscribe_price (L : exn -> Prop) symbols handler :
  raises_in (allowed L) (subscribe_price symbols handler).
Proof.
  intros s e. destruct (_ws (this s)) as [ws|] eqn:Hws.
  - rewrite (subscribe_price_reuses _ _ _ Hws). apply raises_stream_session.
  - rewrite (subscribe_price_creates _ _ _ Hws). revert s e Hws.
    assert (forall k sec,
              raises_in (allowed L)
                (h <- sdk (invoke (StockDataStream_new k sec)) ;;
                 set_ws h ;;; stream_session h symbols handler)) as H.
    { intros k sec.
      apply raises_bind; [raise_steps|intros h].
      apply raises_bind; [raise_steps|intros ?].
      apply raises_stream_session. }
    intros s e _. apply H.
Qed.

(** What a public method raises is an exception of the SDK or one of the
    local failures listed for the method. *)
Lemma method_raises_allowed (m : method) (s : store) (e : exn) :
  fst (call_method m s) = Raise e -> allowed (may_raise_locally m) e.
Proof.
  revert s e. change (raises_in (allowed (may_raise_locally m)) (call_method m)).
  destruct m; cbn [call_method may_raise_locally];
    try apply raises_get_account_json;
    try apply raises_submit;
    try apply raises_subscribe_price;
    unfold get_positions, get_position, portfolio_summary, market_buy, market_sell,
      limit_order, stop_loss, trailing_stop, submit_custom_order, cancel_order,
      cancel_all_orders, list_orders, get_order, close_position,
      close_all_positions, list_assets, get_last_quote, get_last_trade,
      get_last_bar, get_historical_bars, cash, buying_power, __repr__;
    try match goal with
        | |- context [if ?b then _ else _] =>
            destruct b; [apply raises_raise; reflexivity|]
        end;
    raise_steps;
    try apply raises_get_account_json;
    try apply raises_submit.
  all: try (raise_steps; fail).
  all: match goal with
       | |- raises_in _ (pure (match Py.getattr ?v ?n with _ => _ end)) =>
           destruct (Py.getattr v n); raise_steps
       end.
Qed.


(** *** Errors of the calls *)

Lemma ends_still {A} (m : M store A) :
  (forall s, snd (m s) = s) -> ends_as_its_calls m.
Proof.
  intros H s. exists []. rewrite H. split.
  - unfold added. now rewrite app_nil_r.
  - left. constructor.
Qed.

Lemma ends_set_ws (h : StockDataStream) : ends_as_its_calls (set_ws h).
Proof.
  intros s. exists []. split.
  - unfold added. simpl. now rewrite app_nil_r.
  - left. constructor.
Qed.

Lemma ends_invoke (c : call) : ends_as_its_calls (sdk (invoke c)).
Proof.
  intros s. destruct (invoke_state c s) as (_ & Ha & Hr).
  eexists. split; [exact Ha|].
  rewrite Hr. destruct (fst (perform c (service (env s)))) as [a | f | ]; simpl.
  - left. repeat constructor.
  - right. exists [], c, (Threw f). repeat split. constructor.
  - right. exists [], c, NeverReturned. repeat split. constructor.
Qed.

Lemma ends_bind {A B} (m : M store A) (f : A -> M store B) :
  ends_as_its_calls m -> (forall a, ends_as_its_calls (f a)) ->
  ends_as_its_calls (bind m f).
Proof.
  intros Hm Hf s. unfold bind.
  destruct (Hm s) as (e1 & A1 & H1).
  destruct (m s) as [[a | e | ] s1]; simpl in *.
  - assert (completed e1) as C1.
    { destruct H1 as [C | (pre & c & st & _ & _ & Hst)]; [exact C|].
      destruct st; [contradiction|discriminate|discriminate]. }
    destruct (Hf a s1) as (e2 & A2 & H2).
    exists (e1 ++ e2)%list. split; [exact (added_trans A1 A2)|].
    destruct H2 as [C2 | (pre & c & st & -> & Cp & Hst)].
    + left. apply Forall_app. now split.
    + right. exists (e1 ++ pre)%list, c, st.
      split; [now rewrite app_assoc|]. split; [|exact Hst].
      apply Forall_app. now split.
  - exists e1. split; [exact A1|].
    destruct H1 as [C | (pre & c & st & Hev & Cp & Hst)]; [now left|].
    right. exists pre, c, st. split; [exact Hev|]. split; [exact Cp|].
    destruct st; [contradiction| |discriminate].
    injection Hst as ->. reflexivity.
  - exists e1. split; [exact A1|].
    destruct H1 as [C | (pre & c & st & Hev & Cp & Hst)]; [now left|].
    right. exists pre, c, st. split; [exact Hev|]. split; [exact Cp|].
    destruct st; [contradiction|discriminate|reflexivity].
Qed.

Ltac ends_steps :=
  repeat first
    [ apply ends_set_ws
    | match goal with
      | |- ends_as_its_calls (sdk (invoke ?c)) => apply (@ends_invoke c)
      end
    | apply ends_still; intros ?; reflexivity
    | apply ends_bind; [ | intros ? ] ].

Lemma ends_the_ws : ends_as_its_calls the_ws.
Proof.
  apply ends_still. intros s. unfold the_ws, bind, self.
  now destruct (_ws (this s)).
Qed.

Lemma ends_ensure_ws : ends_as_its_calls _ensure_ws.
Proof.
  intros s. unfold _ensure_ws. rewrite bind_self.
  destruct (_ws (this s)).
  - exact (@ends_still _ (ret tt) (fun _ => eq_refl) s).
  - exact (@ends_bind _ _ _ _
             (ends_invoke (StockDataStream_new (_api_key (this s)) (_secret (this s))))
             (fun h : StockDataStream => ends_set_ws h) s).
Qed.

Lemma ends_subscribe_each (symbols : list string) (handler : callback) :
  ends_as_its_calls (subscribe_each symbols handler).
Proof.
  induction symbols as [|sym rest IH]; cbn [subscribe_each]; [ends_steps|].
  apply ends_bind; [apply ends_the_ws|intros ws].
  apply ends_bind; [apply ends_invoke|intros _; exact IH].
Qed.

Lemma ends_subscribe_price (symbols : list string) (handler : callback) :
  ends_as_its_calls (subscribe_price symbols handler).
Proof.
  unfold subscribe_price.
  apply ends_bind; [apply ends_ensure_ws|intros _].
  apply ends_bind; [apply ends_subscribe_each|intros _].
  apply ends_bind; [apply ends_the_ws|intros ws].
  ends_steps.
Qed.

Lemma ends_call_method (m : method) : ends_as_its_calls (call_method m).
Proof.
  destruct m; cbn [call_method];
    try apply ends_subscribe_price;
    unfold get_account_json, get_positions, get_position, portfolio_summary,
      get_account_json, get_positions, market_buy, market_sell, limit_order,
      stop_loss, trailing_stop, submit_custom_order, _submit, cancel_order,
      cancel_all_orders, list_orders, get_order, close_position,
      close_all_positions, list_assets, get_last_quote, get_last_trade,
      get_last_bar, get_historical_bars, cash, buying_power, __repr__,
      get_account_json, as_json, as_json_each;
    try match goal with
        | |- context [if ?b then _ else _] => destruct b
        end;
    ends_steps.
Qed.

(** C4, as amended.  An exception that reaches the caller of a public
    method and was raised by the wrapper's own code is one of the failures
    listed for the method by [may_raise_locally]: the validation error of
    [trailing_stop], the only one of the order, account, cancel, close and
    stream methods; for the methods that take a timeframe the [ValueError]
    and [KeyError] of [_tf_parse], and for [get_historical_bars] the
    [ValueError] of [datetime.fromisoformat]; for the methods that iterate
    or index a response the built-in's error on a response of another
    shape.  An exception raised by a call on a client of the SDK
    propagates unchanged: the method raises exactly that exception, and
    the call is the last one it makes, every earlier one having returned.
    A local failure occurs only with every call returned; so does any
    other exception of the SDK, which then comes from a constructor of the
    SDK or from a response object.  (What a
    response object raises while it is converted is another matter:
    [_as_json] hands on what [model_dump()] raises and swallows the
    [Exception] of [dict(obj)].) *)
Theorem errors_are_foreign_or_listed (m : method) (s : store) :
  (forall e,
      fst (call_method m s) = Raise e -> is_local e = true ->
      may_raise_locally m e)
  /\ exists evs,
       added s (snd (call_method m s)) evs
       /\ (forall c f,
             In (c, Threw f) evs ->
             fst (call_method m s) = Raise (Foreign f)
             /\ exists pre, evs = (pre ++ [(c, Threw f)])%list /\ completed pre)
       /\ (forall e,
             fst (call_method m s) = Raise e -> is_local e = true ->
             completed evs)
       /\ (forall f,
             fst (call_method m s) = Raise (Foreign f) ->
             completed evs
             \/ exists pre c, evs = (pre ++ [(c, Threw f)])%list /\ completed pre).
Proof.
  split.
  - intros e He Hl. pose proof (method_raises_allowed m s He) as Ha.
    destruct e; try exact Ha. discriminate.
  - destruct (ends_call_method m s) as (evs & Hadd & Hend).
    exists evs. split; [exact Hadd|]. split.
    + intros c f Hin.
      destruct Hend as [C | (pre & c0 & st & -> & Cp & Hst)].
      * unfold completed in C. rewrite Forall_forall in C.
        specialize (C _ Hin). discriminate.
      * apply in_app_or in Hin as [Hin | [Heq | []]].
        -- unfold completed in Cp. rewrite Forall_forall in Cp.
           specialize (Cp _ Hin). discriminate.
        -- injection Heq as -> ->. split; [exact Hst|]. now exists pre.
    + split.
      * intros e He Hl.
        destruct Hend as [C | (pre & c0 & st & -> & Cp & Hst)]; [exact C|].
        destruct st; [contradiction| |].
        -- rewrite Hst in He. injection He as <-. discriminate.
        -- rewrite Hst in He. discriminate.
      * intros f He.
        destruct Hend as [C | (pre & c0 & st & -> & Cp & Hst)]; [now left|].
        destruct st; [contradiction| |].
        -- rewrite Hst in He. injection He as ->. right. now exists pre, c0.
        -- rewrite Hst in He. discriminate.
Qed.

End ErrorProperties.

(** ** [trailing_stop] and raw mode *)

Section OrderProperties.

Context {E : Externals} {Sv : Service}.

Local Open Scope py_scope.

Lemma bind_pure_ok {S A B} (a : A) (f : A -> M S B) (s : S) :
  bind (pure (Ok a)) f s = f a s.
Proof. reflexivity. Qed.

Lemma as_json_state (v : value) (s : store) :
  as_json v s = (_as_json (raw (this s)) v, s).
Proof. reflexivity. Qed.

(** Once the request is built, [_submit] makes one call: the submission of
    that request; and it raises nothing of its own. *)
Lemma submit_history (kw : kwargs) (req : OrderRequest) (s : store) :
  new_OrderRequest kw = Returned req ->
  exists st,
    added s (snd (_submit kw s))
          [(TradingClient_submit_order (_trade (this s)) req, st)]
    /\ this (snd (_submit kw s)) = this s.
Proof.
  intros Hreq. unfold _submit. rewrite bind_self, Hreq. simpl of_reply.
  rewrite bind_pure_ok.
  destruct (invoke_cases (TradingClient_submit_order (_trade (this s)) req) s)
    as (r & s1 & Hs & Ht & Ha & _).
  exists (status_of r).
  destruct r as [order | f | ]; simpl in Hs.
  - rewrite (bind_ok _ Hs), as_json_state. simpl. auto.
  - rewrite (bind_raise _ Hs). simpl. auto.
  - rewrite (bind_hang _ Hs). simpl. auto.
Qed.

(** C10: [trailing_stop] raises its validation error when the only
    price trigger supplied is zero, for instance with [trail_percent=0.0]
    and [trail_price=None], since zero is false in the test
    [not (trail_percent or trail_price)]; nothing is sent to the SDK. *)
Theorem trailing_stop_rejects_zero_trigger
        (symbol : string) (qty : float) (side : string)
        (tif : string + TimeInForce) (s : store) :
  trailing_stop symbol qty (Some 0%float) None side tif s
  = (Raise (ValueError "Specify trail_percent or trail_price."), s)
  /\ trailing_stop symbol qty None (Some 0%float) side tif s
     = (Raise (ValueError "Specify trail_percent or trail_price."), s)
  /\ trailing_stop symbol qty (Some 0%float) (Some 0%float) side tif s
     = (Raise (ValueError "Specify trail_percent or trail_price."), s)
  /\ trailing_stop symbol qty (Some (-0)%float) None side tif s
     = (Raise (ValueError "Specify trail_percent or trail_price."), s).
Proof. repeat split. Qed.

(** C1, as amended: [trailing_stop] fails with its validation error, and
    calls nothing, whenever each price trigger is absent or zero, in
    particular when both are absent; when at least one is supplied and is
    not zero it coerces [tif], builds the trailing-stop request and
    submits it: every exception it then raises is the SDK's, and once the
    request is built the history gains exactly its submission. *)
Theorem trailing_stop_validation
        (symbol : string) (qty : float) (trail_percent trail_price : option float)
        (side : string) (tif : string + TimeInForce) (s : store) :
  trailing_stop symbol qty None None side tif s
  = (Raise (ValueError "Specify trail_percent or trail_price."), s)
  /\ (Py.truthy_float trail_percent = false ->
      Py.truthy_float trail_price = false ->
      trailing_stop symbol qty trail_percent trail_price side tif s
      = (Raise (ValueError "Specify trail_percent or trail_price."), s))
  /\ (Py.truthy_float trail_percent || Py.truthy_float trail_price = true ->
      let kw := trailing_stop_kwargs symbol qty trail_percent trail_price side in
      let result := trailing_stop symbol qty trail_percent trail_price side tif s in
      result = (t <- pure (_tif tif) ;; _submit (kw t)) s
      /\ (forall e, fst result = Raise e -> exists f, e = Foreign f /\ sdk_origin f)
      /\ (forall t req,
            _tif tif = Ok t -> new_OrderRequest (kw t) = Returned req ->
            exists st,
              added s (snd result)
                    [(TradingClient_submit_order (_trade (this s)) req, st)])).
Proof.
  split; [reflexivity|]. split.
  - intros H1 H2. unfold trailing_stop. now rewrite H1, H2.
  - intros H kw result. subst result kw.
    unfold trailing_stop. rewrite H. cbn [negb].
    split; [reflexivity|]. split.
    + intros e.
      change (pure (_tif tif)) with (pure (S := store) (_tif tif)).
      destruct (_tif tif) as [t | e' | ] eqn:Ht; try discriminate.
      * set (kw := trailing_stop_kwargs symbol qty trail_percent trail_price side t).
        change (fst (_submit kw s) = Raise e ->
                exists f, e = Foreign f /\ sdk_origin f).
        unfold _submit. rewrite bind_self.
        destruct (new_OrderRequest kw) as [req | f | ] eqn:Hreq;
          simpl of_reply; try discriminate.
        -- rewrite bind_pure_ok.
           destruct (invoke_cases (TradingClient_submit_order (_trade (this s)) req) s)
             as (r & s1 & Hs & _ & _ & Hp).
           destruct r as [order | f | ]; simpl in Hs.
           ++ rewrite (bind_ok _ Hs), as_json_state. simpl. intros He.
              destruct (as_json_raises_from_object _ _ He) as (f & -> & Hf).
              exists f. split; [reflexivity|].
              eapply from_response; [exact Hp|reflexivity|exact Hf].
           ++ rewrite (bind_raise _ Hs). simpl. intros He. injection He as <-.
              exists f. split; [reflexivity|]. eapply from_call; exact Hp.
           ++ rewrite (bind_hang _ Hs). discriminate.
        -- intros He. injection He as <-. exists f. split; [reflexivity|].
           eapply from_OrderRequest; exact Hreq.
      * intros He. injection He as <-.
        destruct tif as [str | t]; simpl in Ht; [|discriminate].
        destruct (new_TimeInForce (PyStr.lower str)) as [t | f | ] eqn:Hn;
          simpl in Ht; try discriminate.
        injection Ht as <-. exists f. split; [reflexivity|].
        eapply from_TimeInForce; exact Hn.
    + intros t req Ht Hreq.
      change (pure (_tif tif)) with (pure (S := store) (_tif tif)).
      rewrite Ht, bind_pure_ok.
      destruct (submit_history _ s Hreq) as (st & Ha & _). eauto.
Qed.

End OrderProperties.

Section RawProperties.

Context {E : Externals} {Sv : Service}.

Local Open Scope py_scope.

Lemma as_json_raw_step (v : value) (s : store) :
  raw (this s) = true -> as_json v s = (Ok v, s).
Proof. intros H. now rewrite as_json_state, H, as_json_raw. Qed.

Lemma as_json_each_raw (v : value) (s : store) :
  raw (this s) = true ->
  as_json_each v s = pure (xs <- Py.iterate v ;; Ok (VList xs))%outcome s.
Proof.
  intros H. unfold as_json_each. rewrite bind_self, H. unfold pure.
  destruct (Py.iterate v) as [xs | e | ]; simpl; try reflexivity.
  now rewrite as_json_list_raw.
Qed.

Lemma bind_ret_r {S A} (m : M S A) (s : S) : bind m ret s = m s.
Proof. unfold bind, ret. now destruct (m s) as [[a | e | ] s']. Qed.

Ltac raw_run Hraw :=
  repeat first
    [ rewrite !bind_self
    | rewrite (as_json_raw_step _ _ Hraw)
    | rewrite (as_json_each_raw _ _ Hraw)
    | match goal with
      | |- context [bind (sdk (invoke ?c)) _ ?s] =>
          let r := fresh "r" in
          let s1 := fresh "s" in
          let Hs := fresh "Hs" in
          let Ht := fresh "Ht" in
          destruct (invoke_cases c s) as (r & s1 & Hs & Ht & _);
          destruct r; simpl in Hs;
          [ rewrite !(bind_ok _ Hs); rewrite <- Ht in Hraw
          | rewrite !(bind_raise _ Hs); reflexivity
          | rewrite !(bind_hang _ Hs); reflexivity ]
      | |- context [bind (pure ?r) _ ?s] =>
          destruct r eqn:?; [rewrite !bind_pure_ok | reflexivity | reflexivity]
      end ];
  try reflexivity.

Ltac wrap_rhs :=
  match goal with
  | |- _ = ?m ?s => rewrite <- (bind_ret_r m s)
  end.

(** C9, as amended: when [raw_data=True], [_as_json] is the identity, so
    every method that returns a normalised response returns what the SDK
    gave it: [get_account_json], [get_position], [get_order] and the order
    helpers ([_submit] and its callers) return the response itself;
    [get_positions], [list_orders], [list_assets] and
    [get_historical_bars] return the list of the unchanged items;
    [get_last_quote], [get_last_trade] and [get_last_bar] return the
    unchanged part of the response they pick. *)
Theorem raw_mode_skips_normalisation (s : store) :
  raw (this s) = true ->
  (forall obj, _as_json (raw (this s)) obj = Ok obj)
  /\ get_account_json s
     = sdk (invoke (TradingClient_get_account (_trade (this s)))) s
  /\ (forall symbol,
        get_position symbol s
        = sdk (invoke (TradingClient_get_position (_trade (this s)) symbol)) s)
  /\ (forall order_id,
        get_order order_id s
        = sdk (invoke (TradingClient_get_order_by_id (_trade (this s)) order_id)) s)
  /\ (forall kw,
        _submit kw s
        = (req <- pure (of_reply (new_OrderRequest kw)) ;;
           sdk (invoke (TradingClient_submit_order (_trade (this s)) req))) s)
  /\ (forall symbol qty tif,
        market_buy symbol qty tif s
        = (t <- pure (_tif tif) ;;
           req <- pure (of_reply (new_OrderRequest
                    [("symbol", KStr symbol); ("qty", KNum qty); ("side", KSide BUY);
                     ("type", KType MARKET); ("time_in_force", KTif t)])) ;;
           sdk (invoke (TradingClient_submit_order (_trade (this s)) req))) s)
  /\ (forall symbol qty tif,
        market_sell symbol qty tif s
        = (t <- pure (_tif tif) ;;
           req <- pure (of_reply (new_OrderRequest
                    [("symbol", KStr symbol); ("qty", KNum qty); ("side", KSide SELL);
                     ("type", KType MARKET); ("time_in_force", KTif t)])) ;;
           sdk (invoke (TradingClient_submit_order (_trade (this s)) req))) s)
  /\ (forall symbol qty limit_price side tif,
        limit_order symbol qty limit_price side tif s
        = (t <- pure (_tif tif) ;;
           req <- pure (of_reply (new_OrderRequest
                    [("symbol", KStr symbol); ("qty", KNum qty);
                     ("side", KSide (_side side)); ("type", KType LIMIT);
                     ("limit_price", KNum limit_price); ("time_in_force", KTif t)])) ;;
           sdk (invoke (TradingClient_submit_order (_trade (this s)) req))) s)
  /\ (forall symbol qty stop_price side tif,
        stop_loss symbol qty stop_price side tif s
        = (t <- pure (_tif tif) ;;
           req <- pure (of_reply (new_OrderRequest
                    [("symbol", KStr symbol); ("qty", KNum qty);
                     ("side", KSide (_side side)); ("type", KType STOP);
                     ("stop_price", KNum stop_price); ("time_in_force", KTif t)])) ;;
           sdk (invoke (TradingClient_submit_order (_trade (this s)) req))) s)
  /\ (forall symbol qty trail_percent trail_price side tif,
        Py.truthy_float trail_percent || Py.truthy_float trail_price = true ->
        trailing_stop symbol qty trail_percent trail_price side tif s
        = (t <- pure (_tif tif) ;;
           req <- pure (of_reply (new_OrderRequest
                    (trailing_stop_kwargs symbol qty trail_percent trail_price side t))) ;;
           sdk (invoke (TradingClient_submit_order (_trade (this s)) req))) s)
  /\ get_positions s
     = (ps <- sdk (invoke (TradingClient_get_all_positions (_trade (this s)))) ;;
        pure (xs <- Py.iterate ps ;; Ok (VList xs))%outcome) s
  /\ (forall status limit,
        list_orders status limit s
        = (req <- pure (of_reply (new_GetOrdersRequest status limit)) ;;
           os <- sdk (invoke (TradingClient_get_orders (_trade (this s)) req)) ;;
           pure (xs <- Py.iterate os ;; Ok (VList xs))%outcome) s)
  /\ (forall status asset_class,
        list_assets status asset_class s
        = (req <- pure (of_reply (new_GetAssetsRequest status asset_class)) ;;
           assets <- sdk (invoke (TradingClient_get_all_assets (_trade (this s)) req)) ;;
           pure (xs <- Py.iterate assets ;; Ok (VList xs))%outcome) s)
  /\ (forall symbol,
        get_last_quote symbol s
        = (req <- pure (of_reply (new_StockLatestQuoteRequest symbol)) ;;
           data <- sdk (invoke (Historical_get_stock_latest_quote (_hist (this s)) req)) ;;
           pure (match Py.getattr data "quote" with
                 | Some q => Ok q
                 | None => (vs <- Py.values data ;; Py.next_iter vs)%outcome
                 end)) s)
  /\ (forall symbol,
        get_last_trade symbol s
        = (req <- pure (of_reply (new_StockLatestTradeRequest symbol)) ;;
           data <- sdk (invoke (Historical_get_stock_latest_trade (_hist (this s)) req)) ;;
           pure (match Py.getattr data "trade" with
                 | Some t => Ok t
                 | None => (vs <- Py.values data ;; Py.next_iter vs)%outcome
                 end)) s)
  /\ (forall symbol timeframe,
        get_last_bar symbol timeframe s
        = (tf <- pure (_tf_parse timeframe (inl Minute)) ;;
           bars <- sdk (invoke (Historical_get_stock_bars_args (_hist (this s)) symbol tf 1)) ;;
           pure (Py.getitem bars (SubInt (-1)))) s)
  /\ (forall symbol timeframe start end_ limit,
        get_historical_bars symbol timeframe start end_ limit s
        = (tf <- pure (_tf_parse timeframe (inl Minute)) ;;
           start_dt <- pure (to_datetime start) ;;
           end_dt <- pure (to_datetime end_) ;;
           req <- pure (of_reply (new_StockBarsRequest symbol tf start_dt end_dt limit)) ;;
           raw_ <- sdk (invoke (Historical_get_stock_bars (_hist (this s)) req)) ;;
           bars <- pure (match Py.getattr raw_ "bars" with
                         | Some b => Py.getitem b (SubStr symbol)
                         | None => Py.getitem raw_ (SubStr symbol)
                         end) ;;
           pure (xs <- Py.iterate bars ;; Ok (VList xs))%outcome) s).
Proof.
  intros Hraw.
  split. { intros obj. rewrite Hraw. apply as_json_raw. }
  split. { wrap_rhs. unfold get_account_json. raw_run Hraw. }
  split. { intros. wrap_rhs. unfold get_position. raw_run Hraw. }
  split. { intros. wrap_rhs. unfold get_order. raw_run Hraw. }
  split. { intros. unfold _submit. raw_run Hraw. wrap_rhs. raw_run Hraw. }
  split. { intros. unfold market_buy, _submit. raw_run Hraw. wrap_rhs. raw_run Hraw. }
  split. { intros. unfold market_sell, _submit. raw_run Hraw. wrap_rhs. raw_run Hraw. }
  split. { intros. unfold limit_order, _submit. raw_run Hraw. wrap_rhs. raw_run Hraw. }
  split. { intros. unfold stop_loss, _submit. raw_run Hraw. wrap_rhs. raw_run Hraw. }
  split. { intros symbol qty tp tpr side tif Htr.
           unfold trailing_stop, trailing_stop_kwargs, _submit. rewrite Htr. cbn [negb].
           raw_run Hraw. wrap_rhs. raw_run Hraw. }
  split. { unfold get_positions. raw_run Hraw. }
  split. { intros. unfold list_orders. raw_run Hraw. }
  split. { intros. unfold list_assets. raw_run Hraw. }
  split. { intros. unfold get_last_quote. raw_run Hraw. }
  split. { intros. unfold get_last_trade. raw_run Hraw. }
  split. { intros. unfold get_last_bar. raw_run Hraw. }
  intros. unfold get_historical_bars. raw_run Hraw.
Qed.

End RawProperties.

(* ================================================================== *)
(** * Further properties of the code *)

(** ** The timeframe parser and the normaliser *)

Section ParserProperties.

Context {E : Externals}.

(** X1: the whole behaviour of [_tf_parse] on a string (over the code
    points up to U+00FF).  When the digits of the string ([str.isdigit])
    are not a number [int] reads, which is a run of one to 4300 decimal
    digits, it raises [ValueError]: so without any digit, with a
    superscript digit, and with too many digits.  Otherwise the amount is
    the number the digits spell, wherever they stand in the string, and
    the first three letters ([str.isalpha]), lower-cased, decide the unit:
    ["min"] gives minutes, ["day"] gives days, and anything else, the
    ["hou"] of the hour included, raises [KeyError] with these letters.
    The [unit] argument plays no part. *)
Theorem tf_parse_on_strings (s : string) (unit : TimeFrameUnit + string) :
  if int_readable (digits_of s)
  then _tf_parse (inl s) unit
       = if String.eqb (first_letters 3 s) "min"
         then of_reply (new_TimeFrame (PyStr.digits_value 0 (digits_of s)) (inl Minute))
         else if String.eqb (first_letters 3 s) "day"
         then of_reply (new_TimeFrame (PyStr.digits_value 0 (digits_of s)) (inl Day))
         else Raise (KeyError (SubStr (first_letters 3 s)))
  else exists msg, _tf_parse (inl s) unit = Raise (ValueError msg).
Proof.
  rewrite tf_parse_str.
  pose proof (int_of_str_cases (digits_of s)) as Hint.
  destruct (int_readable (digits_of s)).
  - now rewrite Hint.
  - destruct Hint as [msg ->]. now exists msg.
Qed.

End ParserProperties.

(** X2: on an object without [model_dump], [_as_json] never raises an
    [Exception]: whatever [dict(obj)] or the conversion of an item raises
    is swallowed by [except Exception], so only an exception outside the
    [Exception] hierarchy can escape. *)
Theorem as_json_swallows_exceptions (v : value) (e : exn) :
  has_model_dump v = false ->
  _as_json false v = Raise e ->
  is_Exception e = false.
Proof.
  intros Hmd. destruct v; try (simpl; discriminate).
  rewrite as_json_object. simpl in Hmd.
  destruct (o_model_dump o); [discriminate|].
  destruct (o_builtin o); [discriminate|]. cbv zeta.
  assert (forall e', match o_vars o with
                     | Some d => Ok (VDict d)
                     | None => Ok (VObj o)
                     end <> Raise e') as Hlast.
  { intros e'. destruct (o_vars o); discriminate. }
  destruct (o_iter o); [|intros H; now apply Hlast in H].
  destruct (o_todict o) as [kvs | f | ]; try discriminate.
  - destruct (_as_json_items false kvs) as [kvs' | e' | ]; try discriminate.
    destruct (is_Exception e') eqn:He; [intros H; now apply Hlast in H|].
    intros H. injection H as <-. exact He.
  - destruct (f_is_Exception f) eqn:Hf; [intros H; now apply Hlast in H|].
    intros H. injection H as <-. exact Hf.
Qed.

(** What [model_dump()] raises is not caught: [_as_json] hands it on,
    [Exception] or not, although it is meant to convert "without
    crashing". *)
Theorem as_json_model_dump_error_escapes (o : pyobject value) (f : foreign) :
  o_model_dump o = Some (Raised f) ->
  _as_json false (VObj o) = Raise (Foreign f).
Proof. intros H. rewrite as_json_object, H. reflexivity. Qed.



(** ** How many calls a method makes *)

Section BudgetProperties.

Context {E : Externals} {Sv : Service}.

Local Open Scope py_scope.

Lemma added_refl (s : store) : added s s [].
Proof. unfold added. now rewrite app_nil_r. Qed.

Lemma within_still {A} (m : M store A) :
  (forall s, snd (m s) = s) -> calls_within 0 m.
Proof. intros H s. exists []. rewrite H. split; [apply added_refl|simpl; lia]. Qed.

Lemma within_set_ws (h : StockDataStream) : calls_within 0 (set_ws h).
Proof.
  intros s. exists []. split; [|simpl; lia].
  unfold added. simpl. now rewrite app_nil_r.
Qed.

Lemma within_invoke (c : call) : calls_within 1 (sdk (invoke c)).
Proof.
  intros s. destruct (invoke_state c s) as (_ & Ha & _).
  eexists. split; [exact Ha|simpl; lia].
Qed.

Lemma within_bind {A B} (n k : nat) (m : M store A) (f : A -> M store B) :
  calls_within n m -> (forall a, calls_within k (f a)) ->
  calls_within (n + k) (bind m f).
Proof.
  intros Hm Hf s. unfold bind. destruct (Hm s) as (e1 & H1 & L1).
  destruct (m s) as [[a | e | ] s1]; simpl in H1.
  - destruct (Hf a s1) as (e2 & H2 & L2).
    exists (e1 ++ e2)%list. split; [exact (added_trans H1 H2)|].
    rewrite length_app. lia.
  - exists e1. split; [exact H1|lia].
  - exists e1. split; [exact H1|lia].
Qed.

Lemma within_weaken {A} (n k : nat) (m : M store A) :
  (n <= k)%nat -> calls_within n m -> calls_within k m.
Proof.
  intros Hle Hm s. destruct (Hm s) as (evs & Ha & L). exists evs. split; [exact Ha|lia].
Qed.

Lemma within_the_ws : calls_within 0 the_ws.
Proof.
  apply within_still. intros s. unfold the_ws, bind, self.
  now destruct (_ws (this s)).
Qed.

Ltac within_steps :=
  repeat first
    [ apply within_set_ws
    | apply within_the_ws
    | match goal with
      | |- calls_within _ (sdk (invoke ?c)) => apply (@within_invoke c)
      end
    | apply within_still; intros ?; reflexivity
    | eapply within_bind; [ | intros ? ] ].

Ltac within_budget :=
  eapply within_weaken; [ | within_steps ]; simpl; lia.

Lemma within_ensure_ws : calls_within 1 _ensure_ws.
Proof.
  intros s. unfold _ensure_ws. rewrite bind_self.
  destruct (_ws (this s)).
  - exists []. split; [apply added_refl|simpl; lia].
  - assert (calls_within (1 + 0)
              (h <- sdk (invoke (StockDataStream_new (_api_key (this s))
                                                     (_secret (this s)))) ;;
               set_ws h)) as H by within_steps.
    exact (H s).
Qed.

Lemma within_subscribe_each (symbols : list string) (handler : callback) :
  calls_within (List.length symbols) (subscribe_each symbols handler).
Proof.
  induction symbols as [|sym rest IH]; cbn [subscribe_each List.length].
  - within_steps.
  - apply (within_bind (n := 0) (k := S (List.length rest)));
      [apply within_the_ws|intros ws].
    apply (within_bind (n := 1) (k := List.length rest));
      [within_steps|intros ?; exact IH].
Qed.

Lemma within_subscribe_price (symbols : list string) (handler : callback) :
  calls_within (2 + List.length symbols) (subscribe_price symbols handler).
Proof.
  unfold subscribe_price.
  apply (within_weaken (n := 1 + (List.length symbols + (0 + (1 + 0))))); [lia|].
  apply within_bind; [apply within_ensure_ws|intros ?].
  apply within_bind; [apply within_subscribe_each|intros ?].
  apply within_bind; [apply within_the_ws|intros ws].
  apply within_bind; [within_steps|intros ?; within_steps].
Qed.

(** X4: no public method repeats a call.  A method makes at most one call
    on the SDK, [portfolio_summary] at most two, and [subscribe_price] at
    most one per symbol besides the creation of the stream and the receive
    loop; whether the call returns, raises or blocks. *)
Theorem methods_stay_within_budget (m : method) (s : store) :
  exists evs,
    added s (snd (call_method m s)) evs
    /\ (List.length evs <= call_budget m)%nat.
Proof.
  revert s. change (calls_within (call_budget m) (call_method m)).
  destruct m; cbn [call_method call_budget];
    try apply within_subscribe_price;
    unfold get_account_json, get_positions, get_position, portfolio_summary,
      get_account_json, get_positions, market_buy, market_sell, limit_order,
      stop_loss, trailing_stop, submit_custom_order, _submit, cancel_order,
      cancel_all_orders, list_orders, get_order, close_position,
      close_all_positions, list_assets, get_last_quote, get_last_trade,
      get_last_bar, get_historical_bars, cash, buying_power, __repr__,
      get_account_json, as_json, as_json_each;
    try match goal with
        | |- context [if ?b then _ else _] =>
            destruct b; [apply (within_weaken (n := 0)); [lia|within_steps]|]
        end;
    within_budget.
Qed.

End BudgetProperties.


(** ** The configuration of an instance *)

Section ConfigurationProperties.

Context {E : Externals} {Sv : Service}.

Local Open Scope py_scope.

Lemma same_config_refl (o : SimpleAlpaca) : same_config o o.
Proof. repeat split. Qed.

Lemma same_config_trans (a b c : SimpleAlpaca) :
  same_config a b -> same_config b c -> same_config a c.
Proof.
  intros (H1 & H2 & H3 & H4 & H5) (G1 & G2 & G3 & G4 & G5).
  repeat split; congruence.
Qed.

Lemma lawful_call_config (o o' : SimpleAlpaca) (c : call) :
  same_config o o' -> lawful_call o' c -> lawful_call o c.
Proof.
  intros (_ & _ & _ & H4 & H5). destruct c; simpl; auto.
  now rewrite H4, H5.
Qed.

Lemma configured_refl (s : store) : configured s s.
Proof.
  split; [apply same_config_refl|]. exists []. split; [|constructor].
  unfold added. now rewrite app_nil_r.
Qed.

Lemma configured_trans (a b c : store) :
  configured a b -> configured b c -> configured a c.
Proof.
  intros [C1 (e1 & A1 & F1)] [C2 (e2 & A2 & F2)].
  split; [exact (same_config_trans C1 C2)|].
  exists (e1 ++ e2)%list. split; [exact (added_trans A1 A2)|].
  apply Forall_app. split; [exact F1|].
  eapply Forall_impl; [|exact F2].
  intros ev. apply lawful_call_config. exact C1.
Qed.

Lemma configured_invoke (c : call) (s : store) :
  lawful_call (this s) c -> configured s (snd (sdk (invoke c) s)).
Proof.
  intros Hc. destruct (invoke_state c s) as (Ht & Ha & _).
  split; [rewrite Ht; apply same_config_refl|].
  eexists. split; [exact Ha|]. constructor; [exact Hc|constructor].
Qed.

Lemma steps_configured_invoke (c : call) :
  (forall o, lawful_call o c) -> steps configured (sdk (invoke c)).
Proof. intros H s. apply configured_invoke, H. Qed.

Lemma configured_set_ws (h : StockDataStream) (s : store) :
  configured s (snd (set_ws h s)).
Proof.
  split; [repeat split|]. exists []. split; [|constructor].
  unfold added. simpl. now rewrite app_nil_r.
Qed.

Lemma steps_configured_ensure_ws : steps configured _ensure_ws.
Proof.
  intros s. unfold _ensure_ws. rewrite bind_self.
  destruct (_ws (this s)); [apply configured_refl|].
  set (c := StockDataStream_new (_api_key (this s)) (_secret (this s))).
  pose proof (configured_invoke c s) as Hc.
  destruct (sdk (invoke c) s) as [[h | e | ] s1] eqn:Hs; simpl in Hc.
  - rewrite (bind_ok _ Hs).
    eapply configured_trans; [apply Hc; now split|apply configured_set_ws].
  - rewrite (bind_raise _ Hs). apply Hc. now split.
  - rewrite (bind_hang _ Hs). apply Hc. now split.
Qed.

Lemma steps_configured_the_ws : steps configured the_ws.
Proof.
  intros s. unfold the_ws. rewrite bind_self.
  destruct (_ws (this s)); apply configured_refl.
Qed.

Ltac configured_steps :=
  repeat first
    [ apply steps_configured_ensure_ws
    | apply steps_configured_the_ws
    | apply (@steps_ret _ _ configured configured_refl)
    | apply (@steps_pure _ _ configured configured_refl)
    | apply (@steps_raise _ _ configured configured_refl)
    | apply (@steps_self _ _ configured configured_refl)
    | match goal with
      | |- steps _ (sdk (invoke ?c)) =>
          apply (@steps_configured_invoke c); intros ?; exact I
      end
    | apply (@steps_bind _ _ configured configured_trans); [ | intros ? ] ].

Lemma steps_configured_subscribe_each (symbols : list string) (handler : callback) :
  steps configured (subscribe_each symbols handler).
Proof.
  induction symbols as [|sym rest IH]; cbn [subscribe_each].
  - configured_steps.
  - apply (@steps_bind _ _ configured configured_trans);
      [configured_steps|intros ws].
    apply (@steps_bind _ _ configured configured_trans);
      [configured_steps|intros ?; exact IH].
Qed.

Lemma steps_configured_method (m : method) : steps configured (call_method m).
Proof.
  destruct m; cbn [call_method];
    unfold get_account_json, get_positions, get_position, portfolio_summary,
      get_account_json, get_positions, market_buy, market_sell, limit_order,
      stop_loss, trailing_stop, submit_custom_order, _submit, cancel_order,
      cancel_all_orders, list_orders, get_order, close_position,
      close_all_positions, list_assets, get_last_quote, get_last_trade,
      get_last_bar, get_historical_bars, cash, buying_power, __repr__,
      get_account_json, as_json, as_json_each, subscribe_price;
    try match goal with
        | |- context [if ?b then _ else _] => destruct b
        end;
    configured_steps.
  apply steps_configured_subscribe_each.
Qed.

Lemma run_methods_configured (ms : list method) :
  forall s, configured s (run_methods ms s).
Proof.
  induction ms as [|m rest IH]; intros s; simpl; [apply configured_refl|].
  pose proof (steps_configured_method m s) as Hm.
  destruct (call_method m s) as [[v | e | ] s1]; simpl in Hm.
  - exact (configured_trans Hm (IH s1)).
  - exact (configured_trans Hm (IH s1)).
  - exact Hm.
Qed.

(** X5: whatever methods a program calls, in whatever order and whatever
    the SDK answers, the instance keeps the raw flag, the two clients and
    the credentials it was constructed with: the stream handle is the one
    field that ever changes. *)
Theorem configuration_is_fixed (ms : list method) (s : store) :
  same_config (this s) (this (run_methods ms s)).
Proof. exact (proj1 (run_methods_configured ms s)). Qed.

(** X6: the methods of an instance never build a trading or a historical
    client again, and they build a stream only with the credentials given
    to the constructor. *)
Theorem streams_use_the_constructor_credentials
        (api_key secret_key : string) (paper raw_data : bool) (w : world)
        (s : store) (ms : list method) :
  construct api_key secret_key paper raw_data w = Some s ->
  exists evs,
    added s (run_methods ms s) evs
    /\ Forall (fun ev =>
                 match fst ev with
                 | TradingClient_new _ _ _ => False
                 | StockHistoricalDataClient_new _ _ => False
                 | StockDataStream_new k sec => k = api_key /\ sec = secret_key
                 | _ => True
                 end) evs.
Proof.
  intros Hc.
  assert (_api_key (this s) = api_key /\ _secret (this s) = secret_key) as [Hk Hs].
  { revert Hc. unfold construct, __init__, bind, invoke, ret.
    destruct (perform (TradingClient_new api_key secret_key paper) (service w))
      as [[t | f | ] s1]; simpl; try discriminate.
    destruct (perform (StockHistoricalDataClient_new api_key secret_key) s1)
      as [[h | f | ] s2]; simpl; try discriminate.
    intros H. injection H as <-. now split. }
  destruct (run_methods_configured ms s) as (_ & evs & Ha & Hall).
  exists evs. split; [exact Ha|].
  eapply Forall_impl; [|exact Hall].
  intros ev. unfold lawful_call. rewrite Hk, Hs. now destruct (fst ev).
Qed.

(** X7: [__init__] builds the trading client first, with the [paper] flag,
    and the historical client second, both with the given credentials;
    when the first constructor does not return, the second is never
    called; the instance that results has no stream and holds the
    arguments. *)
Theorem init_builds_clients_in_order
        (api_key secret_key : string) (paper raw_data : bool) (w : world) :
  exists evs,
    trace (snd (__init__ api_key secret_key paper raw_data w)) = (trace w ++ evs)%list
    /\ match fst (__init__ api_key secret_key paper raw_data w) with
       | Ok o =>
           evs = [(TradingClient_new api_key secret_key paper, Completed);
                  (StockHistoricalDataClient_new api_key secret_key, Completed)]
           /\ raw o = raw_data /\ _ws o = None
           /\ _api_key o = api_key /\ _secret o = secret_key
       | _ =>
           exists st,
             st <> Completed
             /\ (evs = [(TradingClient_new api_key secret_key paper, st)]
                 \/ evs = [(TradingClient_new api_key secret_key paper, Completed);
                           (StockHistoricalDataClient_new api_key secret_key, st)])
       end.
Proof.
  unfold __init__, bind, invoke, ret.
  destruct (perform (TradingClient_new api_key secret_key paper) (service w))
    as [[t | f | ] s1]; simpl.
  - destruct (perform (StockHistoricalDataClient_new api_key secret_key) s1)
      as [[h | f | ] s2]; simpl; rewrite <- app_assoc; simpl;
      eexists; (split; [reflexivity|]).
    + repeat split.
    + eexists. split; [|right; reflexivity]. discriminate.
    + eexists. split; [|right; reflexivity]. discriminate.
  - eexists. split; [reflexivity|]. eexists. split; [|left; reflexivity]. discriminate.
  - eexists. split; [reflexivity|]. eexists. split; [|left; reflexivity]. discriminate.
Qed.

(** X8: [_ensure_ws] is idempotent: calling it a second time right after
    the first changes nothing and calls nothing. *)
Theorem ensure_ws_idempotent (s : store) :
  (_ensure_ws ;;; _ensure_ws) s = _ensure_ws s.
Proof.
  assert (forall s0 h, _ws (this s0) = Some h -> _ensure_ws s0 = (Ok tt, s0)) as Hset.
  { intros s0 h H. unfold _ensure_ws. rewrite bind_self. now rewrite H. }
  destruct (_ws (this s)) as [h|] eqn:Hws.
  - rewrite (bind_ok _ (Hset s h Hws)). reflexivity.
  - destruct (_ensure_ws s) as [[[] | e | ] s1] eqn:H1.
    + rewrite (bind_ok _ H1).
      revert H1. unfold _ensure_ws at 1. rewrite bind_self, Hws.
      destruct (sdk (invoke (StockDataStream_new (_api_key (this s)) (_secret (this s)))) s)
        as [[h | e | ] s2] eqn:Hs.
      * rewrite (bind_ok _ Hs). intros H. injection H as <-.
        now apply (Hset _ h).
      * rewrite (bind_raise _ Hs). discriminate.
      * rewrite (bind_hang _ Hs). discriminate.
    + now rewrite (bind_raise _ H1).
    + now rewrite (bind_hang _ H1).
Qed.

End ConfigurationProperties.


(** ** What the methods return *)

Section ResultProperties.

Context {E : Externals} {Sv : Service}.

Local Open Scope py_scope.

Lemma returns_bind {S A B} (P : A -> Prop) (Q : B -> Prop)
      (m : M S A) (f : A -> M S B) :
  returns_in P m -> (forall a, P a -> returns_in Q (f a)) ->
  returns_in Q (bind m f).
Proof.
  intros Hm Hf s b. unfold bind. specialize (Hm s).
  destruct (m s) as [[a | e | ] s1]; simpl in *; try discriminate.
  apply Hf. now apply Hm.
Qed.

Lemma returns_any {S A} (m : M S A) : returns_in (fun _ => True) m.
Proof. intros s a _. exact I. Qed.

Lemma returns_ret {S A} (Q : A -> Prop) (a : A) : Q a -> returns_in Q (ret (S := S) a).
Proof. intros H s a' Ha. simpl in Ha. now injection Ha as <-. Qed.

(** The comprehension returns a list. *)
Lemma returns_as_json_each (v : value) :
  returns_in (fun r => exists items, r = VList items) (as_json_each v).
Proof.
  intros s r. unfold as_json_each. rewrite bind_self. unfold pure. simpl.
  destruct (Py.iterate v) as [xs | e | ]; simpl; try discriminate.
  destruct (as_json_list (raw (this s)) xs) as [ys | e | ]; simpl; try discriminate.
  intros H. injection H as <-. eauto.
Qed.

Lemma as_json_list_each (raw : bool) (xs ys : list value) :
  as_json_list raw xs = Ok ys ->
  Forall2 (fun x y => _as_json raw x = Ok y) xs ys.
Proof.
  revert ys. induction xs as [|x r IH]; intros ys; simpl.
  - intros H. injection H as <-. constructor.
  - destruct (_as_json raw x) as [x' | e | ] eqn:Hx; simpl; try discriminate.
    destruct (as_json_list raw r) as [r' | e | ]; simpl; try discriminate.
    intros H. injection H as <-. constructor; auto.
Qed.

(** X9: the comprehension [[self._as_json(x) for x in response]] of
    [get_positions], [list_orders], [list_assets] and
    [get_historical_bars] returns a list with exactly one entry per item
    of the response, in the order of the response, each the conversion of
    its item; it converts all the items or fails as a whole, and never
    touches the state. *)
Theorem comprehension_converts_item_by_item (response r : value) (s : store) :
  fst (as_json_each response s) = Ok r ->
  snd (as_json_each response s) = s
  /\ exists xs ys,
       Py.iterate response = Ok xs
       /\ r = VList ys
       /\ List.length ys = List.length xs
       /\ Forall2 (fun x y => _as_json (raw (this s)) x = Ok y) xs ys.
Proof.
  unfold as_json_each. rewrite bind_self. unfold pure. simpl.
  destruct (Py.iterate response) as [xs | e | ]; simpl; try discriminate.
  destruct (as_json_list (raw (this s)) xs) as [ys | e | ] eqn:Hys;
    simpl; try discriminate.
  intros H. injection H as <-. split; [reflexivity|].
  exists xs, ys. pose proof (as_json_list_each _ _ Hys) as Hall.
  repeat split; auto. symmetry. exact (Forall2_length Hall).
Qed.

Ltac returns_steps :=
  repeat first
    [ apply returns_as_json_each
    | apply returns_ret; simpl; solve [eauto]
    | eapply returns_bind; [apply returns_any | intros ? _ ] ].

(** X10: what the public methods return when they return: the listing
    methods a list; the cancel and close methods and [subscribe_price]
    [None], never the response of the SDK; [portfolio_summary] a dictionary
    with exactly the keys [cash], [buying_power], [portfolio_value] and
    [positions], in this order, the last one holding a list; [cash] and
    [buying_power] a float. *)
Theorem methods_return_their_shape (m : method) (s : store) (v : value) :
  fst (call_method m s) = Ok v -> result_shape m v.
Proof.
  revert s v. change (returns_in (result_shape m) (call_method m)).
  destruct m; cbn [call_method result_shape]; try apply returns_any;
    unfold get_positions, portfolio_summary, cancel_order, cancel_all_orders,
      list_orders, close_position, close_all_positions, list_assets,
      get_historical_bars, subscribe_price, __repr__;
    try (returns_steps; fail).
  - eapply returns_bind; [apply returns_any|intros acct _].
    apply (returns_bind (P := fun r => exists items, r = VList items));
      [unfold get_positions; returns_steps|].
    intros positions [items ->]. returns_steps.
  - apply (returns_bind
             (P := fun x => exists c p,
                       x = ("<SimpleAlpaca cash=$" ++ c ++ " portfolio=$" ++ p ++ ">")%string));
      [returns_steps|].
    intros x [c [p ->]]. apply returns_ret. simpl. eauto.
Qed.

Lemma lookup_returns_or_raises (k : subscript) (kvs : list (value * value)) :
  Py.lookup k kvs <> Hang.
Proof.
  induction kvs as [|[k' x] r IH]; cbn [Py.lookup]; [discriminate|].
  destruct (Py.key_matches k k'); [discriminate|exact IH].
Qed.

(** X11: [portfolio_summary] on an account dictionary that lacks one of the
    three fields raises [KeyError] for the first missing one, and only
    after the positions have been fetched as well. *)
Theorem portfolio_summary_missing_field
        (s s1 s2 : store) (kvs : list (value * value)) (positions : value)
        (name : string) :
  get_account_json s = (Ok (VDict kvs), s1) ->
  get_positions s1 = (Ok positions, s2) ->
  first_missing_field kvs = Some name ->
  portfolio_summary s = (Raise (KeyError (SubStr name)), s2).
Proof.
  intros Ha Hp Hm. unfold portfolio_summary.
  rewrite (bind_ok _ Ha), (bind_ok _ Hp).
  unfold first_missing_field in Hm. cbn [List.find] in Hm.
  unfold bind, pure. cbn [Py.getitem].
  pose proof (@lookup_returns_or_raises (SubStr "cash") kvs) as N1.
  pose proof (@lookup_returns_or_raises (SubStr "buying_power") kvs) as N2.
  pose proof (@lookup_returns_or_raises (SubStr "portfolio_value") kvs) as N3.
  destruct (Py.lookup (SubStr "cash") kvs) as [c | e | ] eqn:Hc;
    [|injection Hm as <-; now rewrite (lookup_raise _ _ Hc)|now destruct N1].
  destruct (Py.lookup (SubStr "buying_power") kvs) as [b | e | ] eqn:Hb;
    [|injection Hm as <-; now rewrite (lookup_raise _ _ Hb)|now destruct N2].
  destruct (Py.lookup (SubStr "portfolio_value") kvs) as [v | e | ] eqn:Hv;
    [discriminate|injection Hm as <-; now rewrite (lookup_raise _ _ Hv)
    |now destruct N3].
Qed.

End ResultProperties.


(** ** Arguments that are rejected, and responses that are picked apart *)

Section ResponseProperties.

Context {E : Externals} {Sv : Service}.

Local Open Scope py_scope.

(** A call that the SDK answers with [data]. *)
Lemma invoke_returned (c : call) (s : store) (data : answer c) :
  fst (perform c (service (env s))) = Returned data ->
  exists s1, sdk (invoke c) s = (Ok data, s1) /\ this s1 = this s.
Proof.
  intros H. destruct (invoke_cases c s) as (r & s1 & Hs & Ht & _ & Hp).
  rewrite H in Hp. subst r. exists s1. now split.
Qed.

(** X12: an order that cannot be built is never submitted.  When [_tif]
    raises on the time in force, [market_buy], [market_sell],
    [limit_order] and [stop_loss] raise that error; [trailing_stop] checks
    its triggers first, so that without a trigger its own [ValueError]
    wins.  When the SDK's [OrderRequest] rejects the keyword arguments,
    [_submit] and [submit_custom_order] raise that error.  In each case
    the history and the instance are as they were.  The two cases are
    independent of each other. *)
Theorem rejected_orders_are_not_submitted
        (symbol : string) (qty price : float) (trail_percent trail_price : option float)
        (side : string) (tif : string + TimeInForce) (kw : kwargs) (s : store) :
  (forall e,
      _tif tif = Raise e ->
      market_buy symbol qty tif s = (Raise e, s)
      /\ market_sell symbol qty tif s = (Raise e, s)
      /\ limit_order symbol qty price side tif s = (Raise e, s)
      /\ stop_loss symbol qty price side tif s = (Raise e, s)
      /\ trailing_stop symbol qty trail_percent trail_price side tif s
         = (Raise (if Py.truthy_float trail_percent || Py.truthy_float trail_price
                   then e else ValueError "Specify trail_percent or trail_price."), s))
  /\ (forall f,
        new_OrderRequest kw = Raised f ->
        _submit kw s = (Raise (Foreign f), s)
        /\ submit_custom_order kw s = (Raise (Foreign f), s)).
Proof.
  split.
  - intros e Ht.
    unfold market_buy, market_sell, limit_order, stop_loss, trailing_stop.
    change (pure (_tif tif)) with (pure (S := store) (_tif tif)).
    rewrite Ht.
    repeat split.
    destruct (Py.truthy_float trail_percent || Py.truthy_float trail_price);
      reflexivity.
  - intros f Hk. unfold submit_custom_order, _submit.
    rewrite !bind_self, Hk. split; reflexivity.
Qed.

(** X13: [get_last_bar] and [get_historical_bars] check their arguments
    before they call anything: a timeframe that does not parse, then a
    start, then an end that is no ISO date, make the method raise with the
    history untouched; the timeframe is looked at first. *)
Theorem malformed_arguments_reach_no_service
        (symbol : string) (timeframe : string + Z)
        (start end_ : string + datetime) (limit : option Z) (s : store) :
  (forall e,
      _tf_parse timeframe (inl Minute) = Raise e ->
      get_last_bar symbol timeframe s = (Raise e, s)
      /\ get_historical_bars symbol timeframe start end_ limit s = (Raise e, s))
  /\ (forall tf e,
        _tf_parse timeframe (inl Minute) = Ok tf ->
        to_datetime start = Raise e ->
        get_historical_bars symbol timeframe start end_ limit s = (Raise e, s))
  /\ (forall tf d e,
        _tf_parse timeframe (inl Minute) = Ok tf ->
        to_datetime start = Ok d ->
        to_datetime end_ = Raise e ->
        get_historical_bars symbol timeframe start end_ limit s = (Raise e, s)).
Proof.
  unfold get_last_bar, get_historical_bars.
  split; [|split].
  - intros e H. rewrite !bind_self.
    change (pure (_tf_parse timeframe (inl Minute)))
      with (pure (S := store) (_tf_parse timeframe (inl Minute))).
    rewrite H. split; reflexivity.
  - intros tf e H1 H2. rewrite bind_self.
    change (pure (_tf_parse timeframe (inl Minute)))
      with (pure (S := store) (_tf_parse timeframe (inl Minute))).
    rewrite H1, bind_pure_ok.
    change (pure (to_datetime start)) with (pure (S := store) (to_datetime start)).
    now rewrite H2.
  - intros tf d e H1 H2 H3. rewrite bind_self.
    change (pure (_tf_parse timeframe (inl Minute)))
      with (pure (S := store) (_tf_parse timeframe (inl Minute))).
    rewrite H1, bind_pure_ok.
    change (pure (to_datetime start)) with (pure (S := store) (to_datetime start)).
    rewrite H2, bind_pure_ok.
    change (pure (to_datetime end_)) with (pure (S := store) (to_datetime end_)).
    now rewrite H3.
Qed.

Lemma pick_cases (name : string) (data : value) :
  (forall q, Py.getattr data name = Some q -> pick name data = Ok q)
  /\ (forall k v rest, data = VDict ((k, v) :: rest) -> pick name data = Ok v)
  /\ (data = VDict [] -> pick name data = Raise StopIteration)
  /\ (forall xs, data = VList xs ->
                 pick name data
                 = Raise (AttributeError "object has no attribute 'values'")).
Proof.
  unfold pick. repeat split.
  - now intros q ->.
  - now intros k v rest ->.
  - now intros ->.
  - now intros xs ->.
Qed.

(** X14: [get_last_quote] returns the conversion of the [quote]
    attribute of the response when it has one; otherwise of the first
    value of the response taken as a dictionary, whatever its key and
    however many entries follow; on an empty dictionary it raises
    [StopIteration].  [get_last_trade] does the same with the [trade]
    attribute.  Each method is described on its own response. *)
Theorem latest_quote_and_trade_selection (symbol : string) (s : store) :
  (forall qreq quotes,
      new_StockLatestQuoteRequest symbol = Returned qreq ->
      fst (perform (Historical_get_stock_latest_quote (_hist (this s)) qreq)
                   (service (env s))) = Returned quotes ->
      fst (get_last_quote symbol s)
      = (q <- pick "quote" quotes ;; _as_json (raw (this s)) q)%outcome
      /\ (forall q,
            Py.getattr quotes "quote" = Some q ->
            fst (get_last_quote symbol s) = _as_json (raw (this s)) q)
      /\ (forall k v rest,
            quotes = VDict ((k, v) :: rest) ->
            fst (get_last_quote symbol s) = _as_json (raw (this s)) v)
      /\ (quotes = VDict [] -> fst (get_last_quote symbol s) = Raise StopIteration))
  /\ (forall treq trades,
        new_StockLatestTradeRequest symbol = Returned treq ->
        fst (perform (Historical_get_stock_latest_trade (_hist (this s)) treq)
                     (service (env s))) = Returned trades ->
        fst (get_last_trade symbol s)
        = (t <- pick "trade" trades ;; _as_json (raw (this s)) t)%outcome
        /\ (forall t,
              Py.getattr trades "trade" = Some t ->
              fst (get_last_trade symbol s) = _as_json (raw (this s)) t)
        /\ (forall k v rest,
              trades = VDict ((k, v) :: rest) ->
              fst (get_last_trade symbol s) = _as_json (raw (this s)) v)
        /\ (trades = VDict [] -> fst (get_last_trade symbol s) = Raise StopIteration)).
Proof.
  split.
  - intros qreq quotes Hq Hpq.
    destruct (invoke_returned _ _ Hpq) as (s1 & Hs1 & Hthis1).
    assert (fst (get_last_quote symbol s)
            = (q <- pick "quote" quotes ;; _as_json (raw (this s)) q)%outcome) as Gq.
    { unfold get_last_quote. rewrite bind_self, Hq. simpl of_reply.
      rewrite bind_pure_ok, (bind_ok _ Hs1). fold (pick "quote" quotes).
      unfold bind, pure. destruct (pick "quote" quotes); simpl; try reflexivity.
      now rewrite Hthis1. }
    split; [exact Gq|]. rewrite Gq. unfold pick.
    split; [|split].
    + intros q ->. reflexivity.
    + intros k v rest ->. reflexivity.
    + intros ->. reflexivity.
  - intros treq trades Ht Hpt.
    destruct (invoke_returned _ _ Hpt) as (s2 & Hs2 & Hthis2).
    assert (fst (get_last_trade symbol s)
            = (t <- pick "trade" trades ;; _as_json (raw (this s)) t)%outcome) as Gt.
    { unfold get_last_trade. rewrite bind_self, Ht. simpl of_reply.
      rewrite bind_pure_ok, (bind_ok _ Hs2). fold (pick "trade" trades).
      unfold bind, pure. destruct (pick "trade" trades); simpl; try reflexivity.
      now rewrite Hthis2. }
    split; [exact Gt|]. rewrite Gt. unfold pick.
    split; [|split].
    + intros q ->. reflexivity.
    + intros k v rest ->. reflexivity.
    + intros ->. reflexivity.
Qed.

Lemma seq_index_last {A} (init : list A) (x : A) (what : string) :
  Py.seq_index (init ++ [x]) (-1) what = Ok x.
Proof.
  unfold Py.seq_index. rewrite length_app. simpl List.length.
  change (-1 <? 0) with true. cbv iota.
  replace (-1 + Z.of_nat (List.length init + 1)) with (Z.of_nat (List.length init))
    by lia.
  destruct (Z.of_nat (List.length init) <? 0) eqn:H1; [apply Z.ltb_lt in H1; lia|].
  destruct (Z.of_nat (List.length init + 1) <=? Z.of_nat (List.length init)) eqn:H2;
    [apply Z.leb_le in H2; lia|].
  simpl. rewrite Nat2Z.id, nth_error_app2 by lia.
  now rewrite Nat.sub_diag.
Qed.

(** X15: [get_last_bar] asks for one bar ([limit=1]) and returns the
    conversion of the last element of the list it gets; on an empty list
    it raises [IndexError]. *)
Theorem last_bar_is_the_last_element
        (symbol : string) (timeframe : string + Z) (tf : TimeFrame)
        (bars : list value) (s : store) :
  _tf_parse timeframe (inl Minute) = Ok tf ->
  fst (perform (Historical_get_stock_bars_args (_hist (this s)) symbol tf 1)
               (service (env s))) = Returned (VList bars) ->
  (bars = [] ->
   fst (get_last_bar symbol timeframe s) = Raise (IndexError "list index out of range"))
  /\ (forall init bar,
        bars = (init ++ [bar])%list ->
        fst (get_last_bar symbol timeframe s) = _as_json (raw (this s)) bar).
Proof.
  intros Htf Hp.
  destruct (invoke_returned _ _ Hp) as (s1 & Hs1 & Hthis).
  assert (fst (get_last_bar symbol timeframe s)
          = (bar <- Py.getitem (VList bars) (SubInt (-1)) ;;
             _as_json (raw (this s)) bar)%outcome) as G.
  { unfold get_last_bar. rewrite bind_self.
    change (pure (_tf_parse timeframe (inl Minute)))
      with (pure (S := store) (_tf_parse timeframe (inl Minute))).
    rewrite Htf, bind_pure_ok, (bind_ok _ Hs1).
    unfold bind, pure.
    destruct (Py.getitem (VList bars) (SubInt (-1))); simpl; try reflexivity.
    now rewrite Hthis. }
  rewrite G. split.
  - intros ->. reflexivity.
  - intros init bar ->. cbn [Py.getitem]. now rewrite seq_index_last.
Qed.

(** X16: [get_historical_bars] takes the bars of the symbol from the [bars]
    attribute of the response when it has one, and from the response
    itself otherwise, whatever the response is: a dictionary, an object
    that can be subscripted, or anything else, for which the failure of
    the subscript is raised.  When the response is a dictionary without an
    entry for the symbol it raises [KeyError] with the symbol, after the
    call. *)
Theorem historical_bars_selection
        (symbol : string) (timeframe : string + Z) (start end_ : string + datetime)
        (limit : option Z) (tf : TimeFrame) (sd ed : datetime)
        (req : StockBarsRequest) (data : value) (s : store) :
  _tf_parse timeframe (inl Minute) = Ok tf ->
  to_datetime start = Ok sd ->
  to_datetime end_ = Ok ed ->
  new_StockBarsRequest symbol tf sd ed limit = Returned req ->
  fst (perform (Historical_get_stock_bars (_hist (this s)) req) (service (env s)))
  = Returned data ->
  let result := fst (get_historical_bars symbol timeframe start end_ limit s) in
  (forall b,
      Py.getattr data "bars" = Some b ->
      result = (bars <- Py.getitem b (SubStr symbol) ;;
                listing (raw (this s)) bars)%outcome)
  /\ (Py.getattr data "bars" = None ->
      result = (bars <- Py.getitem data (SubStr symbol) ;;
                listing (raw (this s)) bars)%outcome)
  /\ (forall kvs bars,
        data = VDict kvs ->
        Py.lookup (SubStr symbol) kvs = Ok bars ->
        result = listing (raw (this s)) bars)
  /\ (forall kvs e,
        data = VDict kvs ->
        Py.lookup (SubStr symbol) kvs = Raise e ->
        result = Raise (KeyError (SubStr symbol))).
Proof.
  intros Htf Hsd Hed Hreq Hp result.
  destruct (invoke_returned _ _ Hp) as (s1 & Hs1 & Hthis).
  assert (result
          = (bars <- match Py.getattr data "bars" with
                     | Some b => Py.getitem b (SubStr symbol)
                     | None => Py.getitem data (SubStr symbol)
                     end ;;
             listing (raw (this s)) bars)%outcome) as G.
  { subst result. unfold get_historical_bars. rewrite bind_self.
    change (pure (_tf_parse timeframe (inl Minute)))
      with (pure (S := store) (_tf_parse timeframe (inl Minute))).
    rewrite Htf, bind_pure_ok.
    change (pure (to_datetime start)) with (pure (S := store) (to_datetime start)).
    rewrite Hsd, bind_pure_ok.
    change (pure (to_datetime end_)) with (pure (S := store) (to_datetime end_)).
    rewrite Hed, bind_pure_ok, Hreq. simpl of_reply.
    rewrite bind_pure_ok, (bind_ok _ Hs1).
    unfold bind at 1. unfold pure at 1.
    destruct (match Py.getattr data "bars" with
              | Some b => Py.getitem b (SubStr symbol)
              | None => Py.getitem data (SubStr symbol)
              end) as [bars | e | ]; try reflexivity.
    cbv beta iota. unfold as_json_each. rewrite bind_self, Hthis. reflexivity. }
  rewrite G. split; [|split; [|split]].
  - now intros b ->.
  - now intros ->.
  - intros kvs bars -> Hl. cbn [Py.getattr Py.getitem]. now rewrite Hl.
  - intros kvs e -> Hl. cbn [Py.getattr Py.getitem].
    rewrite Hl. simpl. now rewrite (lookup_raise _ _ Hl).
Qed.

(** X17: with [raw_data=True] the helpers that index the account do not
    work on an account object that cannot be subscripted, such as the
    model the SDK returns: [cash], [buying_power] and [__repr__] raise
    [TypeError], and [portfolio_summary] never returns. *)
Theorem raw_mode_breaks_account_helpers (s : store) (o : pyobject value) :
  raw (this s) = true ->
  fst (perform (TradingClient_get_account (_trade (this s))) (service (env s)))
  = Returned (VObj o) ->
  o_getitem o = None ->
  fst (cash s) = Raise (TypeError "object is not subscriptable")
  /\ fst (buying_power s) = Raise (TypeError "object is not subscriptable")
  /\ fst (__repr__ s) = Raise (TypeError "object is not subscriptable")
  /\ (forall v, fst (portfolio_summary s) <> Ok v).
Proof.
  intros Hraw Hp Ho.
  destruct (invoke_returned _ _ Hp) as (s1 & Hs1 & Hthis).
  assert (get_account_json s = (Ok (VObj o), s1)) as Ha.
  { unfold get_account_json. rewrite bind_self, (bind_ok _ Hs1).
    rewrite as_json_state, Hthis, Hraw. reflexivity. }
  assert (forall k, Py.getitem (VObj o) k
                    = Raise (TypeError "object is not subscriptable")) as Hg.
  { intros k. cbn [Py.getitem]. now rewrite Ho. }
  unfold cash, buying_power, __repr__, portfolio_summary.
  rewrite !(bind_ok _ Ha). cbv beta.
  split; [unfold pure; now rewrite Hg|].
  split; [unfold pure; now rewrite Hg|].
  split; [unfold bind, pure; now rewrite Hg|].
  intros v. destruct (get_positions s1) as [[ps | e | ] s2] eqn:Hps.
  - rewrite (bind_ok _ Hps). cbv beta. unfold bind, pure. rewrite Hg. discriminate.
  - rewrite (bind_raise _ Hps). discriminate.
  - rewrite (bind_hang _ Hps). discriminate.
Qed.

End ResponseProperties.


(** ** Which calls a method makes *)

Section CallMapProperties.

Context {E : Externals} {Sv : Service}.

Local Open Scope py_scope.

Variable o : SimpleAlpaca.

Variable P : call -> Prop.

Lemma only_still {A} (m : M store A) :
  (forall s, snd (m s) = s) -> makes_only o P m.
Proof.
  intros H s Hc. rewrite H. split; [exact Hc|].
  exists []. split; [|constructor]. unfold added. now rewrite app_nil_r.
Qed.

Lemma only_set_ws (h : StockDataStream) : makes_only o P (set_ws h).
Proof.
  intros s Hc. split; [exact Hc|].
  exists []. split; [|constructor]. unfold added. simpl. now rewrite app_nil_r.
Qed.

Lemma only_invoke (c : call) : P c -> makes_only o P (sdk (invoke c)).
Proof.
  intros Hp s Hc. destruct (invoke_state c s) as (Ht & Ha & _).
  split; [now rewrite Ht|].
  eexists. split; [exact Ha|]. constructor; [exact Hp|constructor].
Qed.

Lemma only_bind {A B} (m : M store A) (f : A -> M store B) :
  makes_only o P m -> (forall a, makes_only o P (f a)) ->
  makes_only o P (bind m f).
Proof.
  intros Hm Hf s Hc. unfold bind. destruct (Hm s Hc) as (C1 & e1 & A1 & F1).
  destruct (m s) as [[a | e | ] s1]; simpl in *; eauto.
  destruct (Hf a s1 C1) as (C2 & e2 & A2 & F2).
  split; [exact C2|]. exists (e1 ++ e2)%list.
  split; [exact (added_trans A1 A2)|]. apply Forall_app. now split.
Qed.

Lemma only_bind_self {B} (f : SimpleAlpaca -> M store B) :
  (forall a, same_config o a -> makes_only o P (f a)) ->
  makes_only o P (bind self f).
Proof. intros Hf s Hc. rewrite bind_self. now apply Hf. Qed.

End CallMapProperties.

Section CallMap.

Context {E : Externals} {Sv : Service}.

Local Open Scope py_scope.

Ltac only_steps :=
  repeat first
    [ apply only_set_ws
    | apply only_bind_self; intros ? (_ & ?Ht & ?Hh & ?Hk & ?Hs)
    | match goal with
      | |- makes_only _ _ (sdk (invoke ?c)) =>
          apply (@only_invoke _ _ _ _ c); simpl;
          repeat match goal with H : _ = _ |- _ => rewrite H end;
          solve [ reflexivity | eexists; reflexivity
                | left; reflexivity | right; reflexivity ]
      end
    | apply only_still; intros ?; reflexivity
    | apply only_bind; [ | intros ? ] ].

Lemma only_subscribe_each (o : SimpleAlpaca) (symbols : list string)
      (handler : callback) (all : list string) :
  incl symbols all ->
  makes_only o (permitted o (Subscribe_price all handler))
             (subscribe_each symbols handler).
Proof.
  induction symbols as [|sym rest IH]; intros Hin; cbn [subscribe_each].
  - only_steps.
  - apply only_bind.
    + apply only_still. intros s. unfold the_ws, bind, self.
      now destruct (_ws (this s)).
    + intros ws. apply only_bind.
      * apply only_invoke. right. left. exists ws, sym.
        split; [apply Hin; now left|reflexivity].
      * intros _. apply IH. intros x Hx. apply Hin. now right.
Qed.

Lemma only_subscribe_price (o : SimpleAlpaca) (symbols : list string)
      (handler : callback) :
  makes_only o (permitted o (Subscribe_price symbols handler))
             (subscribe_price symbols handler).
Proof.
  unfold subscribe_price. apply only_bind.
  - unfold _ensure_ws. apply only_bind_self. intros a (_ & _ & _ & Hk & Hs).
    destruct (_ws a); [only_steps|].
    apply only_bind; [|intros h; apply only_set_ws].
    apply only_invoke. left. now rewrite Hk, Hs.
  - intros _. apply only_bind; [apply only_subscribe_each, incl_refl|intros _].
    apply only_bind.
    + apply only_still. intros s. unfold the_ws, bind, self.
      now destruct (_ws (this s)).
    + intros ws. apply only_bind; [|intros _; only_steps].
      apply only_invoke. right. right. now exists ws.
Qed.

(** X18: each public method calls only what it is for, on the clients of
    its own instance: the account, position, order, asset and market-data
    readers make their one kind of read call and never submit, cancel or
    close anything; the order helpers only submit; the cancel and close
    methods make their own call; [subscribe_price] only creates a stream
    with the stored credentials, registers symbols of its argument with
    the given callback, and runs. *)
Theorem methods_make_only_their_calls (m : method) (s : store) :
  exists evs,
    added s (snd (call_method m s)) evs
    /\ Forall (fun ev => permitted (this s) m (fst ev)) evs.
Proof.
  enough (makes_only (this s) (permitted (this s) m) (call_method m)) as H.
  { exact (proj2 (H s (same_config_refl _))). }
  generalize (this s) as o. intros o.
  destruct m; cbn [call_method];
    try apply only_subscribe_price;
    unfold get_account_json, get_positions, get_position, portfolio_summary,
      get_account_json, get_positions, market_buy, market_sell, limit_order,
      stop_loss, trailing_stop, submit_custom_order, _submit, cancel_order,
      cancel_all_orders, list_orders, get_order, close_position,
      close_all_positions, list_assets, get_last_quote, get_last_trade,
      get_last_bar, get_historical_bars, cash, buying_power, __repr__,
      get_account_json, as_json, as_json_each;
    try match goal with
        | |- context [if ?b then _ else _] => destruct b
        end;
    only_steps.
Qed.

End CallMap.

(* ================================================================== *)
(** * The statements on the stand-in SDK *)

Module OnFixture.

Import Fixture.

Local Open Scope py_scope.

(** C1, as stated, fails: a trail percentage is supplied, namely [0.0], and
    [trailing_stop] still raises its validation error without building or
    submitting anything. *)
Lemma trailing_stop_supplied_zero_is_rejected :
  Some 0%float <> None
  /\ trailing_stop "SPY" 1%float (Some 0%float) None "sell" (inl "gtc") (instance false)
     = (Raise (ValueError "Specify trail_percent or trail_price."), instance false).
Proof. split; [discriminate|reflexivity]. Qed.

(** C1 with a trail of two percent: the request is built and submitted. *)
Lemma trailing_stop_two_percent_is_submitted :
  exists st,
    added (instance false)
          (snd (trailing_stop "SPY" 1%float (Some 2%float) None "sell" (inl "gtc")
                              (instance false)))
          [(TradingClient_submit_order tt
              (trailing_stop_kwargs "SPY" 1%float (Some 2%float) None "sell" GTC),
            st)].
Proof.
  refine (proj2 (proj2 (proj2 (proj2
            (trailing_stop_validation "SPY" 1%float (Some 2%float) None "sell"
                                      (inl "gtc") (instance false)))
            eq_refl)) GTC _ eq_refl eq_refl).
Defined.

(** C4, as stated, fails: [get_last_bar] with the timeframe ["1Week"]
    raises a [KeyError] of the wrapper's own, without any call on the
    SDK. *)
Lemma unknown_unit_raises_locally :
  call_method (Get_last_bar "SPY" (inl "1Week")) (instance false)
  = (Raise (KeyError (SubStr "wee")), instance false)
  /\ is_local (KeyError (SubStr "wee")) = true
  /\ KeyError (SubStr "wee") <> ValueError "Specify trail_percent or trail_price.".
Proof. split; [reflexivity|]. split; [reflexivity|discriminate]. Qed.

(** C7 on a program: two subscriptions around another call create one
    stream, which stays the handle of the instance. *)
Lemma one_stream_for_two_subscriptions :
  let s' := run_methods [Subscribe_price (E := stub_externals) ["AAPL"] 7%nat; Get_account_json;
                         Subscribe_price (E := stub_externals) ["MSFT"; "SPY"] 8%nat]
                        (instance false) in
  stream_invariant s'
  /\ (creations (trace (env s')) <= 1)%nat
  /\ _ws (this s') = Some 2%nat.
Proof.
  cbv zeta.
  destruct (proj2 (proj2 (proj2 (proj2 (proj2 stream_handle_created_at_most_once))))
              [Subscribe_price (E := stub_externals) ["AAPL"] 7%nat; Get_account_json;
               Subscribe_price (E := stub_externals) ["MSFT"; "SPY"] 8%nat]
              (instance false) eq_refl) as (H1 & H2 & _).
  split; [exact H1|]. split; [exact H2|reflexivity].
Defined.

(** C8 on two symbols: the history of the call. *)
Example subscribe_price_two_symbols :
  trace (env (snd (subscribe_price (E := stub_externals) ["AAPL"; "MSFT"] 7%nat (instance false))))
  = (trace (env (instance false))
       ++ [(StockDataStream_new "key" "secret", Completed);
           (StockDataStream_subscribe_bars (E := stub_externals) 2%nat 7%nat "AAPL", Completed);
           (StockDataStream_subscribe_bars 2%nat 7%nat "MSFT", Completed);
           (StockDataStream_run 2%nat, Completed)])%list.
Proof. reflexivity. Qed.

(** The call of the repository's test [test_historical_bars]: the daily
    timeframe and two ISO dates give one request and one call. *)
Example historical_bars_of_the_test :
  trace (env (snd (get_historical_bars "SPY" (inl "1Day") (inl "2023-01-03")
                                       (inl "2023-01-10") None (instance false))))
  = (trace (env (instance false))
       ++ [(Historical_get_stock_bars tt ("SPY", (1, UDay)), Completed)])%list.
Proof. reflexivity. Qed.

(** C9, as stated, fails: in raw mode [portfolio_summary], a read
    operation, does not return the response of the SDK; on the account
    model the SDK returns it raises a [TypeError] of its own. *)
Lemma raw_portfolio_summary_is_not_the_response :
  raw (this (instance true)) = true
  /\ fst (sdk (invoke (TradingClient_get_account tt)) (instance true)) = Ok account
  /\ fst (portfolio_summary (instance true))
     = Raise (TypeError "object is not subscriptable").
Proof. repeat split. Qed.

(** C9 in raw mode: [get_account_json] returns the account model itself,
    where it returns the dumped dictionary otherwise. *)
Lemma raw_account_is_the_response :
  fst (get_account_json (instance true)) = Ok account
  /\ fst (get_account_json (instance false)) = Ok (VDict account_fields).
Proof.
  split; [|reflexivity].
  rewrite (proj1 (proj2 (raw_mode_skips_normalisation (instance true) eq_refl))).
  reflexivity.
Defined.


(** ** The further properties on the stand-in SDK *)

(** The streams of a constructed instance carry its credentials. *)
Lemma streams_of_a_constructed_instance :
  construct "key" "secret" true false fresh = Some (instance false)
  /\ exists evs,
       added (instance false)
             (run_methods [Subscribe_price (E := stub_externals) ["AAPL"] 7%nat;
                           Get_account_json]
                          (instance false)) evs
       /\ Forall (fun ev =>
                    match fst ev with
                    | TradingClient_new _ _ _ => False
                    | StockHistoricalDataClient_new _ _ => False
                    | StockDataStream_new k sec => k = "key" /\ sec = "secret"
                    | _ => True
                    end) evs.
Proof.
  split; [reflexivity|].
  apply (streams_use_the_constructor_credentials "key" "secret" true false fresh).
  reflexivity.
Defined.

(** The comprehension over an order and an account. *)
Lemma comprehension_on_two_models :
  fst (as_json_each (VList [order; account]) (instance false))
  = Ok (VList [VDict [(VStr "id", VStr "order-1")]; VDict account_fields])
  /\ snd (as_json_each (VList [order; account]) (instance false)) = instance false
  /\ exists xs ys,
       Py.iterate (VList [order; account]) = Ok xs
       /\ VList [VDict [(VStr "id", VStr "order-1")]; VDict account_fields] = VList ys
       /\ List.length ys = List.length xs
       /\ Forall2 (fun x y => _as_json (raw (this (instance false))) x = Ok y) xs ys.
Proof.
  split; [reflexivity|].
  apply (comprehension_converts_item_by_item (VList [order; account]) (instance false)).
  reflexivity.
Defined.

(** [portfolio_summary] returns its four keys. *)
Lemma portfolio_summary_has_four_keys :
  exists v,
    fst (call_method Portfolio_summary (instance false)) = Ok v
    /\ result_shape Portfolio_summary v.
Proof.
  eexists. split; [reflexivity|].
  apply (methods_return_their_shape Portfolio_summary (instance false)).
  reflexivity.
Defined.

(** In raw mode [cash] fails on the account model. *)
Lemma raw_cash_raises_type_error :
  raw (this (instance true)) = true
  /\ fst (cash (instance true)) = Raise (TypeError "object is not subscriptable")
  /\ fst (__repr__ (instance true)) = Raise (TypeError "object is not subscriptable").
Proof.
  split; [reflexivity|].
  destruct (raw_mode_breaks_account_helpers
              (instance true)
              (o := {| o_class := "TradeAccount";
                       o_model_dump := Some (Returned (VDict account_fields));
                       o_builtin := false;
                       o_iter := Some (Returned (List.map fst account_fields));
                       o_todict := Returned account_fields;
                       o_vars := Some account_fields;
                       o_attrs := [];
                       o_getitem := None;
                       o_values := None |})
              eq_refl eq_refl eq_refl) as (H1 & _ & H3 & _).
  split; [exact H1|exact H3].
Defined.

End OnFixture.

(* ================================================================== *)
(** * The further properties on the stand-in market-data service *)

Module OnMarket.

Import Market.

Local Open Scope py_scope.

(** C4 on two calls: the weekly timeframe fails locally, with an error
    listed for [get_last_bar]; the error of the service for a position
    that is not held reaches the caller of [get_position] unchanged. *)
Lemma local_error_is_listed_and_call_error_propagates :
  call_method (Get_last_bar "SPY" (inl "1Week")) (instance false)
  = (Raise (KeyError (SubStr "wee")), instance false)
  /\ may_raise_locally (Get_last_bar "SPY" (inl "1Week")) (KeyError (SubStr "wee"))
  /\ fst (call_method (Get_position "TSLA") (instance false))
     = Raise (Foreign no_position).
Proof.
  split; [reflexivity|]. split.
  - apply (proj1 (errors_are_foreign_or_listed
                    (Get_last_bar "SPY" (inl "1Week")) (instance false)));
      reflexivity.
  - destruct (proj2 (errors_are_foreign_or_listed
                       (Get_position "TSLA") (instance false)))
      as (evs & Hadd & Hprop & _).
    refine (proj1 (Hprop (TradingClient_get_position (E := sdk_externals) tt "TSLA")
                         no_position _)).
    unfold added in Hadd. simpl in Hadd. injection Hadd as <-.
    left. reflexivity.
Defined.

(** An interrupt raised while the object is flattened is not swallowed. *)
Lemma as_json_lets_an_interrupt_through :
  has_model_dump cursor = false
  /\ _as_json false cursor = Raise (Foreign interrupt)
  /\ is_Exception (Foreign interrupt) = false.
Proof.
  split; [reflexivity|]. split; [reflexivity|].
  apply (as_json_swallows_exceptions cursor); reflexivity.
Defined.

(** The account lacks [portfolio_value]: [portfolio_summary] raises after
    both calls. *)
Lemma summary_without_portfolio_value :
  exists s2,
    portfolio_summary (instance false)
    = (Raise (KeyError (SubStr "portfolio_value")), s2)
    /\ List.length (trace (env s2)) = 4%nat.
Proof.
  eexists. split.
  - eapply portfolio_summary_missing_field; reflexivity.
  - reflexivity.
Defined.

(** An unknown time in force and a request without symbol are rejected
    before anything is submitted. *)
Lemma orders_rejected_before_submission :
  market_buy "SPY" 1%float (inl "forever") (instance false)
  = (Raise (Foreign (Fixture.invalid "ValueError" "is not a valid TimeInForce")),
     instance false)
  /\ trailing_stop "SPY" 1%float None None "sell" (inl "forever") (instance false)
     = (Raise (ValueError "Specify trail_percent or trail_price."), instance false)
  /\ submit_custom_order [("qty", KNum 1%float)] (instance false)
     = (Raise (Foreign (Fixture.invalid "ValidationError" "symbol: Field required")),
        instance false).
Proof.
  destruct (rejected_orders_are_not_submitted
              "SPY" 1%float 1%float None None "sell" (inl "forever")
              [("qty", KNum 1%float)] (instance false))
    as (Htif & Hreq).
  destruct (Htif _ eq_refl) as (H1 & _ & _ & _ & H5).
  destruct (Hreq _ eq_refl) as (_ & H7).
  split; [exact H1|]. split; [exact H5|exact H7].
Defined.

(** A weekly timeframe and a start that is no date reach no service. *)
Lemma week_and_bad_date_reach_no_service :
  get_last_bar "SPY" (inl "1Week") (instance false)
  = (Raise (KeyError (SubStr "wee")), instance false)
  /\ get_historical_bars "SPY" (inl "1Day") (inl "yesterday") (inl "2023-01-10") None
                         (instance false)
     = (Raise (ValueError "Invalid isoformat string"), instance false).
Proof.
  split.
  - exact (proj1 (proj1 (malformed_arguments_reach_no_service
                           "SPY" (inl "1Week") (inl "yesterday") (inl "2023-01-10")
                           None (instance false))
                        _ eq_refl)).
  - exact (proj1 (proj2 (malformed_arguments_reach_no_service
                           "SPY" (inl "1Day") (inl "yesterday") (inl "2023-01-10")
                           None (instance false)))
                 _ _ eq_refl eq_refl).
Defined.

(** The latest quote and trade of a symbol, from the dictionary keyed by
    symbol. *)
Lemma latest_quote_and_trade_of_spy :
  fst (get_last_quote "SPY" (instance false))
  = Ok (VDict [(VStr "ask_price", VStr "101.5")])
  /\ fst (get_last_trade "SPY" (instance false))
     = Ok (VDict [(VStr "price", VStr "101.4")]).
Proof.
  destruct (latest_quote_and_trade_selection "SPY" (instance false))
    as (Hquote & Htrade).
  destruct (Hquote _ _ eq_refl eq_refl) as (_ & _ & Hq & _).
  destruct (Htrade _ _ eq_refl eq_refl) as (_ & _ & Ht & _).
  split.
  - rewrite (Hq _ _ _ eq_refl). reflexivity.
  - rewrite (Ht _ _ _ eq_refl). reflexivity.
Defined.

(** The last of two bars. *)
Lemma last_bar_of_two :
  fst (get_last_bar "SPY" (inl "1Min") (instance false))
  = Ok (VDict [(VStr "close", VStr "11")]).
Proof.
  destruct (last_bar_is_the_last_element
              (symbol := "SPY") (inl "1Min") (instance false) eq_refl eq_refl)
    as (_ & H).
  rewrite (H [bar "10"] (bar "11") eq_refl). reflexivity.
Defined.

(** The bars of the symbol, from the [bars] attribute of the bar set. *)
Lemma historical_bars_of_a_bar_set :
  fst (get_historical_bars "SPY" (inl "1Day") (inl "2023-01-03") (inl "2023-01-10")
                           None (instance false))
  = Ok (VList [VDict [(VStr "close", VStr "10")]; VDict [(VStr "close", VStr "11")]]).
Proof.
  destruct (historical_bars_selection
              "SPY" (inl "1Day") (inl "2023-01-03") (inl "2023-01-10") None
              (instance false) eq_refl eq_refl eq_refl eq_refl eq_refl)
    as (H & _).
  rewrite (H _ eq_refl). reflexivity.
Defined.

End OnMarket.
